(** * Group16 investment assistant: the metrics engine of [final.py]

    A shallow embedding of the pure core of [src/Group16/final.py]
    ([format_ticker], [flatten], [fetch_price_and_metrics] and the
    computing part of [calculate_retirement]) together with the properties
    stated about it.  [Group16_Final.py] has the same three functions; its
    [calculate_retirement] has no per-year table.

    Modelling conventions.
    - A Python [str] is a byte string ([string]); whitespace and letter case
      are those of ASCII, which is what ticker symbols are written in.
    - A NumPy/Python float is a value of [flt]: a real number, plus or minus
      infinity, or not-a-number.  Arithmetic on finite values is exact real
      arithmetic (no rounding, no overflow, zeros carry no sign); the special
      values follow IEEE 754.
    - A daily bar is indexed by the ordinal of its calendar day (days since
      1970-01-01); time of day is not represented, and a date argument that
      parses gives such a day, comparable with the index (no time zone).
    - Exceptions are values of [exn]; a computation that may raise returns
      a [result]. *)

From Stdlib Require Import String Ascii List ZArith Bool Reals Lra Lia Sorted.
Import ListNotations.

Set Implicit Arguments.

(** ** Python strings *)

Module PyStr.

Local Open Scope string_scope.

(** [str.isspace] on one ASCII character: TAB, LF, VT, FF, CR, the four
    separators FS..US and the space. *)
Definition is_space (c : ascii) : bool :=
  let n := nat_of_ascii c in
  (((9 <=? n) && (n <=? 13)) || ((28 <=? n) && (n <=? 32)))%nat.

Definition is_lower (c : ascii) : bool :=
  let n := nat_of_ascii c in ((97 <=? n) && (n <=? 122))%nat.

Definition upper_char (c : ascii) : ascii :=
  if is_lower c then ascii_of_nat (nat_of_ascii c - 32) else c.

Fixpoint upper (s : string) : string :=
  match s with
  | EmptyString => EmptyString
  | String c s' => String (upper_char c) (upper s')
  end.

Fixpoint lstrip (s : string) : string :=
  match s with
  | EmptyString => EmptyString
  | String c s' => if is_space c then lstrip s' else s
  end.

Fixpoint rev_onto (s acc : string) : string :=
  match s with
  | EmptyString => acc
  | String c s' => rev_onto s' (String c acc)
  end.

Definition rev (s : string) : string := rev_onto s EmptyString.

Definition rstrip (s : string) : string := rev (lstrip (rev s)).

Definition strip (s : string) : string := rstrip (lstrip s).

(** Truth value of a string: the empty string is false. *)
Definition truthy (s : string) : bool :=
  match s with EmptyString => false | _ => true end.

(** [dict.get(key, default)] on a dictionary literal. *)
Fixpoint dict_get (d : list (string * string)) (key default : string) : string :=
  match d with
  | [] => default
  | (k, v) :: d' => if String.eqb k key then v else dict_get d' key default
  end.

End PyStr.

(** ** Ticker normalisation *)

Module Ticker.

Import PyStr.
Local Open Scope string_scope.

Definition US : string := "美國".
Definition Taiwan : string := "台灣".
Definition Japan : string := "日本".
Definition UK : string := "英國".

Definition suffix_table : list (string * string) :=
  [(Taiwan, ".TW"); (Japan, ".T"); (UK, ".L")].

(** [format_ticker(raw, market)], final.py lines 30-38. *)
Definition format_ticker (raw market : string) : string :=
  let raw := upper (strip raw) in
  if String.eqb market US then raw
  else raw ++ dict_get suffix_table market EmptyString.

End Ticker.

(** ** Floating-point values *)

Module Float.

Local Open Scope R_scope.

Inductive flt : Type :=
| Fin (r : R)
| PInf
| NInf
| NaN.

Inductive sign : Type := Neg | Zero | Pos.

Definition Rsign (r : R) : sign :=
  match total_order_T r 0 with
  | inleft (left _) => Neg
  | inleft (right _) => Zero
  | inright _ => Pos
  end.

Definition sign_mul (s t : sign) : sign :=
  match s, t with
  | Zero, _ | _, Zero => Zero
  | Pos, Pos | Neg, Neg => Pos
  | Pos, Neg | Neg, Pos => Neg
  end.

(** Sign of a value that is not NaN (NaN is given [Zero], and is always
    handled before its sign is asked for). *)
Definition sgn (x : flt) : sign :=
  match x with
  | Fin r => Rsign r
  | PInf => Pos
  | NInf => Neg
  | NaN => Zero
  end.

(** The infinity of a given sign; a zero sign stands for an invalid
    operation (0 * inf, 0 / 0) and gives NaN. *)
Definition inf_of (s : sign) : flt :=
  match s with
  | Pos => PInf
  | Neg => NInf
  | Zero => NaN
  end.

Definition is_nan (x : flt) : bool :=
  match x with NaN => true | _ => false end.

Definition is_finite (x : flt) : bool :=
  match x with Fin _ => true | _ => false end.

Definition fneg (x : flt) : flt :=
  match x with
  | Fin r => Fin (- r)
  | PInf => NInf
  | NInf => PInf
  | NaN => NaN
  end.

Definition fadd (x y : flt) : flt :=
  match x, y with
  | NaN, _ | _, NaN => NaN
  | Fin a, Fin b => Fin (a + b)
  | PInf, NInf | NInf, PInf => NaN
  | PInf, _ | _, PInf => PInf
  | NInf, _ | _, NInf => NInf
  end.

Definition fsub (x y : flt) : flt := fadd x (fneg y).

Definition fmul (x y : flt) : flt :=
  match x, y with
  | NaN, _ | _, NaN => NaN
  | Fin a, Fin b => Fin (a * b)
  | _, _ => inf_of (sign_mul (sgn x) (sgn y))
  end.

(** NumPy division: a zero divisor gives an infinity or NaN, never an
    exception. *)
Definition fdiv (x y : flt) : flt :=
  match x, y with
  | NaN, _ | _, NaN => NaN
  | Fin a, Fin b => if Req_dec_T b 0 then inf_of (Rsign a) else Fin (a / b)
  | Fin _, _ => Fin 0
  | _, Fin b => inf_of (sign_mul (sgn x) (if Rlt_dec b 0 then Neg else Pos))
  | _, _ => NaN
  end.

Definition is_int (y : R) : bool :=
  if Req_dec_T (IZR (Int_part y)) y then true else false.

Definition is_odd_int (y : R) : bool := is_int y && Z.odd (Int_part y).

(** [x ** y] for a NumPy float [x] and a finite Python float [y]
    (C [pow]): anything to the power 0 is 1; a negative base needs an
    integer exponent. *)
Definition fpow (x : flt) (y : R) : flt :=
  if Req_dec_T y 0 then Fin 1 else
  match x with
  | NaN => NaN
  | Fin a =>
      match Rsign a with
      | Pos => Fin (Rpower a y)
      | Zero => if Rlt_dec 0 y then Fin 0 else PInf
      | Neg =>
          if is_int y
          then Fin ((if Z.odd (Int_part y) then -1 else 1) * Rpower (- a) y)
          else NaN
      end
  | PInf => if Rlt_dec 0 y then PInf else Fin 0
  | NInf =>
      if Rlt_dec 0 y then (if is_odd_int y then NInf else PInf) else Fin 0
  end.

(** [x <= 0]: false on NaN. *)
Definition fle0 (x : flt) : bool :=
  match x with
  | Fin r => if Rle_dec r 0 then true else false
  | NInf => true
  | PInf | NaN => false
  end.

(** Truth value of a float: only zero is false (NaN is true). *)
Definition truthy (x : flt) : bool :=
  match x with
  | Fin r => if Req_dec_T r 0 then false else true
  | _ => true
  end.

(** [clip(upper=0)] on one value. *)
Definition clip_upper0 (x : flt) : flt :=
  match x with
  | Fin r => Fin (Rmin r 0)
  | PInf => Fin 0
  | NInf => NInf
  | NaN => NaN
  end.

(** Larger of two values, neither of which is NaN. *)
Definition fmax2 (x y : flt) : flt :=
  match x, y with
  | NaN, z | z, NaN => z
  | PInf, _ | _, PInf => PInf
  | NInf, z | z, NInf => z
  | Fin a, Fin b => Fin (Rmax a b)
  end.

End Float.

(** ** Exceptions *)

Module Py.

Local Open Scope string_scope.

Inductive exn : Type :=
| ValueError (msg : string)
| IndexError
| ZeroDivisionError.

Inductive result (A : Type) : Type :=
| Ok (a : A)
| Raise (e : exn).

Arguments Raise {A} e.

Definition bind {A B : Type} (m : result A) (k : A -> result B) : result B :=
  match m with
  | Ok a => k a
  | Raise e => Raise e
  end.

(** The four messages of the [ValueError]s raised by
    [fetch_price_and_metrics]. *)
Definition msg_no_data : string := "抓不到資料或缺少 Adjusted Close 欄位".
Definition msg_bad_start : string := "開始日期格式錯誤，請使用 YYYY-MM-DD".
Definition msg_bad_end : string := "結束日期格式錯誤，請使用 YYYY-MM-DD".
Definition msg_no_rows : string := "指定期間內無成交資料".

(** The failures of the specification's taxonomy. *)
Definition DataUnavailable : exn := ValueError msg_no_data.
Definition InvalidDateFormat (which_end : bool) : exn :=
  ValueError (if which_end then msg_bad_end else msg_bad_start).
Definition EmptyRange : exn := ValueError msg_no_rows.

End Py.

Notation "x <- m ;; k" := (Py.bind m (fun x => k))
  (at level 61, m at next level, right associativity).

(** ** Series and frames *)

Module Pandas.

Import Float Py.
Local Open Scope R_scope.

(** [Series.pct_change]: undefined on the first entry, then
    [x[i] / x[i-1] - 1].  A missing price is not filled from the row
    before; a PriceSeries has none. *)
Fixpoint pct_from (prev : flt) (l : list flt) : list flt :=
  match l with
  | [] => []
  | x :: l' => fsub (fdiv x prev) (Fin 1) :: pct_from x l'
  end.

Definition pct_change (l : list flt) : list flt :=
  match l with
  | [] => []
  | x :: l' => NaN :: pct_from x l'
  end.

(** [Series.cumprod]: running product; a NaN entry stays NaN and is left
    out of the product. *)
Fixpoint cumprod_from (acc : flt) (l : list flt) : list flt :=
  match l with
  | [] => []
  | x :: l' =>
      if is_nan x then NaN :: cumprod_from acc l'
      else fmul acc x :: cumprod_from (fmul acc x) l'
  end.

Definition cumprod (l : list flt) : list flt := cumprod_from (Fin 1) l.

Definition Rsum (l : list R) : R := fold_right Rplus 0 l.

Definition mean (l : list R) : R := Rsum l / INR (length l).

Definition sample_var (l : list R) : R :=
  Rsum (map (fun x => (x - mean l) * (x - mean l)) l) / (INR (length l) - 1).

Definition count_valid (l : list flt) : nat :=
  length (filter (fun x => negb (is_nan x)) l).

(** The entries that are not NaN, when all of them are finite. *)
Fixpoint finite_values (l : list flt) : option (list R) :=
  match l with
  | [] => Some []
  | NaN :: l' => finite_values l'
  | Fin r :: l' => option_map (cons r) (finite_values l')
  | _ :: _ => None
  end.

(** [Series.std()]: sample standard deviation (ddof = 1) of the entries
    that are not NaN; NaN with fewer than two of them, or when one is
    infinite. *)
Definition std (l : list flt) : flt :=
  if (count_valid l <? 2)%nat then NaN
  else match finite_values l with
       | Some rs => Fin (sqrt (sample_var rs))
       | None => NaN
       end.

(** [Series.max()]: NaN entries are skipped; NaN when nothing is left. *)
Definition smax (l : list flt) : flt := fold_right fmax2 NaN l.

(** [.iloc[0]] and [.iloc[-1]]. *)
Definition iloc_first {A : Type} (l : list A) : result A :=
  match l with
  | [] => Raise IndexError
  | x :: _ => Ok x
  end.

Fixpoint iloc_last {A : Type} (l : list A) : result A :=
  match l with
  | [] => Raise IndexError
  | [x] => Ok x
  | _ :: l' => iloc_last l'
  end.

(** Python float division. *)
Definition py_div (a b : R) : result R :=
  if Req_dec_T b 0 then Raise ZeroDivisionError else Ok (a / b).

(** A provider table: column labels (one level, or tuples of levels),
    the date index, and the cells column by column. *)
Inductive columns : Type :=
| Index (labels : list string)
| MultiIndex (labels : list (string * list string)).

Record DataFrame : Type := mkDataFrame {
  df_columns : columns;
  df_index : list Z;
  df_data : list (list flt)
}.

Definition get_level_values0 (c : columns) : list string :=
  match c with
  | Index labels => labels
  | MultiIndex labels => map fst labels
  end.

Definition df_empty (df : DataFrame) : bool :=
  (length (df_index df) =? 0)%nat
  || (length (get_level_values0 (df_columns df)) =? 0)%nat.

Definition has_column (name : string) (df : DataFrame) : bool :=
  existsb (String.eqb name) (get_level_values0 (df_columns df)).

Fixpoint column_at (name : string) (labels : list string)
    (data : list (list flt)) : list flt :=
  match labels, data with
  | l :: labels', c :: data' =>
      if String.eqb l name then c else column_at name labels' data'
  | _, _ => []
  end.

Definition column (name : string) (df : DataFrame) : list flt :=
  column_at name (get_level_values0 (df_columns df)) (df_data df).

End Pandas.

(** ** The metrics engine *)

Module Metrics.

Import Float Py Pandas.
Local Open Scope R_scope.

(** One row of the frame returned by [fetch_price_and_metrics], with the
    columns later code reads. *)
Record row : Type := mkRow {
  Date : Z;
  AdjClose : flt;
  Return : flt;
  CumReturn : flt;
  Downside : flt
}.

(** The dictionary [metrics]. *)
Record metrics : Type := mkMetrics {
  m_start : Z;
  m_end : Z;
  m_years : R;
  m_cum : flt;
  m_ann : flt;
  m_std : flt;
  m_sharpe : flt;
  m_sortino : flt
}.

(** Global [risk_free_rate], final.py line 26. *)
Definition risk_free_rate : R := 0.

(** [flatten(df)], final.py lines 40-46. *)
Definition flatten (df : DataFrame) : DataFrame :=
  match df_columns df with
  | MultiIndex _ =>
      mkDataFrame (Index (get_level_values0 (df_columns df)))
                  (df_index df) (df_data df)
  | Index _ => df
  end.

(** [df.reset_index()] followed by the two columns that are read:
    [Date] and [Adj Close]. *)
Definition reset_index (df : DataFrame) : list (Z * flt) :=
  combine (df_index df) (column "Adj Close" df).

(** [if start_date:] on an optional string. *)
Definition given (arg : option string) : option string :=
  match arg with
  | Some s => if PyStr.truthy s then Some s else None
  | None => None
  end.

Definition is_nil {A : Type} (l : list A) : bool :=
  match l with [] => true | _ => false end.

(** [df["Return"] = pct_change(); df.dropna(subset=["Return"])]: the
    rows (date, adjusted close, return) whose return is not NaN. *)
Definition with_returns (df : list (Z * flt)) : list (Z * flt * flt) :=
  filter (fun x => negb (is_nan (snd x)))
         (combine df (pct_change (map snd df))).

(** [(1 + df["Return"]).cumprod() - 1]. *)
Definition cum_returns (returns : list flt) : list flt :=
  map (fun c => fsub c (Fin 1)) (cumprod (map (fun r => fadd (Fin 1) r) returns)).

(** [column.std() * np.sqrt(252)], lines 92 and 99. *)
Definition annualised_std (xs : list flt) : flt :=
  fmul (std xs) (Fin (sqrt 252)).

Definition build_rows (kept : list (Z * flt * flt)) (cum down : list flt)
  : list row :=
  map (fun x => match x with
                | ((d, p, r), (c, dn)) => mkRow d p r c dn
                end)
      (combine kept (combine cum down)).

Section Fetch.

(** The data provider ([yf.download(ticker, period="max", ...)]) and the
    date parser ([pd.to_datetime], [None] when it raises). *)
Variable yf_download : string -> DataFrame.
Variable to_datetime : string -> option Z.

(** final.py lines 56-77: download, flatten, availability check, date
    bounds, empty-range check. *)
Definition load_prices (ticker : string) (start_date end_date : option string)
  : result (list (Z * flt)) :=
  let raw_df := yf_download ticker in
  let df := flatten raw_df in
  if df_empty df || negb (has_column "Adj Close" df)
  then Raise (ValueError msg_no_data)
  else
    let df := reset_index df in
    df <- match given start_date with
          | Some s =>
              match to_datetime s with
              | Some sd => Ok (filter (fun b => (sd <=? fst b)%Z) df)
              | None => Raise (ValueError msg_bad_start)
              end
          | None => Ok df
          end ;;
    df <- match given end_date with
          | Some s =>
              match to_datetime s with
              | Some ed => Ok (filter (fun b => (fst b <=? ed)%Z) df)
              | None => Raise (ValueError msg_bad_end)
              end
          | None => Ok df
          end ;;
    if is_nil df then Raise (ValueError msg_no_rows) else Ok df.

(** final.py lines 79-112: returns, cumulative returns and the summary
    statistics of a filtered price frame. *)
Definition compute_metrics (df : list (Z * flt)) : result (list row * metrics) :=
  let kept := with_returns df in
  let dates := map (fun x => fst (fst x)) kept in
  let prices := map (fun x => snd (fst x)) kept in
  let returns := map snd kept in
  let cum := cum_returns returns in
  t0 <- iloc_first dates ;;
  t1 <- iloc_last dates ;;
  let years := IZR (t1 - t0) / 365.25 in
  p_last <- iloc_last prices ;;
  p_first <- iloc_first prices ;;
  inv_years <- py_div 1 years ;;
  let cagr := fsub (fpow (fdiv p_last p_first) inv_years) (Fin 1) in
  let std_annual := annualised_std returns in
  let sharpe := fdiv (fsub cagr (Fin risk_free_rate)) std_annual in
  let downside := map clip_upper0 returns in
  let d_std := annualised_std downside in
  let sortino :=
    if truthy d_std then fdiv (fsub cagr (Fin risk_free_rate)) d_std else NaN in
  cum_last <- iloc_last cum ;;
  Ok (build_rows kept cum downside,
      mkMetrics t0 t1 years
                (fmul cum_last (Fin 100))
                (fmul cagr (Fin 100))
                (fmul std_annual (Fin 100))
                sharpe sortino).

(** [fetch_price_and_metrics(ticker, start_date, end_date)],
    final.py lines 49-112. *)
Definition fetch_price_and_metrics (ticker : string)
    (start_date end_date : option string) : result (list row * metrics) :=
  df <- load_prices ticker start_date end_date ;;
  compute_metrics df.

End Fetch.

End Metrics.

(** ** Calendar years *)

Module Calendar.

Local Open Scope Z_scope.

(** Calendar year of a day given by its ordinal (days since 1970-01-01,
    proleptic Gregorian calendar), as read by [.dt.year]. *)
Definition year_of (days : Z) : Z :=
  let z := days + 719468 in
  let era := z / 146097 in
  let doe := z - era * 146097 in
  let yoe := (doe - doe / 1460 + doe / 36524 - doe / 146096) / 365 in
  let doy := doe - (365 * yoe + yoe / 4 - yoe / 100) in
  let mp := (5 * doy + 2) / 153 in
  let m := if mp <? 10 then mp + 3 else mp - 9 in
  yoe + era * 400 + (if m <=? 2 then 1 else 0).

End Calendar.

(** ** The retirement estimate *)

Module Retirement.

Import Float Py Pandas Metrics.
Local Open Scope R_scope.

(** One row of the per-year table. *)
Record year_row : Type := mkYearRow {
  yr_year : Z;
  yr_end_date : Z;
  yr_end_price : flt;
  yr_annual_return : flt;
  yr_cum_return : flt
}.

(** Keys of a [groupby]: each key once, in ascending order. *)
Fixpoint insert_key (k : Z) (l : list Z) : list Z :=
  match l with
  | [] => [k]
  | x :: l' =>
      if (k <? x)%Z then k :: l
      else if (k =? x)%Z then l
      else x :: insert_key k l'
  end.

Definition group_keys (keys : list Z) : list Z := fold_right insert_key [] keys.

Definition year (r : row) : Z := Calendar.year_of (Date r).

Definition group (y : Z) (df : list row) : list row :=
  filter (fun r => (year r =? y)%Z) df.

(** [g["Date"].max()] and [.min()] of a group. *)
Definition date_max (g : list row) : Z :=
  match map Date g with
  | [] => 0%Z
  | d :: ds => fold_left Z.max ds d
  end.

Definition date_min (g : list row) : Z :=
  match map Date g with
  | [] => 0%Z
  | d :: ds => fold_left Z.min ds d
  end.

(** [g.loc[g["Date"].idxmax(), "Adj Close"]]: the adjusted close of the
    first row carrying the given date. *)
Definition adj_close_on (d : Z) (g : list row) : flt :=
  match find (fun r => (Date r =? d)%Z) g with
  | Some r => AdjClose r
  | None => NaN
  end.

(** The lambda applied to each group, final.py lines 230-235. *)
Definition summarise_year (y : Z) (g : list row) : year_row :=
  let end_price := adj_close_on (date_max g) g in
  mkYearRow y
            (date_max g)
            end_price
            (fmul (fsub (fdiv end_price (adj_close_on (date_min g) g)) (Fin 1))
                  (Fin 100))
            (fmul (smax (map CumReturn g)) (Fin 100)).

(** [df_copy.groupby("Year").apply(...).reset_index()]. *)
Definition summary (df : list row) : list year_row :=
  map (fun y => summarise_year y (group y df)) (group_keys (map year df)).

(** The text entries read by [calculate_retirement]. *)
Record entries : Type := mkEntries {
  entry_expense : string;
  entry_infl : string;
  entry_tic_ret : string;
  combo_market_ret : string;
  entry_ret_start : string;
  entry_ret_end : string
}.

(** What the user gets to see: one of the message boxes, or the filled
    result panel. *)
Inductive outcome : Type :=
| ShowError (title message : string)
| DownloadFailed (e : exn)
| ShowWarning (title message : string)
| Shown (real_withdraw need_capital : flt) (table : list year_row)
        (m : metrics).

(** The spec's name for the warning of line 212. *)
Definition InsufficientReturn : outcome :=
  ShowWarning "無法計算" "年化報酬不足以支付通膨率".

Section Calculate.

Variable yf_download : string -> DataFrame.
Variable to_datetime : string -> option Z.
(** [float(text)], [None] when it raises [ValueError]. *)
Variable py_float : string -> option flt.

(** [s if s else None]. *)
Definition or_none (s : string) : option string :=
  if PyStr.truthy s then Some s else None.

(** final.py lines 209-214 and 226-235: the part of
    [calculate_retirement] that follows a successful fetch. *)
Definition estimate (expense infl : flt) (df : list row) (m : metrics)
  : outcome :=
  let real_withdraw := fsub (fdiv (m_ann m) (Fin 100)) infl in
  if fle0 real_withdraw then InsufficientReturn
  else
    let need_capital := fdiv expense real_withdraw in
    Shown real_withdraw need_capital (summary df) m.

(** [calculate_retirement()], final.py lines 168-259. *)
Definition calculate_retirement (e : entries) : outcome :=
  match py_float (entry_expense e) with
  | None => ShowError "錯誤" "年支出必須為數字"
  | Some expense =>
      match py_float (entry_infl e) with
      | None => ShowError "錯誤" "通膨率必須為數字"
      | Some infl_pct =>
          let infl := fdiv infl_pct (Fin 100) in
          let raw := PyStr.strip (entry_tic_ret e) in
          if negb (PyStr.truthy raw) then ShowError "錯誤" "請輸入股票代號"
          else
            let ticker := Ticker.format_ticker raw (combo_market_ret e) in
            let start_date := PyStr.strip (entry_ret_start e) in
            let end_date := PyStr.strip (entry_ret_end e) in
            match fetch_price_and_metrics yf_download to_datetime ticker
                    (or_none start_date) (or_none end_date) with
            | Raise ex => DownloadFailed ex
            | Ok (df, m) => estimate expense infl df m
            end
      end
  end.

End Calculate.

End Retirement.

(** ** The stock query *)

Module StockQuery.

Import Float Py Pandas Metrics.
Local Open Scope string_scope.

(** The text entries read by [show_stock]. *)
Record stock_entries : Type := mkStockEntries {
  entry_stock : string;
  combo_market_stock : string;
  entry_start : string;
  entry_end : string
}.

(** What [show_stock] leaves on the screen: a message box, or the chart
    (title, dates, cumulative return in percent) with the metrics text. *)
Inductive stock_view : Type :=
| StockError (title message : string)
| StockDownloadFailed (e : exn)
| StockShown (ticker : string) (chart_x : list Z) (chart_y : list flt)
             (m : metrics).

Section Show.

Variable yf_download : string -> DataFrame.
Variable to_datetime : string -> option Z.

(** [show_stock()], final.py lines 115-165. *)
Definition show_stock (e : stock_entries) : stock_view :=
  let raw := PyStr.strip (entry_stock e) in
  if negb (PyStr.truthy raw) then StockError "錯誤" "請輸入股票代號"
  else
    let ticker := Ticker.format_ticker raw (combo_market_stock e) in
    let start_date := PyStr.strip (entry_start e) in
    let end_date := PyStr.strip (entry_end e) in
    match fetch_price_and_metrics yf_download to_datetime ticker
            (Retirement.or_none start_date) (Retirement.or_none end_date) with
    | Raise ex => StockDownloadFailed ex
    | Ok (df, m) =>
        StockShown ticker (map Date df)
                   (map (fun r => fmul (CumReturn r) (Fin 100)) df) m
    end.

End Show.

End StockQuery.

(** ** The first variant of the retirement estimate *)

Module Group16Final.

Import Float Py Pandas Metrics.
Local Open Scope string_scope.

(** The result panel of [Group16_Final.py] has no per-year table. *)
Inductive outcome : Type :=
| ShowError (title message : string)
| DownloadFailed (e : exn)
| ShowWarning (title message : string)
| Shown (real_withdraw need_capital : flt) (m : metrics).

Section Calculate.

Variable yf_download : string -> DataFrame.
Variable to_datetime : string -> option Z.
Variable py_float : string -> option flt.

(** [calculate_retirement()], Group16_Final.py lines 135-189: both
    numbers are read in one [try]. *)
Definition calculate_retirement (e : Retirement.entries) : outcome :=
  match py_float (Retirement.entry_expense e),
        py_float (Retirement.entry_infl e) with
  | Some expense, Some infl_pct =>
      let infl := fdiv infl_pct (Fin 100) in
      let raw := PyStr.strip (Retirement.entry_tic_ret e) in
      if negb (PyStr.truthy raw) then ShowError "錯誤" "請輸入股票代號"
      else
        let ticker :=
          Ticker.format_ticker raw (Retirement.combo_market_ret e) in
        let start_date := PyStr.strip (Retirement.entry_ret_start e) in
        let end_date := PyStr.strip (Retirement.entry_ret_end e) in
        match fetch_price_and_metrics yf_download to_datetime ticker
                (Retirement.or_none start_date)
                (Retirement.or_none end_date) with
        | Raise ex => DownloadFailed ex
        | Ok (df, m) =>
            let real_withdraw := fsub (fdiv (m_ann m) (Fin 100)) infl in
            if fle0 real_withdraw
            then ShowWarning "無法計算" "年化報酬不足以支付通膨率"
            else Shown real_withdraw (fdiv expense real_withdraw) m
        end
  | _, _ => ShowError "錯誤" "年支出或通膨率必須為數字"
  end.

End Calculate.

End Group16Final.

(** ** Switching screens *)

Module Navigation.

(** Which of the three top-level widgets are packed in the window. *)
Record screens : Type := mkScreens {
  main_canvas : bool;
  stock_query_frame : bool;
  retirement_frame : bool
}.

Inductive widget : Type := MainCanvas | StockQueryFrame | RetirementFrame.

Definition set_packed (w : widget) (b : bool) (s : screens) : screens :=
  match w with
  | MainCanvas => mkScreens b (stock_query_frame s) (retirement_frame s)
  | StockQueryFrame => mkScreens (main_canvas s) b (retirement_frame s)
  | RetirementFrame => mkScreens (main_canvas s) (stock_query_frame s) b
  end.

Definition pack (w : widget) : screens -> screens := set_packed w true.
Definition pack_forget (w : widget) : screens -> screens := set_packed w false.

(** The window as built by the module body: final.py lines 326, 503,
    594. *)
Definition initial : screens := mkScreens true false false.

(** [go_home()], [open_stock_query()], [open_retirement()], final.py
    lines 299-312. *)
Definition go_home (s : screens) : screens :=
  pack MainCanvas
       (fold_left (fun s f => pack_forget f s)
                  [StockQueryFrame; RetirementFrame] s).

Definition open_stock_query (s : screens) : screens :=
  pack StockQueryFrame (pack_forget RetirementFrame (pack_forget MainCanvas s)).

Definition open_retirement (s : screens) : screens :=
  pack RetirementFrame (pack_forget StockQueryFrame (pack_forget MainCanvas s)).

(** The three buttons that call them. *)
Inductive button : Type := Home | StockQuery | Retire.

Definition press (b : button) : screens -> screens :=
  match b with
  | Home => go_home
  | StockQuery => open_stock_query
  | Retire => open_retirement
  end.

Definition press_all (bs : list button) (s : screens) : screens :=
  fold_left (fun s b => press b s) bs s.

End Navigation.

(** ** Background music *)

Module Music.

Local Open Scope string_scope.

Inductive icon : Type := SpeakerOn | SpeakerOff.

(** The global flag, the mixer (a file loaded or not, its volume, the
    stream playing or not) and the icon on the speaker canvas. *)
Record state : Type := mkState {
  is_music_playing : bool;
  mixer_loaded : option string;
  mixer_volume : option R;
  mixer_busy : bool;
  speaker_icon : icon
}.

(** The state at start-up: final.py lines 19, 27 and 376. *)
Definition initial : state := mkState false None None false SpeakerOff.

(** The call of [toggle_music] that raises, if one does: [music.stop]
    or [itemconfig] where the music is stopped (lines 381-383), one of
    the four calls of the [try] block where it is started (lines
    386-390). *)
Inductive failure : Type :=
| StopFails | IconOffFails
| LoadFails | SetVolumeFails | PlayFails | IconOnFails.

(** How the handler ends: it returns, it returns after the error box of
    the [except] clause, or the exception leaves it. *)
Inductive ending : Type := Returns | ErrorBox | Raises.

(** [toggle_music()], final.py lines 378-393.  A failure that belongs to
    the other branch does not occur. *)
Definition toggle_music (fail : option failure) (s : state)
  : state * ending :=
  if is_music_playing s then
    match fail with
    | Some StopFails => (s, Raises)
    | Some IconOffFails =>
        (mkState false (mixer_loaded s) (mixer_volume s) false
                 (speaker_icon s), Raises)
    | _ =>
        (mkState false (mixer_loaded s) (mixer_volume s) false SpeakerOff,
         Returns)
    end
  else
    match fail with
    | Some LoadFails => (s, ErrorBox)
    | Some SetVolumeFails =>
        (mkState (is_music_playing s) (Some "Moon.mp3") (mixer_volume s)
                 false (speaker_icon s), ErrorBox)
    | Some PlayFails =>
        (mkState (is_music_playing s) (Some "Moon.mp3") (Some 0.5%R)
                 false (speaker_icon s), ErrorBox)
    | Some IconOnFails =>
        (mkState true (Some "Moon.mp3") (Some 0.5%R) true (speaker_icon s),
         ErrorBox)
    | _ =>
        (mkState true (Some "Moon.mp3") (Some 0.5%R) true SpeakerOn, Returns)
    end.

Definition toggle_all (fails : list (option failure)) (s : state) : state :=
  fold_left (fun s f => fst (toggle_music f s)) fails s.

End Music.

(** * Vocabulary of the statements *)

Module Statements.

Import Float Py Pandas Metrics Retirement.
Local Open Scope R_scope.

(** A PriceSeries of the data model: trading days with a defined (finite)
    adjusted close, as the frame [load_prices] hands on. *)
Definition price_frame (ps : list (Z * R)) : list (Z * flt) :=
  map (fun x => (fst x, Fin (snd x))) ps.

(** Its invariants: dates strictly increasing, prices positive (for the
    returns to be defined it is enough that no price is zero). *)
Definition increasing (ps : list (Z * R)) : Prop :=
  StronglySorted Z.lt (map fst ps).

Definition positive (ps : list (Z * R)) : Prop :=
  Forall (fun x => 0 < snd x) ps.

Definition nonzero (ps : list (Z * R)) : Prop :=
  Forall (fun x => snd x <> 0) ps.

(** Daily returns of a finite price list that follows the price [prev]. *)
Fixpoint returns_from (prev : R) (l : list R) : list R :=
  match l with
  | [] => []
  | x :: l' => (x / prev - 1) :: returns_from x l'
  end.

(** The rows kept by [dropna]: every observation after the first, with
    its return. *)
Definition kept_rows (p0 : R) (rest : list (Z * R)) : list (Z * flt * flt) :=
  map (fun x => (fst (fst x), Fin (snd (fst x)), Fin (snd x)))
      (combine rest (returns_from p0 (map snd rest))).

(** A provider table with the single column [Adj Close]. *)
Definition table_of (ps : list (Z * R)) : DataFrame :=
  mkDataFrame (Index ["Adj Close"%string]) (map fst ps)
              [map (fun x => Fin (snd x)) ps].

(** The day a date argument stands for: no bound when the argument is
    absent or empty, a failure when it does not parse. *)
Definition bound (to_datetime : string -> option Z) (arg : option string)
  : option (option Z) :=
  match given arg with
  | Some s => option_map Some (to_datetime s)
  | None => Some None
  end.

Definition not_before (lo : option Z) (b : Z * flt) : bool :=
  match lo with Some sd => (sd <=? fst b)%Z | None => true end.

Definition not_after (hi : option Z) (b : Z * flt) : bool :=
  match hi with Some ed => (fst b <=? ed)%Z | None => true end.


(** The summary computed from the first and last retained date and price,
    the last cumulative return and the return column. *)
Definition cagr_of (t0 t1 : Z) (p_first p_last : flt) : flt :=
  fsub (fpow (fdiv p_last p_first) (1 / (IZR (t1 - t0) / 365.25))) (Fin 1).

Definition summary_of (t0 t1 : Z) (p_first p_last c_last : flt)
    (returns : list flt) : metrics :=
  let cagr := cagr_of t0 t1 p_first p_last in
  let std_annual := annualised_std returns in
  let d_std := annualised_std (map clip_upper0 returns) in
  mkMetrics t0 t1 (IZR (t1 - t0) / 365.25)
            (fmul c_last (Fin 100))
            (fmul cagr (Fin 100))
            (fmul std_annual (Fin 100))
            (fdiv (fsub cagr (Fin risk_free_rate)) std_annual)
            (if truthy d_std
             then fdiv (fsub cagr (Fin risk_free_rate)) d_std
             else NaN).

(** The last cumulative return of a returned frame is, up to [tol], its
    last adjusted close over the adjusted close of its first row, minus
    one. *)
Definition cum_return_on_first_retained (tol : R) (rows : list row) : Prop :=
  exists first final c,
    iloc_first rows = Ok first /\
    iloc_last rows = Ok final /\
    CumReturn final = Fin c /\
    exists pf pl, AdjClose first = Fin pf /\ AdjClose final = Fin pl /\
                  Rabs (c - (pl / pf - 1)) <= tol.

(** "years ~ 1.0 and CAGR ~ 10%": within a hundredth of a year and a
    tenth of a percentage point. *)
Definition about_one_year_ten_percent (m : metrics) : Prop :=
  Rabs (m_years m - 1) <= 1 / 100 /\
  exists a, m_ann m = Fin a /\ Rabs (a - 10) <= 1 / 10.

End Statements.

(** * Example data *)

Module Examples.

Import Float Py Pandas Metrics Retirement Statements.
Local Open Scope R_scope.
Local Open Scope string_scope.

Definition no_table : DataFrame := mkDataFrame (Index []) [] [].

Definition ohlc_without_adj : DataFrame :=
  mkDataFrame (Index ["Open"; "Close"]) [19723%Z]
              [[Fin 10%R]; [Fin 11%R]].

(** Three trading days, 2024-01-02 to 2024-01-04, and a parser that
    knows the middle one. *)
Definition three_days : list (Z * R) :=
  [(19724%Z, 100); (19725%Z, 101); (19726%Z, 102)].

Definition parse_jan3 (s : string) : option Z :=
  if String.eqb s "2024-01-03" then Some 19725%Z else None.

Definition doubling : list (Z * R) :=
  [(19724%Z, 1); (19725%Z, 2); (19726%Z, 4); (19727%Z, 8)].

(** Prices 100, 110, 121 on three consecutive days. *)
Definition compounding : list (Z * R) :=
  [(19724%Z, 100); (19725%Z, 110); (19726%Z, 121)].

(** The synthetic series of the specification. *)
Definition two_point : list (Z * R) := [(0%Z, 100); (365%Z, 110)].

(** Prices 100, 110, 121, 110 on four consecutive days of 2024: the
    cumulative return peaks at 21% and ends the year at 10%. *)
Definition peak : list (Z * R) :=
  [(19724%Z, 100); (19725%Z, 110); (19726%Z, 121); (19727%Z, 110)].



Definition demo_entries : entries :=
  mkEntries "40000" "2" " dbl " Ticker.US EmptyString EmptyString.

Definition demo_float (s : string) : option flt :=
  if String.eqb s "40000" then Some (Fin 40000)
  else if String.eqb s "2" then Some (Fin 2)
  else None.

(** Annualised return, in percent, of the doubling series. *)
Definition doubling_ann : R :=
  (Rpower (8 / 2) (1 / (IZR (19727 - 19725) / 365.25)) - 1) * 100.

End Examples.

(** * Vocabulary of the further properties *)

Module MoreStatements.

Import Float Py Pandas Metrics Retirement Statements.
Local Open Scope R_scope.

(** A day between two optional bounds. *)
Definition within (lo hi : option Z) (d : Z) : Prop :=
  match lo with Some sd => (sd <= d)%Z | None => True end /\
  match hi with Some ed => (d <= ed)%Z | None => True end.

(** All entries of a list are the same. *)
Definition all_equal (l : list R) : Prop := exists c, Forall (fun x => x = c) l.

(** What the second variant's outcome looks like in the first: the table
    is gone, and the two number-format errors share one message. *)
Definition without_table (o : Retirement.outcome) : Group16Final.outcome :=
  match o with
  | Retirement.ShowError title message =>
      if String.eqb message "年支出必須為數字"
         || String.eqb message "通膨率必須為數字"
      then Group16Final.ShowError title "年支出或通膨率必須為數字"
      else Group16Final.ShowError title message
  | Retirement.DownloadFailed e => Group16Final.DownloadFailed e
  | Retirement.ShowWarning title message =>
      Group16Final.ShowWarning title message
  | Retirement.Shown real_withdraw need_capital _ m =>
      Group16Final.Shown real_withdraw need_capital m
  end.

(** A float that is not below zero, and one that is not above zero; an
    infinity of the right sign counts, NaN does not. *)
Definition not_negative (x : flt) : Prop :=
  match x with Fin r => 0 <= r | PInf => True | _ => False end.

Definition not_positive (x : flt) : Prop :=
  match x with Fin r => r <= 0 | NInf => True | _ => False end.

(** A click whose [itemconfig] call does not fail. *)
Definition icon_drawn (f : option Music.failure) : Prop :=
  f <> Some Music.IconOffFails /\ f <> Some Music.IconOnFails.

(** A string of whitespace only. *)
Fixpoint all_space (s : string) : bool :=
  match s with
  | EmptyString => true
  | String c s' => PyStr.is_space c && all_space s'
  end.

(** The window with one widget packed and the other two forgotten, and
    the widget each button brings up. *)
Definition shows (w : Navigation.widget) : Navigation.screens :=
  Navigation.pack w (Navigation.mkScreens false false false).

Definition screen_of (b : Navigation.button) : Navigation.widget :=
  match b with
  | Navigation.Home => Navigation.MainCanvas
  | Navigation.StockQuery => Navigation.StockQueryFrame
  | Navigation.Retire => Navigation.RetirementFrame
  end.

End MoreStatements.

Module MoreExamples.

Import Float Py Pandas Metrics Retirement Statements Examples.
Local Open Scope R_scope.

(** The doubling series from its second day on. *)
Definition doubling_tail : list (Z * R) :=
  [(19725%Z, 2); (19726%Z, 4); (19727%Z, 8)].

(** Entries and a number parser for the retirement form. *)
Definition nan_entries : entries :=
  mkEntries "40000" "nan" "dbl" Ticker.US EmptyString EmptyString.

Definition nan_float (s : string) : option flt :=
  if String.eqb s "40000" then Some (Fin 40000)
  else if String.eqb s "nan" then Some NaN
  else None.

Definition stock_demo : StockQuery.stock_entries :=
  StockQuery.mkStockEntries " dbl " Ticker.US EmptyString EmptyString.

(** A parser that knows 2024-10-04, a day after the three trading days. *)
Definition parse_oct4 (s : string) : option Z :=
  if String.eqb s "2024-10-04" then Some 20000%Z else None.

(** A frame with two rows in 2023 and two in 2024. *)
Definition two_year_frame : list row :=
  [mkRow 19721%Z (Fin 110) (Fin (1 / 10)) (Fin (1 / 10)) (Fin 0);
   mkRow 19722%Z (Fin 99) (Fin (-1 / 10)) (Fin (-1 / 100)) (Fin (-1 / 10));
   mkRow 19724%Z (Fin 121) (Fin (22 / 99)) (Fin (21 / 100)) (Fin 0);
   mkRow 19725%Z (Fin 132) (Fin (11 / 121)) (Fin (32 / 100)) (Fin 0)].

End MoreExamples.

(** * Properties *)

(** ** Ticker normalisation *)

Module TickerProps.

Import PyStr Ticker.
Local Open Scope string_scope.

Lemma append_empty_r (s : string) : s ++ EmptyString = s.
Proof.
  induction s as [|c s IH]; simpl; [reflexivity | now rewrite IH].
Qed.

Lemma dict_get_other (market : string) :
  market <> Taiwan -> market <> Japan -> market <> UK ->
  dict_get suffix_table market EmptyString = EmptyString.
Proof.
  intros HT HJ HU. unfold suffix_table, dict_get.
  rewrite (proj2 (String.eqb_neq Taiwan market)) by congruence.
  rewrite (proj2 (String.eqb_neq Japan market)) by congruence.
  rewrite (proj2 (String.eqb_neq UK market)) by congruence.
  reflexivity.
Qed.

(** C8. [format_ticker] trims and uppercases the raw symbol, returns it as
    it is for the domestic market, appends ".TW", ".T" or ".L" for Taiwan,
    Japan and the UK, and appends nothing for any other market value; the
    two examples of the specification evaluate as stated. *)
Theorem format_ticker_rule (raw market : string) :
  (market = US -> format_ticker raw market = upper (strip raw)) /\
  (market = Taiwan -> format_ticker raw market = upper (strip raw) ++ ".TW") /\
  (market = Japan -> format_ticker raw market = upper (strip raw) ++ ".T") /\
  (market = UK -> format_ticker raw market = upper (strip raw) ++ ".L") /\
  (market <> US -> market <> Taiwan -> market <> Japan -> market <> UK ->
   format_ticker raw market = upper (strip raw)) /\
  format_ticker "0050" Taiwan = "0050.TW" /\
  format_ticker " aapl " US = "AAPL".
Proof.
  repeat split.
  - intros ->. reflexivity.
  - intros ->. reflexivity.
  - intros ->. reflexivity.
  - intros ->. reflexivity.
  - intros HUS HT HJ HU. unfold format_ticker.
    destruct (String.eqb_spec market US) as [E|_]; [contradiction|].
    rewrite (dict_get_other HT HJ HU). apply append_empty_r.
Qed.

Lemma format_ticker_rule_witness :
  format_ticker "vod.l " UK = "VOD.L.L" /\
  format_ticker " bhp" "澳洲" = "BHP".
Proof.
  split.
  - exact (proj1 (proj2 (proj2 (proj2 (format_ticker_rule "vod.l " UK))))
                 eq_refl).
  - refine (proj1 (proj2 (proj2 (proj2 (proj2
             (format_ticker_rule " bhp" "澳洲"))))) _ _ _ _);
      discriminate.
Defined.

End TickerProps.

(** ** Retrieval and cleaning *)

Module LoadProps.

Import Float Py Pandas Metrics Statements Examples.
Local Open Scope string_scope.

Lemma flatten_level_values (df : DataFrame) :
  get_level_values0 (df_columns (flatten df)) = get_level_values0 (df_columns df).
Proof.
  unfold flatten. destruct (df_columns df) eqn:E; simpl; now rewrite ?E.
Qed.

Lemma flatten_index (df : DataFrame) : df_index (flatten df) = df_index df.
Proof. unfold flatten. now destruct (df_columns df). Qed.

Lemma flatten_data (df : DataFrame) : df_data (flatten df) = df_data df.
Proof. unfold flatten. now destruct (df_columns df). Qed.

Lemma flatten_empty (df : DataFrame) : df_empty (flatten df) = df_empty df.
Proof.
  unfold df_empty. now rewrite flatten_level_values, flatten_index.
Qed.

Lemma flatten_has_column (name : string) (df : DataFrame) :
  has_column name (flatten df) = has_column name df.
Proof. unfold has_column. now rewrite flatten_level_values. Qed.

Lemma flatten_reset_index (df : DataFrame) :
  reset_index (flatten df) = reset_index df.
Proof.
  unfold reset_index, column.
  now rewrite flatten_level_values, flatten_index, flatten_data.
Qed.

(** After [flatten] the labels have one level. *)
Lemma flatten_single_level (df : DataFrame) :
  df_columns (flatten df) = Index (get_level_values0 (df_columns df)).
Proof. unfold flatten. destruct (df_columns df) eqn:E; simpl; now rewrite ?E. Qed.

Section Loading.

Variable yf_download : string -> DataFrame.
Variable to_datetime : string -> option Z.

Lemma filter_true {A : Type} (l : list A) : filter (fun _ => true) l = l.
Proof. induction l; simpl; congruence. Qed.

(** With usable data and parseable bounds, [load_prices] keeps the rows
    between the bounds and fails with [EmptyRange] exactly when none is
    left. *)
Lemma load_prices_filtered ticker start_date end_date lo hi :
  df_empty (yf_download ticker) = false ->
  has_column "Adj Close" (yf_download ticker) = true ->
  bound to_datetime start_date = Some lo ->
  bound to_datetime end_date = Some hi ->
  load_prices yf_download to_datetime ticker start_date end_date =
  let df := filter (not_after hi)
                   (filter (not_before lo) (reset_index (yf_download ticker))) in
  if is_nil df then Raise EmptyRange else Ok df.
Proof.
  intros He Hc Hlo Hhi. unfold load_prices.
  rewrite flatten_empty, flatten_has_column, He, Hc, flatten_reset_index.
  cbn [orb negb]. unfold bound in Hlo, Hhi.
  destruct (given start_date) as [s|].
  - destruct (to_datetime s) as [sd|]; [|discriminate].
    injection Hlo as <-. cbn [bind].
    destruct (given end_date) as [e|].
    + destruct (to_datetime e) as [ed|]; [|discriminate].
      injection Hhi as <-. reflexivity.
    + injection Hhi as <-. cbn [bind not_after]. now rewrite filter_true.
  - injection Hlo as <-. cbn [bind not_before]. rewrite filter_true.
    destruct (given end_date) as [e|].
    + destruct (to_datetime e) as [ed|]; [|discriminate].
      injection Hhi as <-. reflexivity.
    + injection Hhi as <-. cbn [bind not_after]. now rewrite filter_true.
Qed.

(** No row in range: [EmptyRange]. *)
Lemma load_prices_no_rows ticker start_date end_date lo hi :
  df_empty (yf_download ticker) = false ->
  has_column "Adj Close" (yf_download ticker) = true ->
  bound to_datetime start_date = Some lo ->
  bound to_datetime end_date = Some hi ->
  (forall b, In b (reset_index (yf_download ticker)) ->
             not_before lo b && not_after hi b = false) ->
  fetch_price_and_metrics yf_download to_datetime ticker start_date end_date
  = Raise EmptyRange.
Proof.
  intros He Hc Hlo Hhi Hnone. unfold fetch_price_and_metrics.
  rewrite (load_prices_filtered _ _ _ He Hc Hlo Hhi). cbv zeta.
  assert (E : filter (not_after hi)
                (filter (not_before lo) (reset_index (yf_download ticker))) = []).
  { induction (reset_index (yf_download ticker)) as [|b l IH]; [reflexivity|].
    cbn [filter]. pose proof (Hnone b (or_introl eq_refl)) as Hb.
    destruct (not_before lo b) eqn:E1.
    - cbn [filter]. cbn [andb] in Hb. rewrite Hb.
      apply IH. intros b' Hin. apply Hnone. now right.
    - apply IH. intros b' Hin. apply Hnone. now right. }
  rewrite E. reflexivity.
Qed.

(** A start date after the end date leaves no row: [EmptyRange]. *)
Lemma start_after_end_empty_range ticker start_date end_date sd ed :
  df_empty (yf_download ticker) = false ->
  has_column "Adj Close" (yf_download ticker) = true ->
  bound to_datetime start_date = Some (Some sd) ->
  bound to_datetime end_date = Some (Some ed) ->
  (ed < sd)%Z ->
  fetch_price_and_metrics yf_download to_datetime ticker start_date end_date
  = Raise EmptyRange.
Proof.
  intros He Hc Hlo Hhi Hlt.
  apply (load_prices_no_rows _ _ _ He Hc Hlo Hhi).
  intros b _. unfold not_before, not_after.
  destruct (Z.leb_spec sd (fst b)); [|reflexivity].
  destruct (Z.leb_spec (fst b) ed); [lia|reflexivity].
Qed.

(** A single row in range: the only row is dropped with its undefined
    return, and reading the first date of the empty frame raises
    [IndexError]. *)
Lemma single_row_index_error ticker start_date end_date b :
  load_prices yf_download to_datetime ticker start_date end_date = Ok [b] ->
  fetch_price_and_metrics yf_download to_datetime ticker start_date end_date
  = Raise IndexError.
Proof.
  intros H. unfold fetch_price_and_metrics. rewrite H. reflexivity.
Qed.

End Loading.

(** C9. When the provider table is empty or has no adjusted-close column,
    [fetch_price_and_metrics] fails with [DataUnavailable] whatever the date
    arguments are and whether or not they parse; it never reports
    [InvalidDateFormat] for such a request. *)
Theorem data_unavailable_precedes_date_parsing
    (yf_download : string -> DataFrame) (to_datetime : string -> option Z)
    (ticker : string) (start_date end_date : option string) :
  df_empty (yf_download ticker) = true \/
  has_column "Adj Close" (yf_download ticker) = false ->
  fetch_price_and_metrics yf_download to_datetime ticker start_date end_date
  = Raise DataUnavailable /\
  forall which_end,
    fetch_price_and_metrics yf_download to_datetime ticker start_date end_date
    <> Raise (InvalidDateFormat which_end).
Proof.
  intros H.
  assert (E : fetch_price_and_metrics yf_download to_datetime ticker
                start_date end_date = Raise DataUnavailable).
  { unfold fetch_price_and_metrics, load_prices.
    rewrite flatten_empty, flatten_has_column.
    destruct H as [-> | ->]; [reflexivity|].
    rewrite orb_true_r. reflexivity. }
  split; [exact E|].
  intros which_end. rewrite E. destruct which_end; discriminate.
Qed.

Lemma data_unavailable_precedes_date_parsing_witness :
  fetch_price_and_metrics (fun _ => no_table) (fun _ => None) "NOPE"
    (Some "next tuesday") (Some "2024-13-45") = Raise DataUnavailable /\
  fetch_price_and_metrics (fun _ => ohlc_without_adj) (fun _ => None) "NOPE"
    (Some "next tuesday") None = Raise DataUnavailable.
Proof.
  split.
  - apply (data_unavailable_precedes_date_parsing
             (fun _ => no_table) (fun _ => None) "NOPE"
             (Some "next tuesday") (Some "2024-13-45")).
    left. reflexivity.
  - apply (data_unavailable_precedes_date_parsing
             (fun _ => ohlc_without_adj) (fun _ => None) "NOPE"
             (Some "next tuesday") None).
    right. reflexivity.
Defined.

End LoadProps.

(** ** Returns and statistics *)

Module SeriesProps.

Import Float Py Pandas Metrics Statements.
Local Open Scope R_scope.

Lemma returns_from_length prev l : length (returns_from prev l) = length l.
Proof. revert prev. induction l; intros; simpl; auto. Qed.

Lemma fdiv_fin a b : b <> 0 -> fdiv (Fin a) (Fin b) = Fin (a / b).
Proof.
  intros Hb. unfold fdiv. destruct (Req_dec_T b 0); [contradiction|reflexivity].
Qed.

Lemma pct_from_fin prev l :
  prev <> 0 -> Forall (fun x => x <> 0) l ->
  pct_from (Fin prev) (map Fin l) = map Fin (returns_from prev l).
Proof.
  intros Hp Hl. revert prev Hp.
  induction Hl as [|x l Hx Hl IH]; intros prev Hp; [reflexivity|].
  cbn [map pct_from returns_from]. rewrite (fdiv_fin _ Hp).
  rewrite (IH x Hx). reflexivity.
Qed.

Lemma filter_combine_fin (rest : list (Z * R)) (rs : list R) :
  filter (fun x : Z * flt * flt => negb (is_nan (snd x)))
         (combine (price_frame rest) (map Fin rs))
  = map (fun x => (fst (fst x), Fin (snd (fst x)), Fin (snd x)))
        (combine rest rs).
Proof.
  revert rs. induction rest as [|[d p] rest IH]; intros [|r rs];
    try reflexivity.
  cbn. f_equal. apply IH.
Qed.

Lemma with_returns_price_frame d0 p0 rest :
  Forall (fun x => x <> 0) (p0 :: map snd rest) ->
  with_returns (price_frame ((d0, p0) :: rest)) = kept_rows p0 rest.
Proof.
  intros H. inversion H as [|? ? Hp0 Hrest]; subst.
  unfold with_returns, kept_rows.
  replace (map snd (price_frame ((d0, p0) :: rest)))
    with (Fin p0 :: map Fin (map snd rest)).
  2:{ unfold price_frame. cbn. f_equal. rewrite !map_map. reflexivity. }
  cbn [pct_change]. rewrite (pct_from_fin Hp0 Hrest).
  cbn [price_frame map combine filter snd is_nan negb fst].
  apply filter_combine_fin.
Qed.

Lemma kept_rows_length p0 rest : length (kept_rows p0 rest) = length rest.
Proof.
  unfold kept_rows. rewrite length_map, length_combine, returns_from_length,
    length_map. apply Nat.min_id.
Qed.

Lemma combine_map_fst {A B : Type} (l : list A) (l' : list B) :
  length l = length l' -> map fst (combine l l') = l.
Proof.
  revert l'. induction l as [|a l IH]; intros [|b l'] H; try discriminate;
    [reflexivity|]. cbn. f_equal. apply IH. now injection H.
Qed.

Lemma combine_map_snd {A B : Type} (l : list A) (l' : list B) :
  length l = length l' -> map snd (combine l l') = l'.
Proof.
  revert l'. induction l as [|a l IH]; intros [|b l'] H; try discriminate;
    [reflexivity|]. cbn. f_equal. apply IH. now injection H.
Qed.

Lemma kept_rows_dates p0 rest :
  map (fun x : Z * flt * flt => fst (fst x)) (kept_rows p0 rest) = map fst rest.
Proof.
  unfold kept_rows. rewrite map_map. cbn [fst].
  rewrite <- (map_map fst fst).
  rewrite combine_map_fst; [reflexivity|].
  now rewrite returns_from_length, length_map.
Qed.

Lemma kept_rows_prices p0 rest :
  map (fun x : Z * flt * flt => snd (fst x)) (kept_rows p0 rest)
  = map (fun x => Fin (snd x)) rest.
Proof.
  unfold kept_rows. rewrite map_map. cbn [fst snd].
  rewrite <- (map_map fst (fun x => Fin (snd x))).
  rewrite combine_map_fst; [reflexivity|].
  now rewrite returns_from_length, length_map.
Qed.

Lemma kept_rows_returns p0 rest :
  map snd (kept_rows p0 rest) = map Fin (returns_from p0 (map snd rest)).
Proof.
  unfold kept_rows. rewrite map_map. cbn [snd].
  rewrite <- (map_map snd Fin).
  rewrite combine_map_snd; [reflexivity|].
  now rewrite returns_from_length, length_map.
Qed.

(** The running product of [1 + return] telescopes: after the price [x]
    it is [x / p0]. *)
Lemma cumprod_from_returns p0 prev l :
  p0 <> 0 -> prev <> 0 -> Forall (fun x => x <> 0) l ->
  cumprod_from (Fin (prev / p0))
    (map (fun r => fadd (Fin 1) r) (map Fin (returns_from prev l)))
  = map (fun x => Fin (x / p0)) l.
Proof.
  intros H0 Hp Hl. revert prev Hp.
  induction Hl as [|x l Hx Hl IH]; intros prev Hp; [reflexivity|].
  cbn [returns_from map cumprod_from fadd is_nan fmul].
  replace (prev / p0 * (1 + (x / prev - 1))) with (x / p0) by (field; auto).
  f_equal. apply IH. exact Hx.
Qed.

Lemma cum_returns_telescope p0 l :
  Forall (fun x => x <> 0) (p0 :: l) ->
  cum_returns (map Fin (returns_from p0 l))
  = map (fun x => Fin (x / p0 - 1)) l.
Proof.
  intros H. inversion H as [|? ? H0 Hl]; subst.
  unfold cum_returns, cumprod.
  replace (Fin 1) with (Fin (p0 / p0)) at 1 by (f_equal; field; auto).
  rewrite (cumprod_from_returns H0 H0 Hl), map_map. reflexivity.
Qed.

Lemma iloc_last_map {A B : Type} (f : A -> B) (l : list A) :
  iloc_last (map f l) = match iloc_last l with
                        | Ok x => Ok (f x)
                        | Raise e => Raise e
                        end.
Proof.
  induction l as [|a [|b l] IH]; try reflexivity.
  change (iloc_last (map f (a :: b :: l))) with (iloc_last (map f (b :: l))).
  rewrite IH. reflexivity.
Qed.

Lemma last_cons {A : Type} (l : list A) (a b : A) :
  last (b :: l) a = last l b.
Proof.
  revert a b. induction l as [|c l IH]; intros a b; [reflexivity|].
  change (last (b :: c :: l) a) with (last (c :: l) a).
  now rewrite (IH a c), (IH b c).
Qed.

Lemma iloc_last_cons {A : Type} (a : A) (l : list A) :
  iloc_last (a :: l) = Ok (last l a).
Proof.
  revert a. induction l as [|b l IH]; intros a; [reflexivity|].
  change (iloc_last (a :: b :: l)) with (iloc_last (b :: l)).
  now rewrite IH, last_cons.
Qed.

Lemma iloc_last_map_cons {A B : Type} (f : A -> B) (a : A) (l : list A) :
  iloc_last (map f (a :: l)) = Ok (f (last l a)).
Proof. now rewrite iloc_last_map, iloc_last_cons. Qed.

Lemma nonzero_prices (ps : list (Z * R)) :
  nonzero ps -> Forall (fun x => x <> 0) (map snd ps).
Proof. intros H. apply Forall_map. exact H. Qed.

Lemma positive_is_nonzero (ps : list (Z * R)) : positive ps -> nonzero ps.
Proof.
  intros H. eapply Forall_impl; [|exact H]. cbn. intros a Ha. lra.
Qed.

Lemma positive_nonzero (ps : list (Z * R)) :
  positive ps -> Forall (fun x => x <> 0) (map snd ps).
Proof. intros H. now apply nonzero_prices, positive_is_nonzero. Qed.

Lemma price_frame_dates (ps : list (Z * R)) :
  map fst (price_frame ps) = map fst ps.
Proof. unfold price_frame. rewrite map_map. reflexivity. Qed.


(** *** Standard deviation of a constant column *)

Lemma Rsum_const (c : R) (l : list R) :
  Forall (fun x => x = c) l -> Rsum l = INR (length l) * c.
Proof.
  induction 1 as [|x l Hx Hl IH].
  - cbn. lra.
  - change (Rsum (x :: l)) with (x + Rsum l).
    change (length (x :: l)) with (S (length l)).
    rewrite S_INR, IH, Hx. lra.
Qed.

Lemma mean_const (c : R) (l : list R) :
  l <> [] -> Forall (fun x => x = c) l -> mean l = c.
Proof.
  intros Hne H. unfold mean. rewrite (Rsum_const H).
  assert (INR (length l) <> 0).
  { apply not_0_INR. destruct l; [contradiction|discriminate]. }
  field. assumption.
Qed.

Lemma sample_var_const (c : R) (l : list R) :
  Forall (fun x => x = c) l -> sample_var l = 0.
Proof.
  intros H. destruct l as [|x l].
  - unfold sample_var. cbn. lra.
  - unfold sample_var.
    rewrite (mean_const (l := x :: l) ltac:(discriminate) H).
    assert (E : Rsum (map (fun y => (y - c) * (y - c)) (x :: l)) = 0).
    { rewrite (@Rsum_const 0).
      - lra.
      - apply Forall_map. eapply Forall_impl; [|exact H].
        cbn. intros a ->. lra. }
    rewrite E. unfold Rdiv. apply Rmult_0_l.
Qed.

Lemma finite_values_fin (l : list R) : finite_values (map Fin l) = Some l.
Proof.
  induction l as [|x l IH]; [reflexivity|]. cbn. now rewrite IH.
Qed.

Lemma count_valid_fin (l : list R) : count_valid (map Fin l) = length l.
Proof.
  unfold count_valid. induction l as [|x l IH]; [reflexivity|].
  cbn. now rewrite IH.
Qed.

Lemma std_fin (l : list R) :
  (2 <= length l)%nat -> std (map Fin l) = Fin (sqrt (sample_var l)).
Proof.
  intros H. unfold std. rewrite count_valid_fin, finite_values_fin.
  destruct (Nat.ltb_spec (length l) 2); [lia|reflexivity].
Qed.

Lemma std_const (c : R) (l : list R) :
  (2 <= length l)%nat -> Forall (fun x => x = c) l -> std (map Fin l) = Fin 0.
Proof.
  intros Hn H. rewrite (std_fin _ Hn), (sample_var_const H), sqrt_0.
  reflexivity.
Qed.

Lemma annualised_std_const (c : R) (l : list R) :
  (2 <= length l)%nat -> Forall (fun x => x = c) l ->
  annualised_std (map Fin l) = Fin 0.
Proof.
  intros Hn H. unfold annualised_std. rewrite (std_const Hn H).
  cbn. f_equal. apply Rmult_0_l.
Qed.

(** The standard deviation is defined only for two or more entries. *)
Lemma std_fin_count (l : list flt) (s : R) :
  std l = Fin s -> (2 <= count_valid l)%nat.
Proof.
  unfold std. destruct (Nat.ltb_spec (count_valid l) 2); [discriminate|lia].
Qed.

Lemma annualised_std_fin_count (l : list flt) (s : R) :
  annualised_std l = Fin s -> (2 <= count_valid l)%nat.
Proof.
  unfold annualised_std. destruct (std l) as [r| | |] eqn:E.
  - intros _. exact (std_fin_count _ E).
  - cbn. destruct (Rsign (sqrt 252)); discriminate.
  - cbn. destruct (Rsign (sqrt 252)); discriminate.
  - discriminate.
Qed.

Lemma count_valid_le (l : list flt) : (count_valid l <= length l)%nat.
Proof. unfold count_valid. apply filter_length_le. Qed.

End SeriesProps.

(** ** Evaluating [compute_metrics] *)

Module MetricsProps.

Import Float Py Pandas Metrics Statements SeriesProps LoadProps.
Local Open Scope R_scope.

Lemma years_zero (t0 t1 : Z) : IZR (t1 - t0) / 365.25 = 0 <-> t1 = t0.
Proof.
  split.
  - intros H. assert (E : IZR (t1 - t0) = 0) by lra.
    apply eq_IZR_R0 in E. lia.
  - intros ->. rewrite Z.sub_diag. lra.
Qed.

Section Eval.

Variable df : list (Z * flt).

(** No retained row: [IndexError]. *)
Lemma compute_metrics_no_row :
  with_returns df = [] -> compute_metrics df = Raise IndexError.
Proof.
  intros H. unfold compute_metrics. rewrite H. reflexivity.
Qed.

(** Retained rows on a single day: [ZeroDivisionError]. *)
Lemma compute_metrics_zero_years t0 p_first p_last :
  iloc_first (map (fun x : Z * flt * flt => fst (fst x)) (with_returns df))
  = Ok t0 ->
  iloc_last (map (fun x : Z * flt * flt => fst (fst x)) (with_returns df))
  = Ok t0 ->
  iloc_last (map (fun x : Z * flt * flt => snd (fst x)) (with_returns df))
  = Ok p_last ->
  iloc_first (map (fun x : Z * flt * flt => snd (fst x)) (with_returns df))
  = Ok p_first ->
  compute_metrics df = Raise ZeroDivisionError.
Proof.
  intros H0 H1 Hl Hf. unfold compute_metrics.
  rewrite H0, H1, Hl, Hf. cbn [bind]. unfold py_div.
  destruct (Req_dec_T (IZR (t0 - t0) / 365.25) 0) as [_|Hn]; [reflexivity|].
  exfalso. apply Hn. now apply years_zero.
Qed.

(** Retained rows over distinct first and last days: the summary. *)
Lemma compute_metrics_eval t0 t1 p_first p_last c_last :
  iloc_first (map (fun x : Z * flt * flt => fst (fst x)) (with_returns df))
  = Ok t0 ->
  iloc_last (map (fun x : Z * flt * flt => fst (fst x)) (with_returns df))
  = Ok t1 ->
  iloc_last (map (fun x : Z * flt * flt => snd (fst x)) (with_returns df))
  = Ok p_last ->
  iloc_first (map (fun x : Z * flt * flt => snd (fst x)) (with_returns df))
  = Ok p_first ->
  iloc_last (cum_returns (map snd (with_returns df))) = Ok c_last ->
  t1 <> t0 ->
  compute_metrics df =
  Ok (build_rows (with_returns df)
        (cum_returns (map snd (with_returns df)))
        (map clip_upper0 (map snd (with_returns df))),
      summary_of t0 t1 p_first p_last c_last (map snd (with_returns df))).
Proof.
  intros H0 H1 Hl Hf Hc Hne. unfold compute_metrics.
  rewrite H0, H1, Hl, Hf, Hc. cbn [bind]. unfold py_div.
  destruct (Req_dec_T (IZR (t1 - t0) / 365.25) 0) as [Hz|_].
  - exfalso. apply Hne. now apply years_zero.
  - reflexivity.
Qed.

End Eval.

Lemma reset_index_table_of ps : reset_index (table_of ps) = price_frame ps.
Proof.
  unfold reset_index, table_of, column, price_frame. cbn.
  induction ps as [|[d p] ps IH]; [reflexivity|]. cbn. now rewrite IH.
Qed.

(** Without date bounds the whole table is the PriceSeries. *)
Lemma load_prices_table_of to_datetime ticker ps :
  ps <> [] ->
  load_prices (fun _ => table_of ps) to_datetime ticker None None
  = Ok (price_frame ps).
Proof.
  intros Hne.
  rewrite (@load_prices_filtered (fun _ => table_of ps) to_datetime ticker
             None None None None); try reflexivity.
  - cbv zeta. unfold not_after, not_before. rewrite !filter_true.
    rewrite reset_index_table_of. destruct ps; [contradiction|reflexivity].
  - destruct ps; [contradiction|reflexivity].
Qed.

(** *** Shape of the returned frame *)

Lemma cumprod_from_length acc l : length (cumprod_from acc l) = length l.
Proof.
  revert acc. induction l as [|x l IH]; intros acc; [reflexivity|].
  cbn. destruct (is_nan x); cbn; now rewrite IH.
Qed.

Lemma cum_returns_length l : length (cum_returns l) = length l.
Proof.
  unfold cum_returns, cumprod.
  now rewrite length_map, cumprod_from_length, length_map.
Qed.

Lemma build_rows_length kept cum down :
  length kept = length cum -> length cum = length down ->
  length (build_rows kept cum down) = length kept.
Proof.
  intros H1 H2. unfold build_rows.
  rewrite length_map, !length_combine. lia.
Qed.

Lemma build_rows_cum kept cum down :
  length kept = length cum -> length cum = length down ->
  map CumReturn (build_rows kept cum down) = cum.
Proof.
  unfold build_rows. revert cum down.
  induction kept as [|[[d p] r] kept IH]; intros [|c cum] [|dn down] H1 H2;
    try discriminate; [reflexivity|].
  cbn. f_equal. apply IH; [now injection H1 | now injection H2].
Qed.

Lemma build_rows_dates kept cum down :
  length kept = length cum -> length cum = length down ->
  map Date (build_rows kept cum down)
  = map (fun x : Z * flt * flt => fst (fst x)) kept.
Proof.
  unfold build_rows. revert cum down.
  induction kept as [|[[d p] r] kept IH]; intros [|c cum] [|dn down] H1 H2;
    try discriminate; [reflexivity|].
  cbn. f_equal. apply IH; [now injection H1 | now injection H2].
Qed.

Lemma build_rows_prices kept cum down :
  length kept = length cum -> length cum = length down ->
  map AdjClose (build_rows kept cum down)
  = map (fun x : Z * flt * flt => snd (fst x)) kept.
Proof.
  unfold build_rows. revert cum down.
  induction kept as [|[[d p] r] kept IH]; intros [|c cum] [|dn down] H1 H2;
    try discriminate; [reflexivity|].
  cbn. f_equal. apply IH; [now injection H1 | now injection H2].
Qed.

(** Whatever [compute_metrics] returns is the frame of the retained rows
    with their cumulative returns, and the summary's cumulative return is
    the last of them, in percent. *)
Lemma compute_metrics_inv df rows m :
  compute_metrics df = Ok (rows, m) ->
  let kept := with_returns df in
  let cum := cum_returns (map snd kept) in
  length rows = length kept /\
  map CumReturn rows = cum /\
  map Date rows = map (fun x : Z * flt * flt => fst (fst x)) kept /\
  map AdjClose rows = map (fun x : Z * flt * flt => snd (fst x)) kept /\
  exists c_last, iloc_last cum = Ok c_last /\ m_cum m = fmul c_last (Fin 100).
Proof.
  unfold compute_metrics. intros H.
  destruct (iloc_first (map (fun x : Z * flt * flt => fst (fst x))
                            (with_returns df))) as [t0|]; [|discriminate].
  destruct (iloc_last (map (fun x : Z * flt * flt => fst (fst x))
                           (with_returns df))) as [t1|]; [|discriminate].
  destruct (iloc_last (map (fun x : Z * flt * flt => snd (fst x))
                           (with_returns df))) as [pl|]; [|discriminate].
  destruct (iloc_first (map (fun x : Z * flt * flt => snd (fst x))
                            (with_returns df))) as [pf|]; [|discriminate].
  cbn [bind] in H.
  destruct (py_div 1 (IZR (t1 - t0) / 365.25)) as [inv|]; [|discriminate].
  cbn [bind] in H.
  destruct (iloc_last (cum_returns (map snd (with_returns df))))
    as [c_last|] eqn:Ec; [|discriminate].
  cbn [bind] in H. injection H as <- <-. cbv zeta.
  assert (L1 : length (with_returns df)
               = length (cum_returns (map snd (with_returns df))))
    by now rewrite cum_returns_length, length_map.
  assert (L2 : length (cum_returns (map snd (with_returns df)))
               = length (map clip_upper0 (map snd (with_returns df))))
    by now rewrite cum_returns_length, !length_map.
  repeat split.
  - now apply build_rows_length.
  - now apply build_rows_cum.
  - now apply build_rows_dates.
  - now apply build_rows_prices.
  - exists c_last. split; reflexivity.
Qed.

(** *** A valid PriceSeries *)

Lemma Rsign_pos (r : R) : 0 < r -> Rsign r = Pos.
Proof.
  intros H. unfold Rsign.
  destruct (total_order_T r 0) as [[Hlt|Heq]|Hgt]; try lra. reflexivity.
Qed.

Lemma cagr_of_positive t0 t1 p_first p_last :
  0 < p_first -> 0 < p_last -> t1 <> t0 ->
  cagr_of t0 t1 (Fin p_first) (Fin p_last)
  = Fin (Rpower (p_last / p_first) (1 / (IZR (t1 - t0) / 365.25)) - 1).
Proof.
  intros Hf Hl Hne. unfold cagr_of.
  rewrite fdiv_fin by lra. unfold fpow.
  assert (Hy : IZR (t1 - t0) / 365.25 <> 0).
  { intros E. apply Hne. now apply years_zero. }
  destruct (Req_dec_T (1 / (IZR (t1 - t0) / 365.25)) 0) as [E|_].
  - exfalso. unfold Rdiv at 1 in E. rewrite Rmult_1_l in E.
    now apply (Rinv_neq_0_compat _ Hy).
  - rewrite Rsign_pos by (apply Rdiv_lt_0_compat; assumption).
    reflexivity.
Qed.

Lemma last_in {A : Type} (l : list A) (a : A) : l <> [] -> In (last l a) l.
Proof.
  induction l as [|x [|y l] IH]; intros H; [contradiction| now left |].
  right. apply IH. discriminate.
Qed.

(** A PriceSeries of three or more observations: the frame and the
    summary that [compute_metrics] returns. *)
Lemma compute_metrics_price_series d0 p0 r1 rest :
  let ps := (d0, p0) :: r1 :: rest in
  let rn := last rest r1 in
  let returns := map Fin (returns_from p0 (map snd (r1 :: rest))) in
  let cum := map (fun x => Fin (snd x / p0 - 1)) (r1 :: rest) in
  positive ps -> increasing ps -> rest <> [] ->
  fst rn <> fst r1 /\
  compute_metrics (price_frame ps) =
  Ok (build_rows (kept_rows p0 (r1 :: rest)) cum (map clip_upper0 returns),
      summary_of (fst r1) (fst rn) (Fin (snd r1)) (Fin (snd rn))
                 (Fin (snd rn / p0 - 1)) returns).
Proof.
  intros ps rn returns cum Hpos Hinc Hne.
  assert (Hnz : Forall (fun x => x <> 0) (p0 :: map snd (r1 :: rest))).
  { apply (positive_nonzero Hpos). }
  assert (Hlt : (fst r1 < fst rn)%Z).
  { unfold increasing in Hinc. cbn [map fst] in Hinc.
    apply StronglySorted_inv in Hinc. destruct Hinc as [Hinc _].
    apply StronglySorted_inv in Hinc. destruct Hinc as [_ Hall].
    rewrite Forall_forall in Hall. apply Hall.
    apply in_map. apply last_in. exact Hne. }
  split; [lia|].
  assert (Ecum : cum_returns (map snd (kept_rows p0 (r1 :: rest))) = cum).
  { rewrite kept_rows_returns, (cum_returns_telescope Hnz), map_map.
    reflexivity. }
  unfold ps. rewrite <- Ecum. unfold returns.
  rewrite <- (kept_rows_returns p0 (r1 :: rest)).
  rewrite <- (@with_returns_price_frame d0 p0 (r1 :: rest) Hnz).
  apply compute_metrics_eval.
  all: rewrite ?(@with_returns_price_frame d0 p0 (r1 :: rest) Hnz).
  - rewrite kept_rows_dates. reflexivity.
  - rewrite kept_rows_dates. apply iloc_last_map_cons.
  - rewrite kept_rows_prices.
    apply (iloc_last_map_cons (fun x : Z * R => Fin (snd x))).
  - rewrite kept_rows_prices. reflexivity.
  - rewrite Ecum. unfold cum.
    apply (iloc_last_map_cons (fun x : Z * R => Fin (snd x / p0 - 1))).
  - lia.
Qed.

(** *** Frames in date order *)

Lemma pct_change_length (l : list flt) : length (pct_change l) = length l.
Proof.
  destruct l as [|x l]; [reflexivity|]. cbn. f_equal.
  revert x. induction l as [|y l IH]; intros x; [reflexivity|].
  cbn. now rewrite IH.
Qed.

(** The retained rows keep the order of the PriceSeries. *)
Lemma with_returns_sorted (df : list (Z * flt)) :
  StronglySorted Z.lt (map fst df) ->
  StronglySorted Z.lt
    (map (fun x : Z * flt * flt => fst (fst x)) (with_returns df)).
Proof.
  intros H. unfold with_returns.
  rewrite <- (map_map fst fst).
  set (P := fun x : Z * flt * flt => negb (is_nan (snd x))).
  assert (G : forall (l : list (Z * flt)) (rs : list flt),
             StronglySorted Z.lt (map fst l) ->
             StronglySorted Z.lt (map fst (map fst (filter P (combine l rs))))).
  { clear. intros l. induction l as [|b l IH]; intros rs Hs;
      [constructor|].
    destruct rs as [|r rs]; [constructor|].
    cbn [map] in Hs. apply StronglySorted_inv in Hs. destruct Hs as [Hs Hall].
    cbn [combine filter]. destruct (P (b, r)).
    - cbn [map fst]. constructor; [now apply IH|].
      rewrite Forall_forall in Hall |- *.
      intros d Hd. apply in_map_iff in Hd. destruct Hd as (b' & <- & Hin).
      apply in_map_iff in Hin. destruct Hin as ([b'' r'] & <- & Hin).
      apply filter_In in Hin. destruct Hin as [Hin _].
      apply in_combine_l in Hin. apply Hall. now apply in_map.
    - now apply IH. }
  now apply G.
Qed.

Lemma truthy_zero : truthy (Fin 0) = false.
Proof.
  unfold truthy. destruct (Req_dec_T 0 0); [reflexivity|contradiction].
Qed.

(** At least two retained rows in date order: the summary is produced. *)
Lemma compute_metrics_two_rows (df : list (Z * flt)) :
  StronglySorted Z.lt (map fst df) ->
  (2 <= length (with_returns df))%nat ->
  exists t0 t1 p_first p_last c_last,
    compute_metrics df =
    Ok (build_rows (with_returns df)
          (cum_returns (map snd (with_returns df)))
          (map clip_upper0 (map snd (with_returns df))),
        summary_of t0 t1 p_first p_last c_last (map snd (with_returns df))).
Proof.
  intros Hs Hlen. pose proof (with_returns_sorted df Hs) as Hk.
  pose proof (cum_returns_length (map snd (with_returns df))) as Hcl.
  rewrite length_map in Hcl.
  destruct (with_returns df) as [|k1 [|k2 ks]] eqn:Ek; cbn in Hlen; try lia.
  destruct (cum_returns (map snd (k1 :: k2 :: ks))) as [|c1 cs] eqn:Ec;
    [discriminate|].
  exists (fst (fst k1)), (fst (fst (last (k2 :: ks) k1))),
         (snd (fst k1)), (snd (fst (last (k2 :: ks) k1))), (last cs c1).
  rewrite <- Ec, <- Ek.
  apply compute_metrics_eval; rewrite ?Ek.
  - reflexivity.
  - apply (iloc_last_map_cons (fun x : Z * flt * flt => fst (fst x))).
  - apply (iloc_last_map_cons (fun x : Z * flt * flt => snd (fst x))).
  - reflexivity.
  - rewrite Ec. apply iloc_last_cons.
  - cbn [map] in Hk. apply StronglySorted_inv in Hk. destruct Hk as [_ Hall].
    rewrite Forall_forall in Hall.
    assert ((fst (fst k1) < fst (fst (last (k2 :: ks) k1)))%Z).
    { apply Hall.
      apply (in_map (fun x : Z * flt * flt => fst (fst x)) (k2 :: ks)).
      apply last_in. discriminate. }
    lia.
Qed.

(** Non-negative returns have an all-zero downside column. *)
Lemma clip_nonnegative (l : list flt) :
  Forall (fun x => exists r, x = Fin r /\ 0 <= r) l ->
  exists zs, map clip_upper0 l = map Fin zs /\
             Forall (fun z => z = 0) zs /\ length zs = length l.
Proof.
  induction 1 as [|x l (r & -> & Hr) Hl (zs & E & Hz & Hlen)].
  - exists []. repeat split. constructor.
  - exists (0 :: zs). cbn [map clip_upper0 length]. rewrite E, Hlen.
    repeat split.
    + f_equal. f_equal. unfold Rmin. destruct (Rle_dec r 0); lra.
    + now constructor.
Qed.

(** A summary is returned only for two or more retained rows, and it is
    the summary of their first and last date and price. *)
Lemma compute_metrics_summary (df : list (Z * flt)) rows m :
  compute_metrics df = Ok (rows, m) ->
  (2 <= length (with_returns df))%nat /\
  exists t0 t1 p_first p_last c_last,
    m = summary_of t0 t1 p_first p_last c_last (map snd (with_returns df)).
Proof.
  unfold compute_metrics.
  destruct (with_returns df) as [|k1 [|k2 ks]]; [discriminate| |].
  - cbn [map iloc_first iloc_last bind]. unfold py_div.
    destruct (Req_dec_T (IZR (fst (fst k1) - fst (fst k1)) / 365.25) 0)
      as [_|Hn]; [discriminate|].
    exfalso. apply Hn. now apply years_zero.
  - intros H. split; [cbn; lia|].
    destruct (iloc_first (map (fun x : Z * flt * flt => fst (fst x))
                              (k1 :: k2 :: ks))) as [t0|]; [|discriminate].
    destruct (iloc_last (map (fun x : Z * flt * flt => fst (fst x))
                             (k1 :: k2 :: ks))) as [t1|]; [|discriminate].
    destruct (iloc_last (map (fun x : Z * flt * flt => snd (fst x))
                             (k1 :: k2 :: ks))) as [pl|]; [|discriminate].
    destruct (iloc_first (map (fun x : Z * flt * flt => snd (fst x))
                              (k1 :: k2 :: ks))) as [pf|]; [|discriminate].
    cbn [bind] in H. unfold py_div in H.
    destruct (Req_dec_T (IZR (t1 - t0) / 365.25) 0); [discriminate|].
    cbn [bind] in H.
    destruct (iloc_last (cum_returns (map snd (k1 :: k2 :: ks))))
      as [cl|]; [|discriminate].
    cbn [bind] in H. injection H as _ <-.
    exists t0, t1, pf, pl, cl. reflexivity.
Qed.

(** At least two retained rows in date order: the frame and the summary,
    field by field. *)
Lemma compute_metrics_fields (df : list (Z * flt)) k1 k2 ks :
  StronglySorted Z.lt (map fst df) ->
  with_returns df = k1 :: k2 :: ks ->
  exists c_last,
    iloc_last (cum_returns (map snd (with_returns df))) = Ok c_last /\
    compute_metrics df =
    Ok (build_rows (with_returns df)
          (cum_returns (map snd (with_returns df)))
          (map clip_upper0 (map snd (with_returns df))),
        summary_of (fst (fst k1)) (fst (fst (last (k2 :: ks) k1)))
          (snd (fst k1)) (snd (fst (last (k2 :: ks) k1))) c_last
          (map snd (with_returns df))).
Proof.
  intros Hs Ek. pose proof (with_returns_sorted df Hs) as Hk.
  pose proof (cum_returns_length (map snd (with_returns df))) as Hcl.
  rewrite length_map in Hcl. rewrite Ek in Hk.
  destruct (cum_returns (map snd (with_returns df))) as [|c1 cs] eqn:Ec;
    [rewrite Ek in Hcl; discriminate|].
  exists (last cs c1). split; [apply iloc_last_cons|].
  rewrite <- Ec.
  apply compute_metrics_eval; rewrite ?Ek.
  - reflexivity.
  - apply (iloc_last_map_cons (fun x : Z * flt * flt => fst (fst x))).
  - apply (iloc_last_map_cons (fun x : Z * flt * flt => snd (fst x))).
  - reflexivity.
  - rewrite <- Ek, Ec. apply iloc_last_cons.
  - cbn [map] in Hk. apply StronglySorted_inv in Hk. destruct Hk as [_ Hall].
    rewrite Forall_forall in Hall.
    assert ((fst (fst k1) < fst (fst (last (k2 :: ks) k1)))%Z).
    { apply Hall.
      apply (in_map (fun x : Z * flt * flt => fst (fst x)) (k2 :: ks)).
      apply last_in. discriminate. }
    lia.
Qed.

End MetricsProps.

(** ** The claims about [fetch_price_and_metrics] *)

Module FetchProps.

Import Float Py Pandas Metrics Statements Examples.
Import SeriesProps LoadProps MetricsProps.
Local Open Scope R_scope.

(** C2, at a range of one trading day.  The frame is not empty when the
    guard of line 76 looks at it, its only row is then dropped with its
    undefined return, and reading [df["Date"].iloc[0]] raises [IndexError]
    instead of the [EmptyRange] failure. *)
Theorem single_day_range_raises_index_error :
  load_prices (fun _ => table_of three_days) parse_jan3 "AAPL"
    (Some "2024-01-03"%string) (Some "2024-01-03"%string)
  = Ok [(19725%Z, Fin 101)] /\
  fetch_price_and_metrics (fun _ => table_of three_days) parse_jan3 "AAPL"
    (Some "2024-01-03"%string) (Some "2024-01-03"%string)
  = Raise IndexError /\
  IndexError <> EmptyRange.
Proof.
  assert (E : load_prices (fun _ => table_of three_days) parse_jan3 "AAPL"
                (Some "2024-01-03"%string) (Some "2024-01-03"%string)
              = Ok [(19725%Z, Fin 101)]) by reflexivity.
  split; [exact E|]. split; [|discriminate].
  exact (single_row_index_error _ _ _ _ _ E).
Qed.

(** C1. For a PriceSeries of N >= 2 observations none of whose prices is
    zero, the return column computed at lines 80-82 has N-1 entries and
    its last cumulative return is the last price over the price of the
    first observation of the PriceSeries (the one dropped from the
    ReturnSeries), minus one; every frame [fetch_price_and_metrics]
    returns has this shape, and it does return one when the dates
    increase and N >= 3. *)
Theorem return_series_shape
    (yf_download : string -> DataFrame) (to_datetime : string -> option Z)
    (ticker : string) (start_date end_date : option string)
    (d0 : Z) (p0 : R) (r1 : Z * R) (rest : list (Z * R)) :
  let ps := (d0, p0) :: r1 :: rest in
  let p_final := snd (last rest r1) in
  nonzero ps ->
  load_prices yf_download to_datetime ticker start_date end_date
  = Ok (price_frame ps) ->
  length (with_returns (price_frame ps)) = (length ps - 1)%nat /\
  iloc_last (cum_returns (map snd (with_returns (price_frame ps))))
  = Ok (Fin (p_final / p0 - 1)) /\
  (forall rows m,
      fetch_price_and_metrics yf_download to_datetime ticker
        start_date end_date = Ok (rows, m) ->
      length rows = (length ps - 1)%nat /\
      map Date rows = map fst (r1 :: rest) /\
      iloc_last (map CumReturn rows) = Ok (Fin (p_final / p0 - 1)) /\
      m_cum m = Fin ((p_final / p0 - 1) * 100)) /\
  (increasing ps -> rest <> [] ->
   exists rows m,
     fetch_price_and_metrics yf_download to_datetime ticker
       start_date end_date = Ok (rows, m)).
Proof.
  intros ps p_final Hnz0 Hload.
  assert (Hnz : Forall (fun x => x <> 0) (p0 :: map snd (r1 :: rest)))
    by apply (nonzero_prices Hnz0).
  assert (Ek : with_returns (price_frame ps) = kept_rows p0 (r1 :: rest))
    by apply (@with_returns_price_frame d0 p0 (r1 :: rest) Hnz).
  assert (Ec : cum_returns (map snd (kept_rows p0 (r1 :: rest)))
               = map (fun x => Fin (snd x / p0 - 1)) (r1 :: rest)).
  { rewrite kept_rows_returns, (cum_returns_telescope Hnz), map_map.
    reflexivity. }
  assert (El : iloc_last (cum_returns (map snd (kept_rows p0 (r1 :: rest))))
               = Ok (Fin (p_final / p0 - 1))).
  { rewrite Ec.
    apply (iloc_last_map_cons (fun x : Z * R => Fin (snd x / p0 - 1))). }
  split; [|split; [|split]].
  - rewrite Ek, kept_rows_length. cbn. lia.
  - now rewrite Ek.
  - intros rows m Hfetch. unfold fetch_price_and_metrics in Hfetch.
    rewrite Hload in Hfetch. cbn [bind] in Hfetch.
    destruct (compute_metrics_inv _ Hfetch)
      as (Hlen & Hcum & Hdates & _ & c_last & Hlast & Hm).
    rewrite Ek in Hlen, Hcum, Hdates, Hlast.
    rewrite El in Hlast. injection Hlast as <-.
    repeat split.
    + rewrite Hlen, kept_rows_length. cbn. lia.
    + now rewrite Hdates, kept_rows_dates.
    + now rewrite Hcum.
    + exact Hm.
  - intros Hinc Hne. unfold fetch_price_and_metrics. rewrite Hload.
    cbn [bind].
    assert (Hs : StronglySorted Z.lt (map fst (price_frame ps)))
      by (rewrite price_frame_dates; exact Hinc).
    assert (Hlen : (2 <= length (with_returns (price_frame ps)))%nat).
    { rewrite Ek, kept_rows_length. destruct rest; [contradiction|].
      cbn. lia. }
    destruct (compute_metrics_two_rows (price_frame ps) Hs Hlen)
      as (t0 & t1 & pf & pl & cl & E).
    rewrite E. eauto.
Qed.

Lemma doubling_positive : positive doubling.
Proof. unfold positive, doubling. repeat constructor; cbn; lra. Defined.

Lemma doubling_increasing : increasing doubling.
Proof.
  unfold increasing, doubling. cbn. repeat constructor; reflexivity.
Defined.

Lemma return_series_shape_witness :
  length (with_returns (price_frame doubling)) = 3%nat /\
  iloc_last (cum_returns (map snd (with_returns (price_frame doubling))))
  = Ok (Fin (8 / 1 - 1)) /\
  exists rows m,
    fetch_price_and_metrics (fun _ => table_of doubling) (fun _ => None)
      "DBL" None None = Ok (rows, m).
Proof.
  destruct (@return_series_shape (fun _ => table_of doubling) (fun _ => None)
              "DBL" None None 19724%Z 1 (19725%Z, 2)
              [(19726%Z, 4); (19727%Z, 8)]
              (positive_is_nonzero doubling_positive)
              (@load_prices_table_of (fun _ => None) "DBL"%string doubling
                 ltac:(discriminate)))
    as (H1 & H2 & _ & H4).
  split; [exact H1 | split; [exact H2|]].
  apply H4; [exact doubling_increasing | discriminate].
Defined.

Lemma compounding_positive : positive compounding.
Proof. unfold positive, compounding. repeat constructor; cbn; lra. Defined.

Lemma compounding_increasing : increasing compounding.
Proof.
  unfold increasing, compounding. cbn. repeat constructor; reflexivity.
Defined.

(** C1 as worded fails on 100, 110, 121: the frame starts at the second
    observation (110), its last cumulative return is 121/100 - 1 = 0.21,
    and 121/110 - 1 = 0.10 is more than a tenth away. *)
Lemma cum_return_on_first_retained_counterexample :
  exists rows m,
    fetch_price_and_metrics (fun _ => table_of compounding) (fun _ => None)
      "CMP" None None = Ok (rows, m) /\
    map AdjClose rows = [Fin 110; Fin 121] /\
    map CumReturn rows = [Fin (110 / 100 - 1); Fin (121 / 100 - 1)] /\
    ~ cum_return_on_first_retained (1 / 10) rows.
Proof.
  destruct (@compute_metrics_price_series 19724%Z 100 (19725%Z, 110)
              [(19726%Z, 121)] compounding_positive compounding_increasing
              ltac:(discriminate)) as [_ E].
  eexists. eexists. split.
  - unfold fetch_price_and_metrics.
    rewrite (@load_prices_table_of (fun _ => None) "CMP"%string compounding)
      by discriminate.
    cbn [bind]. exact E.
  - split; [reflexivity|]. split; [reflexivity|].
    intros (first & final & c & Hf & Hl & Hc & pf & pl & Hpf & Hpl & Habs).
    cbn in Hf, Hl. injection Hf as <-. injection Hl as <-.
    cbn in Hc, Hpf, Hpl.
    injection Hc as <-. injection Hpf as <-. injection Hpl as <-.
    unfold Rabs in Habs.
    destruct (Rcase_abs (121 / 100 - 1 - (121 / 110 - 1))); lra.
Qed.

(** *** The two-point example *)

Lemma ln_lt_self (x : R) : 0 < x -> ln (1 + x) < x.
Proof.
  intros H. apply exp_lt_inv. rewrite exp_ln by lra. apply exp_ineq1. lra.
Qed.

Lemma exp_lt_inv_one_minus (u : R) : 0 < u < 1 -> exp u < / (1 - u).
Proof.
  intros [H0 H1].
  assert (H : 1 - u < exp (- u)).
  { replace (1 - u) with (1 + - u) by lra. apply exp_ineq1. lra. }
  rewrite exp_Ropp in H.
  assert (He : 0 < exp u) by apply exp_pos.
  assert (Hm : (1 - u) * exp u < 1).
  { apply (Rmult_lt_compat_r (exp u)) in H; [|exact He].
    rewrite Rinv_l in H by lra. exact H. }
  apply (Rmult_lt_reg_l (1 - u)); [lra|].
  rewrite Rinv_r by lra. exact Hm.
Qed.

(** 1.1 to the power 365.25/365 lies between 1.1 and 1.101. *)
Lemma one_year_power_bounds :
  110 / 100 < Rpower (110 / 100) (1 / (365 / 365.25)) < 1101 / 1000.
Proof.
  replace (1 / (365 / 365.25)) with (1 + 1 / 1460) by lra.
  rewrite Rpower_plus, Rpower_1 by lra.
  assert (Hln : 0 < ln (110 / 100) < 1 / 10).
  { split.
    - pose proof (ln_increasing 1 (110 / 100)) as Hl. rewrite ln_1 in Hl.
      apply Hl; lra.
    - replace (110 / 100) with (1 + 1 / 10) by lra. apply ln_lt_self. lra. }
  unfold Rpower.
  assert (H1 : exp 0 < exp (1 / 1460 * ln (110 / 100))).
  { apply exp_increasing. nra. }
  rewrite exp_0 in H1.
  assert (H2 : exp (1 / 1460 * ln (110 / 100)) < exp (1 / 10000)).
  { apply exp_increasing. nra. }
  assert (H3 : exp (1 / 10000) < / (1 - 1 / 10000))
    by (apply exp_lt_inv_one_minus; lra).
  assert (H4 : / (1 - 1 / 10000) = 10000 / 9999) by field.
  nra.
Qed.

(** C3 as worded fails: on the two-point series only the second
    observation is retained, the elapsed time is 0 years and [1/years]
    raises [ZeroDivisionError]; no summary is produced. *)
Lemma two_point_counterexample :
  fetch_price_and_metrics (fun _ => table_of two_point) (fun _ => None)
    "SYN" None None = Raise ZeroDivisionError /\
  ~ exists rows m,
      fetch_price_and_metrics (fun _ => table_of two_point) (fun _ => None)
        "SYN" None None = Ok (rows, m) /\
      about_one_year_ten_percent m.
Proof.
  assert (E : fetch_price_and_metrics (fun _ => table_of two_point)
                (fun _ => None) "SYN" None None = Raise ZeroDivisionError).
  { unfold fetch_price_and_metrics.
    rewrite (@load_prices_table_of (fun _ => None) "SYN"%string two_point)
      by discriminate.
    cbn [bind].
    assert (Hnz : Forall (fun x => x <> 0) (100 :: map snd [(365%Z, 110)])).
    { repeat constructor; cbn; lra. }
    apply (@compute_metrics_zero_years _ 365%Z (Fin 110) (Fin 110));
      unfold two_point;
      rewrite (@with_returns_price_frame 0%Z 100 [(365%Z, 110)] Hnz);
      reflexivity. }
  split; [exact E|].
  intros (rows & m & H & _). rewrite E in H. discriminate.
Qed.

(** C3. When the retained observations are (day0, 100) and
    (day0 + 365, 110), that is, when one earlier observation precedes
    them in the PriceSeries, the summary starts at day0, spans
    365/365.25 years (about 1.0) and reports a CAGR of
    1.1^(365.25/365) - 1, which is about 10%. *)
Theorem year_long_ten_percent_rise
    (yf_download : string -> DataFrame) (to_datetime : string -> option Z)
    (ticker : string) (start_date end_date : option string)
    (d day0 : Z) (p : R) :
  (d < day0)%Z -> 0 < p ->
  load_prices yf_download to_datetime ticker start_date end_date
  = Ok (price_frame [(d, p); (day0, 100); ((day0 + 365)%Z, 110)]) ->
  exists rows m,
    fetch_price_and_metrics yf_download to_datetime ticker start_date end_date
    = Ok (rows, m) /\
    m_start m = day0 /\
    m_end m = (day0 + 365)%Z /\
    m_years m = 365 / 365.25 /\
    m_ann m = Fin ((Rpower (110 / 100) (1 / (365 / 365.25)) - 1) * 100) /\
    about_one_year_ten_percent m.
Proof.
  intros Hd Hp Hload.
  assert (Hpos : positive [(d, p); (day0, 100); ((day0 + 365)%Z, 110)]).
  { unfold positive. repeat constructor; cbn; lra. }
  assert (Hinc : increasing [(d, p); (day0, 100); ((day0 + 365)%Z, 110)]).
  { unfold increasing. cbn. repeat constructor; lia. }
  destruct (@compute_metrics_price_series d p (day0, 100)
              [((day0 + 365)%Z, 110)] Hpos Hinc ltac:(discriminate))
    as [Hne E].
  cbn [last fst snd] in Hne, E.
  assert (Ey : IZR (day0 + 365 - day0) / 365.25 = 365 / 365.25).
  { replace (day0 + 365 - day0)%Z with 365%Z by lia. reflexivity. }
  assert (Ea : fmul (cagr_of day0 (day0 + 365) (Fin 100) (Fin 110)) (Fin 100)
               = Fin ((Rpower (110 / 100) (1 / (365 / 365.25)) - 1) * 100)).
  { rewrite cagr_of_positive by (lra || lia). rewrite Ey. reflexivity. }
  eexists. eexists. split.
  - unfold fetch_price_and_metrics. rewrite Hload. cbn [bind]. exact E.
  - cbn [summary_of m_start m_end m_years m_ann about_one_year_ten_percent].
    split; [reflexivity|]. split; [reflexivity|].
    split; [exact Ey|]. split; [exact Ea|].
    unfold about_one_year_ten_percent.
    cbn [summary_of m_years m_ann]. rewrite Ey, Ea. split.
    + unfold Rabs. destruct (Rcase_abs (365 / 365.25 - 1)); lra.
    + eexists. split; [reflexivity|].
      pose proof one_year_power_bounds as [Hlo Hhi].
      unfold Rabs.
      destruct (Rcase_abs
                  ((Rpower (110 / 100) (1 / (365 / 365.25)) - 1) * 100 - 10));
        lra.
Qed.

Lemma year_long_ten_percent_rise_witness :
  exists rows m,
    fetch_price_and_metrics
      (fun _ => table_of [((-1)%Z, 99); (0%Z, 100); (365%Z, 110)])
      (fun _ => None) "SYN" None None = Ok (rows, m) /\
    m_years m = 365 / 365.25 /\
    about_one_year_ten_percent m.
Proof.
  destruct (@year_long_ten_percent_rise
              (fun _ => table_of [((-1)%Z, 99); (0%Z, 100); (365%Z, 110)])
              (fun _ => None) "SYN" None None (-1)%Z 0%Z 99
              ltac:(reflexivity) ltac:(lra)
              (@load_prices_table_of (fun _ => None) "SYN"%string
                 [((-1)%Z, 99); (0%Z, 100); (365%Z, 110)]
                 ltac:(discriminate)))
    as (rows & m & H & _ & _ & Hy & _ & Ha).
  exists rows, m. split; [exact H | split; [exact Hy | exact Ha]].
Defined.

(** C6, as worded, on a range of two observations with a non-negative
    daily return: the one return is not negative, yet
    [fetch_price_and_metrics] raises [ZeroDivisionError] and reports no
    Sortino ratio and no other field. *)
Lemma single_non_negative_return_counterexample :
  map snd (with_returns (price_frame two_point)) = [Fin (110 / 100 - 1)] /\
  Forall (fun x => exists r, x = Fin r /\ 0 <= r)
         (map snd (with_returns (price_frame two_point))) /\
  fetch_price_and_metrics (fun _ => table_of two_point) (fun _ => None)
    "SYN" None None = Raise ZeroDivisionError /\
  ~ exists rows m,
      fetch_price_and_metrics (fun _ => table_of two_point) (fun _ => None)
        "SYN" None None = Ok (rows, m) /\
      m_sortino m = NaN.
Proof.
  assert (Hnz : Forall (fun x => x <> 0) (100 :: map snd [(365%Z, 110)])).
  { repeat constructor; cbn; lra. }
  assert (Er : map snd (with_returns (price_frame two_point))
               = [Fin (110 / 100 - 1)]).
  { unfold two_point.
    rewrite (@with_returns_price_frame 0%Z 100 [(365%Z, 110)] Hnz).
    reflexivity. }
  assert (E : fetch_price_and_metrics (fun _ => table_of two_point)
                (fun _ => None) "SYN" None None = Raise ZeroDivisionError).
  { unfold fetch_price_and_metrics.
    rewrite (@load_prices_table_of (fun _ => None) "SYN"%string two_point)
      by discriminate.
    cbn [bind].
    apply (@compute_metrics_zero_years _ 365%Z (Fin 110) (Fin 110));
      unfold two_point;
      rewrite (@with_returns_price_frame 0%Z 100 [(365%Z, 110)] Hnz);
      reflexivity. }
  split; [exact Er|]. split.
  - rewrite Er. repeat constructor. eexists. split; [reflexivity|lra].
  - split; [exact E|].
    intros (rows & m & H & _). rewrite E in H. discriminate.
Qed.

(** C6. On a frame in date order, whenever the downside deviation
    ([std] of [min(return, 0)] times [sqrt 252]) is exactly zero,
    [fetch_price_and_metrics] raises nothing and returns the frame of the
    retained rows, of which there are two or more, with a summary whose
    Sortino ratio is NaN and whose other fields are produced as always:
    start and end are the first and last retained dates, years their
    distance in days over 365.25, and the cumulative return, the
    annualised return, the volatility and the Sharpe ratio follow their
    formulas.  The deviation is exactly zero whenever the returns, two or
    more of them, are all non-negative; and with non-negative returns no
    summary is ever returned with another Sortino ratio than NaN. *)
Theorem sortino_nan_on_zero_downside
    (yf_download : string -> DataFrame) (to_datetime : string -> option Z)
    (ticker : string) (start_date end_date : option string)
    (df : list (Z * flt)) :
  let returns := map snd (with_returns df) in
  let non_negative :=
    Forall (fun x => exists r, x = Fin r /\ 0 <= r) returns in
  load_prices yf_download to_datetime ticker start_date end_date = Ok df ->
  StronglySorted Z.lt (map fst df) ->
  (annualised_std (map clip_upper0 returns) = Fin 0 ->
   exists rows m k1 k2 ks c_last,
     with_returns df = k1 :: k2 :: ks /\
     iloc_last (cum_returns returns) = Ok c_last /\
     fetch_price_and_metrics yf_download to_datetime ticker
       start_date end_date = Ok (rows, m) /\
     rows = build_rows (with_returns df) (cum_returns returns)
              (map clip_upper0 returns) /\
     m_sortino m = NaN /\
     m_start m = fst (fst k1) /\
     m_end m = fst (fst (last (k2 :: ks) k1)) /\
     m_years m = IZR (m_end m - m_start m) / 365.25 /\
     m_cum m = fmul c_last (Fin 100) /\
     m_ann m = fmul (cagr_of (m_start m) (m_end m) (snd (fst k1))
                       (snd (fst (last (k2 :: ks) k1)))) (Fin 100) /\
     m_std m = fmul (annualised_std returns) (Fin 100) /\
     m_sharpe m = fdiv (fsub (cagr_of (m_start m) (m_end m) (snd (fst k1))
                                (snd (fst (last (k2 :: ks) k1))))
                          (Fin risk_free_rate))
                       (annualised_std returns)) /\
  (non_negative -> (2 <= length returns)%nat ->
   annualised_std (map clip_upper0 returns) = Fin 0) /\
  (non_negative ->
   forall rows m,
     fetch_price_and_metrics yf_download to_datetime ticker
       start_date end_date = Ok (rows, m) ->
     m_sortino m = NaN).
Proof.
  intros returns non_negative Hload Hs.
  assert (Hzero : non_negative -> (2 <= length returns)%nat ->
                  annualised_std (map clip_upper0 returns) = Fin 0).
  { intros Hall Hlen.
    destruct (clip_nonnegative Hall) as (zs & E & Hz & Hzl).
    rewrite E. apply (annualised_std_const (c := 0)); [lia|exact Hz]. }
  split; [|split; [exact Hzero|]].
  - intros Hd.
    assert (Hlen : (2 <= length (with_returns df))%nat).
    { pose proof (annualised_std_fin_count _ Hd) as Hc.
      pose proof (count_valid_le (map clip_upper0 returns)) as Hle.
      unfold returns in Hc, Hle. rewrite !length_map in Hle.
      exact (Nat.le_trans _ _ _ Hc Hle). }
    destruct (with_returns df) as [|k1 [|k2 ks]] eqn:Ek;
      cbn [length] in Hlen; try lia.
    destruct (@compute_metrics_fields df k1 k2 ks Hs Ek) as (cl & Hcl & E).
    rewrite Ek in Hcl, E.
    eexists. eexists. exists k1, k2, ks, cl.
    split; [reflexivity|]. split; [exact Hcl|]. split.
    + unfold fetch_price_and_metrics. rewrite Hload. cbn [bind]. exact E.
    + split; [reflexivity|].
      cbn [summary_of m_sortino m_start m_end m_years m_cum m_ann m_std
           m_sharpe].
      fold returns. rewrite Hd, truthy_zero. repeat split.
  - intros Hall rows m Hfetch. unfold fetch_price_and_metrics in Hfetch.
    rewrite Hload in Hfetch. cbn [bind] in Hfetch.
    destruct (compute_metrics_summary _ Hfetch)
      as (Hlen & t0 & t1 & pf & pl & cl & ->).
    cbn [summary_of m_sortino]. fold returns.
    rewrite Hzero, truthy_zero; [reflexivity|exact Hall|].
    unfold returns. now rewrite length_map.
Qed.

Lemma doubling_returns :
  map snd (with_returns (price_frame doubling))
  = [Fin (2 / 1 - 1); Fin (4 / 2 - 1); Fin (8 / 4 - 1)].
Proof.
  unfold doubling.
  rewrite (@with_returns_price_frame 19724%Z 1
             [(19725%Z, 2); (19726%Z, 4); (19727%Z, 8)]).
  - reflexivity.
  - repeat constructor; cbn; lra.
Defined.

Lemma sortino_nan_on_zero_downside_witness :
  exists rows m,
    fetch_price_and_metrics (fun _ => table_of doubling) (fun _ => None)
      "DBL" None None = Ok (rows, m) /\
    length rows = 3%nat /\
    m_sortino m = NaN /\
    m_start m = 19725%Z /\
    m_end m = 19727%Z /\
    m_years m = 2 / 365.25 /\
    m_std m = Fin 0.
Proof.
  destruct (@sortino_nan_on_zero_downside
              (fun _ => table_of doubling) (fun _ => None) "DBL" None None
              (price_frame doubling)
              (@load_prices_table_of (fun _ => None) "DBL"%string doubling
                 ltac:(discriminate))
              doubling_increasing) as (H1 & H2 & _).
  destruct H1 as (rows & m & k1 & k2 & ks & cl & Hk & Hcl & Hf & Hrows & Hso
                  & Hst & Hen & Hy & _ & _ & Hsd & _).
  { apply H2.
    - rewrite doubling_returns.
      repeat constructor; eexists; (split; [reflexivity|lra]).
    - rewrite doubling_returns. cbn. lia. }
  assert (Hnz : Forall (fun x => x <> 0)
                  (1 :: map snd [(19725%Z, 2); (19726%Z, 4); (19727%Z, 8)])).
  { repeat constructor; cbn; lra. }
  unfold doubling in Hk.
  rewrite (@with_returns_price_frame 19724%Z 1
             [(19725%Z, 2); (19726%Z, 4); (19727%Z, 8)] Hnz) in Hk.
  cbn [kept_rows map combine returns_from fst snd] in Hk.
  injection Hk as <- <- <-.
  cbn [last fst snd] in Hst, Hen.
  exists rows, m. split; [exact Hf|]. split.
  { rewrite Hrows. rewrite build_rows_length.
    - unfold doubling.
      rewrite (@with_returns_price_frame 19724%Z 1
                 [(19725%Z, 2); (19726%Z, 4); (19727%Z, 8)] Hnz).
      reflexivity.
    - now rewrite cum_returns_length, length_map.
    - now rewrite cum_returns_length, !length_map. }
  split; [exact Hso|]. split; [exact Hst|]. split; [exact Hen|]. split.
  - rewrite Hy, Hst, Hen. replace (19727 - 19725)%Z with 2%Z by reflexivity.
    reflexivity.
  - rewrite Hsd, doubling_returns.
    change [Fin (2 / 1 - 1); Fin (4 / 2 - 1); Fin (8 / 4 - 1)]
      with (map Fin [2 / 1 - 1; 4 / 2 - 1; 8 / 4 - 1]).
    rewrite (@annualised_std_const 1 [2 / 1 - 1; 4 / 2 - 1; 8 / 4 - 1]).
    + cbn. f_equal. lra.
    + cbn. lia.
    + repeat constructor; lra.
Defined.

Lemma clip_fin (l : list R) :
  map clip_upper0 (map Fin l) = map Fin (map (fun r => Rmin r 0) l).
Proof. rewrite !map_map. reflexivity. Qed.

(** C10. There is a PriceSeries of three or more observations
    (positive prices, increasing dates) with equal daily returns, the
    series 1, 2, 4, 8, on which the annualised volatility is exactly zero
    and [fetch_price_and_metrics] raises nothing: the summary it returns
    has plus infinity for its Sharpe ratio, the quotient of the positive
    annualised return by zero that no guard stands before, while its
    Sortino ratio, whose denominator is zero as well, is set to NaN by the
    guard [if d_std]. *)
Theorem sharpe_unguarded_on_zero_volatility :
  exists (d0 : Z) (p0 : R) (rest : list (Z * R)),
    (3 <= length ((d0, p0) :: rest))%nat /\
    positive ((d0, p0) :: rest) /\
    increasing ((d0, p0) :: rest) /\
    Forall (fun r => r = 1) (returns_from p0 (map snd rest)) /\
    exists rows m a,
      fetch_price_and_metrics (fun _ => table_of ((d0, p0) :: rest))
        (fun _ => None) "DBL" None None = Ok (rows, m) /\
      length rows = length rest /\
      m_ann m = Fin a /\ 0 < a /\
      m_std m = Fin 0 /\
      m_sharpe m = PInf /\
      m_sortino m = NaN.
Proof.
  exists 19724%Z, 1, [(19725%Z, 2); (19726%Z, 4); (19727%Z, 8)].
  split; [cbn; lia|].
  split; [exact doubling_positive|].
  split; [exact doubling_increasing|].
  assert (Hall : Forall (fun r => r = 1)
                   (returns_from 1
                      (map snd [(19725%Z, 2); (19726%Z, 4); (19727%Z, 8)]))).
  { cbn. repeat constructor; lra. }
  split; [exact Hall|].
  destruct (@compute_metrics_price_series 19724%Z 1 (19725%Z, 2)
              [(19726%Z, 4); (19727%Z, 8)]
              doubling_positive doubling_increasing ltac:(discriminate))
    as [Hd E].
  set (rs := returns_from 1
               (map snd [(19725%Z, 2); (19726%Z, 4); (19727%Z, 8)])) in *.
  assert (Hlen : (2 <= length rs)%nat) by (cbn; lia).
  assert (Es : annualised_std (map Fin rs) = Fin 0)
    by exact (annualised_std_const Hlen Hall).
  assert (Ed : annualised_std (map clip_upper0 (map Fin rs)) = Fin 0).
  { rewrite clip_fin. apply (annualised_std_const (c := Rmin 1 0)).
    - now rewrite length_map.
    - apply Forall_map. eapply Forall_impl; [|exact Hall].
      cbn. now intros a ->. }
  cbn [last fst snd] in Hd, E.
  assert (Ha : 0 < Rpower (8 / 2) (1 / (IZR (19727 - 19725) / 365.25)) - 1).
  { assert (H : Rpower (8 / 2) 1
                < Rpower (8 / 2) (1 / (IZR (19727 - 19725) / 365.25))).
    { apply Rpower_lt; [lra|].
      replace (19727 - 19725)%Z with 2%Z by reflexivity. lra. }
    rewrite Rpower_1 in H by lra. lra. }
  eexists. eexists.
  exists ((Rpower (8 / 2) (1 / (IZR (19727 - 19725) / 365.25)) - 1) * 100).
  split.
  - unfold fetch_price_and_metrics.
    rewrite (@load_prices_table_of (fun _ => None) "DBL"%string
               [(19724%Z, 1); (19725%Z, 2); (19726%Z, 4); (19727%Z, 8)])
      by discriminate.
    cbn [bind]. exact E.
  - split; [reflexivity|].
    cbn [summary_of m_ann m_std m_sharpe m_sortino].
    rewrite Es, Ed, truthy_zero, cagr_of_positive by (lra || lia).
    split; [reflexivity|]. split; [lra|].
    split; [cbn; f_equal; lra|]. split; [|reflexivity].
    unfold fdiv, risk_free_rate. cbn [fsub fadd fneg].
    destruct (Req_dec_T 0 0) as [_|N]; [|contradiction].
    rewrite Rsign_pos by lra. reflexivity.
Qed.



End FetchProps.

(** ** The retirement estimate and the per-year table *)

Module RetirementProps.

Import Float Py Pandas Metrics Retirement Statements Examples.
Import SeriesProps LoadProps MetricsProps FetchProps.
Local Open Scope R_scope.

(** Lines 209-214 on finite inputs. *)
Lemma estimate_finite (expense ann infl : R) (df : list row) (m : metrics) :
  m_ann m = Fin ann ->
  (ann / 100 - infl <= 0 ->
   estimate (Fin expense) (Fin infl) df m = InsufficientReturn) /\
  (0 < ann / 100 - infl ->
   estimate (Fin expense) (Fin infl) df m
   = Shown (Fin (ann / 100 - infl)) (Fin (expense / (ann / 100 - infl)))
           (summary df) m).
Proof.
  intros Hm. unfold estimate. rewrite Hm, fdiv_fin by lra.
  change (fsub (Fin (ann / 100)) (Fin infl)) with (Fin (ann / 100 - infl)).
  cbn [fle0]. split; intros H.
  - destruct (Rle_dec (ann / 100 - infl) 0); [reflexivity|contradiction].
  - destruct (Rle_dec (ann / 100 - infl) 0); [lra|].
    rewrite fdiv_fin by lra. reflexivity.
Qed.

Section Rule.

Variable yf_download : string -> DataFrame.
Variable to_datetime : string -> option Z.
Variable py_float : string -> option flt.

(** C4. Once the inputs are read and the metrics fetched,
    [calculate_retirement] warns of an insufficient return exactly when
    annualised return minus inflation is at most zero, and otherwise shows
    the annual expense divided by that rate; 7% against 2% with an expense
    of 40000 gives 800000, and 1% against 2% gives the warning. *)
Theorem retirement_estimate_rule (e : entries) (expense infl_pct ann : R)
    (df : list row) (m : metrics) :
  py_float (entry_expense e) = Some (Fin expense) ->
  py_float (entry_infl e) = Some (Fin infl_pct) ->
  PyStr.truthy (PyStr.strip (entry_tic_ret e)) = true ->
  fetch_price_and_metrics yf_download to_datetime
    (Ticker.format_ticker (PyStr.strip (entry_tic_ret e)) (combo_market_ret e))
    (or_none (PyStr.strip (entry_ret_start e)))
    (or_none (PyStr.strip (entry_ret_end e))) = Ok (df, m) ->
  m_ann m = Fin ann ->
  let rate := ann / 100 - infl_pct / 100 in
  let shown := calculate_retirement yf_download to_datetime py_float e in
  (shown = InsufficientReturn <-> rate <= 0) /\
  (0 < rate ->
   shown = Shown (Fin rate) (Fin (expense / rate)) (summary df) m) /\
  (ann = 7 -> infl_pct = 2 -> expense = 40000 ->
   shown = Shown (Fin (5 / 100)) (Fin 800000) (summary df) m) /\
  (ann = 1 -> infl_pct = 2 -> shown = InsufficientReturn).
Proof.
  intros Hexp Hinfl Htic Hfetch Hann rate shown.
  assert (E : shown = estimate (Fin expense) (Fin (infl_pct / 100)) df m).
  { unfold shown, calculate_retirement.
    rewrite Hexp, Hinfl, Htic, Hfetch. cbn [negb].
    rewrite fdiv_fin by lra. reflexivity. }
  destruct (@estimate_finite expense ann (infl_pct / 100) df m Hann)
    as [Hle Hgt].
  fold rate in Hle, Hgt.
  split; [|split; [|split]].
  - split.
    + intros Hs. destruct (Rle_lt_dec rate 0) as [H|H]; [exact H|].
      rewrite E, (Hgt H) in Hs. discriminate.
    + intros H. rewrite E. now apply Hle.
  - intros H. rewrite E. now apply Hgt.
  - intros -> -> ->. rewrite E.
    assert (Hr : 0 < rate) by (unfold rate; lra).
    rewrite (Hgt Hr). unfold rate. f_equal; f_equal; field.
  - intros -> ->. rewrite E. apply Hle. unfold rate. lra.
Qed.

End Rule.

Lemma doubling_ann_large : 300 < doubling_ann.
Proof.
  unfold doubling_ann.
  assert (H : Rpower (8 / 2) 1 < Rpower (8 / 2) (1 / (IZR (19727 - 19725) / 365.25))).
  { apply Rpower_lt; [lra|].
    replace (19727 - 19725)%Z with 2%Z by reflexivity. lra. }
  rewrite Rpower_1 in H by lra. lra.
Defined.

Lemma retirement_estimate_rule_witness :
  exists table m,
    calculate_retirement (fun _ => table_of doubling) (fun _ => None)
      demo_float demo_entries
    = Shown (Fin (doubling_ann / 100 - 2 / 100))
            (Fin (40000 / (doubling_ann / 100 - 2 / 100))) table m.
Proof.
  destruct (@compute_metrics_price_series 19724%Z 1 (19725%Z, 2)
              [(19726%Z, 4); (19727%Z, 8)]
              doubling_positive doubling_increasing ltac:(discriminate))
    as [Hd E].
  cbn [last fst snd] in Hd, E.
  match type of E with
  | _ = Ok (?rows, ?m) =>
      destruct (@retirement_estimate_rule
                  (fun _ => table_of doubling) (fun _ => None) demo_float
                  demo_entries 40000 2 doubling_ann rows m
                  eq_refl eq_refl eq_refl) as (_ & H & _)
  end.
  - unfold fetch_price_and_metrics.
    change (or_none (PyStr.strip (entry_ret_start demo_entries)))
      with (@None string).
    change (or_none (PyStr.strip (entry_ret_end demo_entries)))
      with (@None string).
    rewrite (@load_prices_table_of (fun _ => None) _ doubling)
      by discriminate.
    cbn [bind]. exact E.
  - cbn [summary_of m_ann].
    rewrite cagr_of_positive by (lra || lia). reflexivity.
  - eexists. eexists. apply H.
    pose proof doubling_ann_large. lra.
Defined.

(** *** The per-year table *)

Lemma insert_key_in (k x : Z) (l : list Z) :
  In x (insert_key k l) <-> x = k \/ In x l.
Proof.
  induction l as [|y l IH]; cbn.
  - intuition auto.
  - destruct (Z.ltb_spec k y).
    + cbn. intuition auto.
    + destruct (Z.eqb_spec k y) as [->|Hne].
      * cbn. intuition auto.
      * cbn. rewrite IH. intuition auto.
Qed.

Lemma insert_key_sorted (k : Z) (l : list Z) :
  StronglySorted Z.lt l -> StronglySorted Z.lt (insert_key k l).
Proof.
  induction 1 as [|y l Hs IH Hall]; cbn.
  - repeat constructor.
  - destruct (Z.ltb_spec k y).
    + constructor; [now constructor|].
      constructor; [assumption|].
      eapply Forall_impl; [|exact Hall]. cbn. intros a Ha. lia.
    + destruct (Z.eqb_spec k y) as [->|Hne]; [now constructor|].
      constructor; [exact IH|].
      rewrite Forall_forall in Hall |- *.
      intros x Hx. apply insert_key_in in Hx.
      destruct Hx as [->|Hx]; [lia|now apply Hall].
Qed.

(** The keys of a [groupby] are exactly the values present, each once,
    in ascending order. *)
Lemma group_keys_in (x : Z) (l : list Z) : In x (group_keys l) <-> In x l.
Proof.
  unfold group_keys. induction l as [|y l IH]; cbn; [tauto|].
  rewrite insert_key_in, IH. intuition auto.
Qed.

Lemma group_keys_sorted (l : list Z) : StronglySorted Z.lt (group_keys l).
Proof.
  unfold group_keys. induction l as [|y l IH]; cbn; [constructor|].
  now apply insert_key_sorted.
Qed.

(** The table has one row per calendar year of the frame, in ascending
    order of the year. *)
Lemma summary_years (df : list row) :
  map yr_year (summary df) = group_keys (map year df).
Proof.
  unfold summary. rewrite map_map. cbn [summarise_year yr_year].
  apply map_id.
Qed.

Lemma summary_years_ascending (df : list row) :
  StronglySorted Z.lt (map yr_year (summary df)).
Proof. rewrite summary_years. apply group_keys_sorted. Qed.

Lemma summary_years_present (df : list row) (y : Z) :
  In y (map yr_year (summary df)) <-> exists r, In r df /\ year r = y.
Proof.
  rewrite summary_years, group_keys_in, in_map_iff.
  split; intros (r & H1 & H2); exists r; auto.
Qed.

Lemma peak_positive : positive peak.
Proof. unfold positive, peak. repeat constructor; cbn; lra. Qed.

Lemma peak_increasing : increasing peak.
Proof. unfold increasing, peak. cbn. repeat constructor; reflexivity. Qed.

(** C5, at a year whose cumulative return peaks before its last trading
    date.  The row of 2024 carries the year, the last date, the adjusted
    close on it and the year's return as stated, but its cumulative-return
    field is the largest cumulative return reached during the year (21),
    not the cumulative return as of the last date (10). *)
Theorem year_table_reports_peak_cumulative_return :
  exists rows m y,
    fetch_price_and_metrics (fun _ => table_of peak) (fun _ => None)
      "PEAK" None None = Ok (rows, m) /\
    map Date rows = [19725%Z; 19726%Z; 19727%Z] /\
    map CumReturn rows
    = [Fin (110 / 100 - 1); Fin (121 / 100 - 1); Fin (110 / 100 - 1)] /\
    summary rows = [y] /\
    yr_year y = 2024%Z /\
    yr_end_date y = 19727%Z /\
    yr_end_price y = Fin 110 /\
    yr_annual_return y = Fin ((110 / 110 - 1) * 100) /\
    yr_cum_return y = Fin 21 /\
    Fin ((110 / 100 - 1) * 100) = Fin 10 /\
    yr_cum_return y <> Fin 10.
Proof.
  destruct (@compute_metrics_price_series 19724%Z 100 (19725%Z, 110)
              [(19726%Z, 121); (19727%Z, 110)]
              peak_positive peak_increasing ltac:(discriminate))
    as [_ E].
  assert (Emax : Rmax (110 / 100 - 1) (Rmax (121 / 100 - 1) (110 / 100 - 1))
                 * 100 = 21).
  { unfold Rmax.
    destruct (Rle_dec (121 / 100 - 1) (110 / 100 - 1)); [lra|].
    destruct (Rle_dec (110 / 100 - 1) (121 / 100 - 1)); lra. }
  eexists. eexists. eexists. split.
  - unfold fetch_price_and_metrics.
    rewrite (@load_prices_table_of (fun _ => None) "PEAK"%string peak)
      by discriminate.
    cbn [bind]. exact E.
  - split; [reflexivity|]. split; [reflexivity|].
    split; [cbn -[Rdiv Rminus Rmin Rmax IZR]; reflexivity|].
    split; [reflexivity|]. split; [reflexivity|]. split; [reflexivity|].
    split.
    { cbn -[Rdiv Rminus Rmin Rmax IZR].
      destruct (Req_dec_T 110 0); [lra|reflexivity]. }
    assert (Ec : yr_cum_return
                   (summarise_year 2024
                      (build_rows
                         (kept_rows 100
                            [(19725%Z, 110); (19726%Z, 121); (19727%Z, 110)])
                         (map (fun x : Z * R => Fin (snd x / 100 - 1))
                            [(19725%Z, 110); (19726%Z, 121); (19727%Z, 110)])
                         (map clip_upper0
                            (map Fin
                               (returns_from 100
                                  (map snd
                                     [(19725%Z, 110); (19726%Z, 121);
                                      (19727%Z, 110)]))))))
                 = Fin 21).
    { cbn -[Rdiv Rminus Rmin Rmax IZR]. f_equal. exact Emax. }
    split; [exact Ec|]. split; [f_equal; lra|].
    intros H. pose proof (eq_trans (eq_sym Ec) H) as H'.
    injection H' as H'. lra.
Qed.

End RetirementProps.

(** * Further properties *)

(** ** Of [fetch_price_and_metrics] *)

Module FetchMore.

Import Float Py Pandas Metrics Statements Examples.
Import MoreStatements MoreExamples.
Import SeriesProps LoadProps MetricsProps FetchProps.
Local Open Scope R_scope.

(** Whatever [compute_metrics] returns comes from two or more retained
    rows on distinct first and last days. *)
Lemma compute_metrics_ok_inv (df : list (Z * flt)) rows m :
  compute_metrics df = Ok (rows, m) ->
  exists k1 k2 ks c_last,
    with_returns df = k1 :: k2 :: ks /\
    iloc_last (cum_returns (map snd (with_returns df))) = Ok c_last /\
    fst (fst (last (k2 :: ks) k1)) <> fst (fst k1) /\
    rows = build_rows (with_returns df)
             (cum_returns (map snd (with_returns df)))
             (map clip_upper0 (map snd (with_returns df))) /\
    m = summary_of (fst (fst k1)) (fst (fst (last (k2 :: ks) k1)))
          (snd (fst k1)) (snd (fst (last (k2 :: ks) k1))) c_last
          (map snd (with_returns df)).
Proof.
  unfold compute_metrics.
  destruct (with_returns df) as [|k1 [|k2 ks]] eqn:Ek; [discriminate| |].
  - cbn [map iloc_first iloc_last bind]. unfold py_div.
    destruct (Req_dec_T (IZR (fst (fst k1) - fst (fst k1)) / 365.25) 0)
      as [_|Hn]; [discriminate|].
    exfalso. apply Hn. now apply years_zero.
  - rewrite (iloc_last_map_cons (fun x : Z * flt * flt => fst (fst x))).
    rewrite (iloc_last_map_cons (fun x : Z * flt * flt => snd (fst x))).
    cbn [map iloc_first bind]. unfold py_div.
    destruct (Req_dec_T
                (IZR (fst (fst (last (k2 :: ks) k1)) - fst (fst k1)) / 365.25)
                0) as [|Hn]; [discriminate|].
    cbn [bind].
    destruct (iloc_last (cum_returns (snd k1 :: snd k2 :: map snd ks)))
      as [cl|] eqn:Ec; [|discriminate].
    cbn [bind]. intros H. injection H as <- <-.
    exists k1, k2, ks, cl. repeat split.
    intros E. apply Hn. apply years_zero. exact E.
Qed.

(** *** Date arguments *)

(** With usable data, a start date that is given and does not parse is
    reported as such whatever the end date is, and so is an end date that
    does not parse when no start date is given. *)
Theorem invalid_date_reported
    (yf_download : string -> DataFrame) (to_datetime : string -> option Z)
    (ticker : string) (start_date end_date : option string) :
  df_empty (yf_download ticker) = false ->
  has_column "Adj Close" (yf_download ticker) = true ->
  (bound to_datetime start_date = None ->
   fetch_price_and_metrics yf_download to_datetime ticker start_date end_date
   = Raise (InvalidDateFormat false)) /\
  (given start_date = None ->
   bound to_datetime end_date = None ->
   fetch_price_and_metrics yf_download to_datetime ticker start_date end_date
   = Raise (InvalidDateFormat true)).
Proof.
  intros He Hc. unfold fetch_price_and_metrics, load_prices, bound.
  rewrite flatten_empty, flatten_has_column, He, Hc. cbn [orb negb].
  split.
  - destruct (given start_date) as [s|]; [|discriminate].
    destruct (to_datetime s); [discriminate|]. reflexivity.
  - intros Hs Hend. rewrite Hs.
    destruct (given end_date) as [e|]; [|discriminate].
    destruct (to_datetime e); [discriminate|]. reflexivity.
Qed.

Lemma invalid_date_reported_witness :
  fetch_price_and_metrics (fun _ => table_of three_days) parse_jan3 "AAPL"
    (Some "not a date"%string) (Some "2024-01-03"%string)
  = Raise (InvalidDateFormat false) /\
  fetch_price_and_metrics (fun _ => table_of three_days) parse_jan3 "AAPL"
    (Some EmptyString) (Some "2024-13-45"%string)
  = Raise (InvalidDateFormat true).
Proof.
  split.
  - apply (proj1 (@invalid_date_reported (fun _ => table_of three_days)
                    parse_jan3 "AAPL" (Some "not a date"%string)
                    (Some "2024-01-03"%string) eq_refl eq_refl)).
    reflexivity.
  - apply (proj2 (@invalid_date_reported (fun _ => table_of three_days)
                    parse_jan3 "AAPL" (Some EmptyString)
                    (Some "2024-13-45"%string) eq_refl eq_refl)).
    + reflexivity.
    + reflexivity.
Defined.

Lemma load_prices_ok_inv
    (yf_download : string -> DataFrame) (to_datetime : string -> option Z)
    ticker start_date end_date lo hi df :
  bound to_datetime start_date = Some lo ->
  bound to_datetime end_date = Some hi ->
  load_prices yf_download to_datetime ticker start_date end_date = Ok df ->
  df <> [] /\
  df = filter (not_after hi)
         (filter (not_before lo) (reset_index (yf_download ticker))).
Proof.
  intros Hlo Hhi Hload.
  destruct (df_empty (yf_download ticker)) eqn:He.
  { unfold load_prices in Hload.
    rewrite flatten_empty, He in Hload. discriminate. }
  destruct (has_column "Adj Close" (yf_download ticker)) eqn:Hc.
  2:{ unfold load_prices in Hload.
      rewrite flatten_empty, flatten_has_column, He, Hc in Hload.
      discriminate. }
  rewrite (load_prices_filtered _ _ _ _ _ He Hc Hlo Hhi) in Hload.
  cbv zeta in Hload.
  destruct (filter (not_after hi)
              (filter (not_before lo) (reset_index (yf_download ticker))))
    as [|b l]; [discriminate|].
  injection Hload as <-. split; [discriminate|reflexivity].
Qed.

Lemma filtered_within lo hi (l : list (Z * flt)) b :
  In b (filter (not_after hi) (filter (not_before lo) l)) ->
  within lo hi (fst b) /\ In b l.
Proof.
  intros H. apply filter_In in H. destruct H as [H Hhi].
  apply filter_In in H. destruct H as [H Hlo].
  split; [|exact H]. unfold within, not_before, not_after in *. split.
  - destruct lo; [now apply Z.leb_le|exact I].
  - destruct hi; [now apply Z.leb_le|exact I].
Qed.

Lemma with_returns_in (df : list (Z * flt)) k :
  In k (with_returns df) -> In (fst k) df.
Proof.
  unfold with_returns. intros H. apply filter_In in H. destruct H as [H _].
  destruct k as [b r]. now apply in_combine_l in H.
Qed.

(** Every row of a returned frame, and with it the start and the end of
    the summary, lies between the date bounds and is a trading day of the
    provider table. *)
Theorem returned_rows_within_bounds
    (yf_download : string -> DataFrame) (to_datetime : string -> option Z)
    (ticker : string) (start_date end_date : option string)
    (lo hi : option Z) (rows : list row) (m : metrics) :
  bound to_datetime start_date = Some lo ->
  bound to_datetime end_date = Some hi ->
  fetch_price_and_metrics yf_download to_datetime ticker start_date end_date
  = Ok (rows, m) ->
  Forall (fun r => within lo hi (Date r) /\
                   In (Date r) (df_index (yf_download ticker))) rows /\
  within lo hi (m_start m) /\
  within lo hi (m_end m).
Proof.
  intros Hlo Hhi Hfetch. unfold fetch_price_and_metrics in Hfetch.
  destruct (load_prices yf_download to_datetime ticker start_date end_date)
    as [df|] eqn:Hload; [|discriminate].
  cbn [bind] in Hfetch.
  destruct (load_prices_ok_inv _ _ _ _ _ Hlo Hhi Hload) as [_ Edf].
  assert (Hin : forall k, In k (with_returns df) ->
                          within lo hi (fst (fst k)) /\
                          In (fst (fst k)) (df_index (yf_download ticker))).
  { intros k Hk. apply with_returns_in in Hk. rewrite Edf in Hk.
    apply filtered_within in Hk. destruct Hk as [Hw Hk]. split; [exact Hw|].
    destruct (fst k) as [d p]. unfold reset_index in Hk.
    now apply in_combine_l in Hk. }
  destruct (compute_metrics_inv _ Hfetch) as (_ & _ & Hdates & _).
  destruct (compute_metrics_ok_inv _ Hfetch)
    as (k1 & k2 & ks & cl & Ek & _ & _ & _ & Em).
  split; [|split].
  - rewrite Forall_forall. intros r Hr.
    apply (in_map Date) in Hr. rewrite Hdates in Hr.
    apply in_map_iff in Hr. destruct Hr as (k & <- & Hk). now apply Hin.
  - rewrite Em. cbn [summary_of m_start]. apply Hin. rewrite Ek. now left.
  - rewrite Em. cbn [summary_of m_end]. apply Hin. rewrite Ek. right.
    apply last_in. discriminate.
Qed.

Lemma doubling_tail_frame :
  load_prices (fun _ => table_of doubling) parse_jan3 "DBL"
    (Some "2024-01-03"%string) None = Ok (price_frame doubling_tail) /\
  StronglySorted Z.lt (map fst (price_frame doubling_tail)) /\
  (2 <= length (with_returns (price_frame doubling_tail)))%nat.
Proof.
  split; [reflexivity|]. split.
  - cbn. repeat constructor; reflexivity.
  - unfold doubling_tail.
    rewrite (@with_returns_price_frame 19725%Z 2
               [(19726%Z, 4); (19727%Z, 8)]), kept_rows_length.
    + cbn. lia.
    + repeat constructor; cbn; lra.
Defined.

Lemma returned_rows_within_bounds_witness :
  exists rows m,
    fetch_price_and_metrics (fun _ => table_of doubling) parse_jan3 "DBL"
      (Some "2024-01-03"%string) None = Ok (rows, m) /\
    Forall (fun r => within (Some 19725%Z) None (Date r) /\
                     In (Date r) (df_index (table_of doubling))) rows /\
    within (Some 19725%Z) None (m_start m) /\
    within (Some 19725%Z) None (m_end m).
Proof.
  destruct doubling_tail_frame as (Hload & Hs & Hlen).
  destruct (compute_metrics_two_rows _ Hs Hlen) as (t0 & t1 & pf & pl & cl & E).
  eexists. eexists.
  assert (Hfetch : fetch_price_and_metrics (fun _ => table_of doubling)
                     parse_jan3 "DBL" (Some "2024-01-03"%string) None
                   = Ok (build_rows (with_returns (price_frame doubling_tail))
                           (cum_returns
                              (map snd (with_returns (price_frame doubling_tail))))
                           (map clip_upper0
                              (map snd (with_returns (price_frame doubling_tail)))),
                         summary_of t0 t1 pf pl cl
                           (map snd (with_returns (price_frame doubling_tail))))).
  { unfold fetch_price_and_metrics. rewrite Hload. cbn [bind]. exact E. }
  split; [exact Hfetch|].
  exact (@returned_rows_within_bounds (fun _ => table_of doubling) parse_jan3
           "DBL" (Some "2024-01-03"%string) None (Some 19725%Z) None _ _
           eq_refl eq_refl Hfetch).
Defined.

(** *** How many observations it takes *)

(** For a PriceSeries with increasing dates and no zero price, the
    outcome is decided by the number of observations in range: one raises
    [IndexError], two raise [ZeroDivisionError], and a frame and summary
    are returned exactly when there are three or more. *)
Theorem outcome_by_observation_count
    (yf_download : string -> DataFrame) (to_datetime : string -> option Z)
    (ticker : string) (start_date end_date : option string)
    (ps : list (Z * R)) :
  nonzero ps -> increasing ps ->
  load_prices yf_download to_datetime ticker start_date end_date
  = Ok (price_frame ps) ->
  (length ps = 1%nat ->
   fetch_price_and_metrics yf_download to_datetime ticker start_date end_date
   = Raise IndexError) /\
  (length ps = 2%nat ->
   fetch_price_and_metrics yf_download to_datetime ticker start_date end_date
   = Raise ZeroDivisionError) /\
  ((3 <= length ps)%nat <->
   exists rows m,
     fetch_price_and_metrics yf_download to_datetime ticker
       start_date end_date = Ok (rows, m)).
Proof.
  intros Hnz Hinc Hload. unfold fetch_price_and_metrics. rewrite Hload.
  cbn [bind]. clear Hload.
  destruct ps as [|[d0 p0] [|[d1 p1] [|b2 rest]]].
  - split; [discriminate|]. split; [discriminate|]. split.
    + cbn. lia.
    + intros (rows & m & H). discriminate.
  - split; [reflexivity|]. split; [discriminate|]. split.
    + cbn. lia.
    + intros (rows & m & H). discriminate.
  - assert (E : compute_metrics (price_frame [(d0, p0); (d1, p1)])
                = Raise ZeroDivisionError).
    { apply (@compute_metrics_zero_years _ d1 (Fin p1) (Fin p1));
        rewrite (@with_returns_price_frame d0 p0 [(d1, p1)]
                   (nonzero_prices Hnz));
        reflexivity. }
    split; [discriminate|]. split; [intros _; exact E|]. split.
    + cbn. lia.
    + intros (rows & m & H). rewrite E in H. discriminate.
  - split; [discriminate|]. split; [discriminate|]. split.
    + intros _.
      assert (Hs : StronglySorted Z.lt
                     (map fst (price_frame
                                 ((d0, p0) :: (d1, p1) :: b2 :: rest))))
        by (rewrite price_frame_dates; exact Hinc).
      assert (Hlen : (2 <= length
                             (with_returns
                                (price_frame
                                   ((d0, p0) :: (d1, p1) :: b2 :: rest))))%nat).
      { rewrite (@with_returns_price_frame d0 p0 ((d1, p1) :: b2 :: rest)
                   (nonzero_prices Hnz)), kept_rows_length. cbn. lia. }
      destruct (compute_metrics_two_rows _ Hs Hlen)
        as (t0 & t1 & pf & pl & cl & E).
      rewrite E. eauto.
    + intros _. cbn. lia.
Qed.

Lemma outcome_by_observation_count_witness :
  fetch_price_and_metrics (fun _ => table_of two_point) (fun _ => None)
    "SYN" None None = Raise ZeroDivisionError /\
  exists rows m,
    fetch_price_and_metrics (fun _ => table_of doubling) (fun _ => None)
      "DBL" None None = Ok (rows, m).
Proof.
  split.
  - refine (proj1 (proj2 (@outcome_by_observation_count
                            (fun _ => table_of two_point) (fun _ => None)
                            "SYN" None None two_point _ _ _)) eq_refl).
    + unfold nonzero, two_point. repeat constructor; cbn; lra.
    + unfold increasing, two_point. cbn. repeat constructor; reflexivity.
    + apply load_prices_table_of. discriminate.
  - refine (proj1 (proj2 (proj2 (@outcome_by_observation_count
                                   (fun _ => table_of doubling)
                                   (fun _ => None) "DBL" None None doubling
                                   _ _ _))) _).
    + unfold nonzero, doubling. repeat constructor; cbn; lra.
    + unfold increasing, doubling. cbn. repeat constructor; reflexivity.
    + apply load_prices_table_of. discriminate.
    + cbn. lia.
Defined.

(** *** The returned frame, column by column *)

Lemma build_rows_returns kept cum down :
  length kept = length cum -> length cum = length down ->
  map Return (build_rows kept cum down) = map snd kept.
Proof.
  unfold build_rows. revert cum down.
  induction kept as [|[[d p] r] kept IH]; intros [|c cum] [|dn down] H1 H2;
    try discriminate; [reflexivity|].
  cbn. f_equal. apply IH; [now injection H1 | now injection H2].
Qed.

Lemma build_rows_downside kept cum down :
  length kept = length cum -> length cum = length down ->
  map Downside (build_rows kept cum down) = down.
Proof.
  unfold build_rows. revert cum down.
  induction kept as [|[[d p] r] kept IH]; intros [|c cum] [|dn down] H1 H2;
    try discriminate; [reflexivity|].
  cbn. f_equal. apply IH; [now injection H1 | now injection H2].
Qed.

(** Every frame returned for a PriceSeries (d0, p0), (d1, p1), ... without
    a zero price has one row per observation after the first, carrying its
    date and price, the return [p_i / p_(i-1) - 1], the cumulative return
    [p_i / p0 - 1] and the downside [min(return, 0)]. *)
Theorem returned_frame_columns
    (yf_download : string -> DataFrame) (to_datetime : string -> option Z)
    (ticker : string) (start_date end_date : option string)
    (d0 : Z) (p0 : R) (rest : list (Z * R)) (rows : list row) (m : metrics) :
  nonzero ((d0, p0) :: rest) ->
  load_prices yf_download to_datetime ticker start_date end_date
  = Ok (price_frame ((d0, p0) :: rest)) ->
  fetch_price_and_metrics yf_download to_datetime ticker start_date end_date
  = Ok (rows, m) ->
  map Date rows = map fst rest /\
  map AdjClose rows = map (fun x => Fin (snd x)) rest /\
  map Return rows = map Fin (returns_from p0 (map snd rest)) /\
  map CumReturn rows = map (fun x => Fin (snd x / p0 - 1)) rest /\
  map Downside rows
  = map (fun r => Fin (Rmin r 0)) (returns_from p0 (map snd rest)).
Proof.
  intros Hnz Hload Hfetch. unfold fetch_price_and_metrics in Hfetch.
  rewrite Hload in Hfetch. cbn [bind] in Hfetch.
  destruct (compute_metrics_ok_inv _ Hfetch)
    as (k1 & k2 & ks & cl & _ & _ & _ & Erows & _).
  pose proof (nonzero_prices Hnz) as Hnz'. cbn [map snd] in Hnz'.
  rewrite (@with_returns_price_frame d0 p0 rest Hnz') in Erows.
  rewrite kept_rows_returns, (cum_returns_telescope Hnz'), map_map in Erows.
  assert (L1 : length (kept_rows p0 rest)
               = length (map (fun x : Z * R => Fin (snd x / p0 - 1)) rest))
    by now rewrite kept_rows_length, length_map.
  assert (L2 : length (map (fun x : Z * R => Fin (snd x / p0 - 1)) rest)
               = length (map clip_upper0
                           (map Fin (returns_from p0 (map snd rest)))))
    by now rewrite !length_map, returns_from_length, length_map.
  rewrite Erows. repeat split.
  - rewrite (build_rows_dates _ _ _ L1 L2). apply kept_rows_dates.
  - rewrite (build_rows_prices _ _ _ L1 L2). apply kept_rows_prices.
  - rewrite (build_rows_returns _ _ _ L1 L2). apply kept_rows_returns.
  - apply (build_rows_cum _ _ _ L1 L2).
  - rewrite (build_rows_downside _ _ _ L1 L2), map_map. reflexivity.
Qed.

Lemma fetch_doubling_ok :
  exists rows m,
    fetch_price_and_metrics (fun _ => table_of doubling) (fun _ => None)
      "DBL" None None = Ok (rows, m).
Proof.
  destruct (@compute_metrics_price_series 19724%Z 1 (19725%Z, 2)
              [(19726%Z, 4); (19727%Z, 8)]
              doubling_positive doubling_increasing ltac:(discriminate))
    as [_ E].
  eexists. eexists. unfold fetch_price_and_metrics.
  rewrite (@load_prices_table_of (fun _ => None) "DBL"%string doubling)
    by discriminate.
  cbn [bind]. exact E.
Qed.

Lemma returned_frame_columns_witness :
  exists rows m,
    fetch_price_and_metrics (fun _ => table_of doubling) (fun _ => None)
      "DBL" None None = Ok (rows, m) /\
    map Date rows = [19725%Z; 19726%Z; 19727%Z] /\
    map Return rows = [Fin (2 / 1 - 1); Fin (4 / 2 - 1); Fin (8 / 4 - 1)] /\
    map CumReturn rows = [Fin (2 / 1 - 1); Fin (4 / 1 - 1); Fin (8 / 1 - 1)].
Proof.
  destruct fetch_doubling_ok as (rows & m & Hfetch).
  exists rows, m. split; [exact Hfetch|].
  destruct (@returned_frame_columns (fun _ => table_of doubling)
              (fun _ => None) "DBL" None None 19724%Z 1
              [(19725%Z, 2); (19726%Z, 4); (19727%Z, 8)] rows m)
    as (H1 & _ & H3 & H4 & _).
  - unfold nonzero. repeat constructor; cbn; lra.
  - apply (@load_prices_table_of (fun _ => None) "DBL"%string doubling).
    discriminate.
  - exact Hfetch.
  - split; [exact H1|]. split; [exact H3|exact H4].
Defined.

(** *** The span of the summary *)

Lemma last_map {A B : Type} (f : A -> B) (l : list A) (a : A) :
  last (map f l) (f a) = f (last l a).
Proof.
  induction l as [|x [|y l] IH]; [reflexivity|reflexivity|].
  change (last (map f (x :: y :: l)) (f a)) with (last (map f (y :: l)) (f a)).
  now rewrite IH.
Qed.

(** On a frame in date order, a returned summary starts on the date of
    the first row of the returned frame and ends on the date of its last
    row; there are at least two rows, the start is before the end, and the
    elapsed years are their distance in days over 365.25, a positive
    number. *)
Theorem summary_span
    (yf_download : string -> DataFrame) (to_datetime : string -> option Z)
    (ticker : string) (start_date end_date : option string)
    (df : list (Z * flt)) (rows : list row) (m : metrics) :
  load_prices yf_download to_datetime ticker start_date end_date = Ok df ->
  StronglySorted Z.lt (map fst df) ->
  fetch_price_and_metrics yf_download to_datetime ticker start_date end_date
  = Ok (rows, m) ->
  exists first rest,
    rows = first :: rest /\ rest <> [] /\
    m_start m = Date first /\
    m_end m = Date (last rest first) /\
    (m_start m < m_end m)%Z /\
    m_years m = IZR (m_end m - m_start m) / 365.25 /\
    0 < m_years m.
Proof.
  intros Hload Hs Hfetch. unfold fetch_price_and_metrics in Hfetch.
  rewrite Hload in Hfetch. cbn [bind] in Hfetch.
  destruct (compute_metrics_inv _ Hfetch) as (Hlen & _ & Hdates & _).
  destruct (compute_metrics_ok_inv _ Hfetch)
    as (k1 & k2 & ks & cl & Ek & _ & Hne & _ & Em).
  pose proof (with_returns_sorted df Hs) as Hk.
  rewrite Ek in Hlen, Hdates, Hk.
  destruct rows as [|first [|second rest]]; try discriminate.
  exists first, (second :: rest).
  assert (Ef : Date first = fst (fst k1)) by now injection Hdates.
  assert (El : Date (last (second :: rest) first)
               = fst (fst (last (k2 :: ks) k1))).
  { assert (Et : map Date (second :: rest)
                 = map (fun x : Z * flt * flt => fst (fst x)) (k2 :: ks)).
    { cbn [map] in Hdates |- *. injection Hdates as _ E2 E3.
      now rewrite E2, E3. }
    rewrite <- (last_map Date (second :: rest) first).
    rewrite <- (last_map (fun x : Z * flt * flt => fst (fst x)) (k2 :: ks) k1).
    now rewrite Et, Ef. }
  assert (Hlt : (fst (fst k1) < fst (fst (last (k2 :: ks) k1)))%Z).
  { cbn [map] in Hk. apply StronglySorted_inv in Hk. destruct Hk as [_ Hall].
    rewrite Forall_forall in Hall. apply Hall.
    apply (in_map (fun x : Z * flt * flt => fst (fst x)) (k2 :: ks)).
    apply last_in. discriminate. }
  rewrite Em. cbn [summary_of m_start m_end m_years]. rewrite Ef, El.
  split; [reflexivity|]. split; [discriminate|].
  split; [reflexivity|]. split; [reflexivity|].
  split; [exact Hlt|]. split; [reflexivity|].
  apply Rdiv_lt_0_compat; [|lra].
  apply IZR_lt. lia.
Qed.

Lemma summary_span_witness :
  exists rows m first rest,
    fetch_price_and_metrics (fun _ => table_of doubling) (fun _ => None)
      "DBL" None None = Ok (rows, m) /\
    rows = first :: rest /\
    m_start m = Date first /\
    (m_start m < m_end m)%Z /\
    0 < m_years m.
Proof.
  destruct fetch_doubling_ok as (rows & m & Hfetch).
  destruct (@summary_span (fun _ => table_of doubling) (fun _ => None)
              "DBL" None None (price_frame doubling) rows m)
    as (first & rest & H1 & _ & H3 & _ & H5 & _ & H7).
  - apply load_prices_table_of. discriminate.
  - cbn. repeat constructor; reflexivity.
  - exact Hfetch.
  - exists rows, m, first, rest. repeat split; assumption.
Defined.

(** *** The Sharpe ratio and the displayed figures *)

Lemma fmul_fin_inv (x : flt) (c a : R) :
  c <> 0 -> fmul x (Fin c) = Fin a -> x = Fin (a / c).
Proof.
  intros Hc. destruct x as [r| | |]; cbn.
  - intros H. injection H as <-. f_equal. field. exact Hc.
  - destruct (Rsign c); discriminate.
  - destruct (Rsign c); discriminate.
  - discriminate.
Qed.

(** Whenever the annualised return and a non-zero annualised volatility
    of a returned summary are finite, its Sharpe ratio is their quotient:
    the three displayed figures agree. *)
Theorem sharpe_is_return_over_volatility
    (yf_download : string -> DataFrame) (to_datetime : string -> option Z)
    (ticker : string) (start_date end_date : option string)
    (rows : list row) (m : metrics) (a s : R) :
  fetch_price_and_metrics yf_download to_datetime ticker start_date end_date
  = Ok (rows, m) ->
  m_ann m = Fin a -> m_std m = Fin s -> s <> 0 ->
  m_sharpe m = Fin (a / s).
Proof.
  intros Hfetch Ha Hs Hs0. unfold fetch_price_and_metrics in Hfetch.
  destruct (load_prices yf_download to_datetime ticker start_date end_date)
    as [df|]; [|discriminate].
  cbn [bind] in Hfetch.
  destruct (compute_metrics_ok_inv _ Hfetch)
    as (k1 & k2 & ks & cl & _ & _ & _ & _ & Em).
  rewrite Em in Ha, Hs |- *. cbn [summary_of m_ann m_std m_sharpe] in *.
  apply fmul_fin_inv in Ha; [|lra]. apply fmul_fin_inv in Hs; [|lra].
  rewrite Ha, Hs. unfold risk_free_rate.
  change (fsub (Fin (a / 100)) (Fin 0)) with (Fin (a / 100 - 0)).
  rewrite fdiv_fin.
  - f_equal. field. exact Hs0.
  - intros E. apply Hs0. lra.
Qed.

(** *** Deviations, and the sign of the annualised return *)

Lemma Rsum_squares_nonneg (f : R -> R) (l : list R) :
  0 <= Rsum (map (fun x => f x * f x) l).
Proof.
  unfold Rsum. induction l as [|x l IH]; cbn [map fold_right]; [lra|].
  pose proof (Rle_0_sqr (f x)) as H. unfold Rsqr in H. lra.
Qed.

Lemma Rsum_squares_zero (f : R -> R) (l : list R) :
  Rsum (map (fun x => f x * f x) l) = 0 -> Forall (fun x => f x = 0) l.
Proof.
  induction l as [|x l IH]; intros H; [constructor|].
  pose proof (Rle_0_sqr (f x)) as Hx. unfold Rsqr in Hx.
  pose proof (Rsum_squares_nonneg f l) as Hl.
  unfold Rsum in *. cbn [map fold_right] in H.
  constructor.
  - assert (E : f x * f x = 0) by lra.
    apply Rmult_integral in E. tauto.
  - apply IH. lra.
Qed.

Lemma sample_var_nonneg (l : list R) :
  (2 <= length l)%nat -> 0 <= sample_var l.
Proof.
  intros Hn. unfold sample_var.
  apply Rmult_le_pos; [apply (Rsum_squares_nonneg (fun x => x - mean l))|].
  apply Rlt_le, Rinv_0_lt_compat.
  apply le_INR in Hn. cbn in Hn. lra.
Qed.

Lemma sample_var_zero (l : list R) :
  (2 <= length l)%nat -> sample_var l = 0 -> all_equal l.
Proof.
  intros Hn H. exists (mean l). unfold sample_var in H.
  assert (Hd : INR (length l) - 1 <> 0).
  { apply le_INR in Hn. cbn in Hn. lra. }
  assert (E : Rsum (map (fun x => (x - mean l) * (x - mean l)) l) = 0).
  { unfold Rdiv in H. apply Rmult_integral in H. destruct H as [H|H];
      [exact H|]. exfalso. now apply (Rinv_neq_0_compat _ Hd). }
  apply (Rsum_squares_zero (fun x => x - mean l)) in E.
  eapply Forall_impl; [|exact E]. cbn. intros a Ha. lra.
Qed.

Lemma sqrt_252_pos : 0 < sqrt 252.
Proof. apply sqrt_lt_R0. lra. Qed.

Lemma annualised_std_value (l : list R) :
  (2 <= length l)%nat ->
  annualised_std (map Fin l) = Fin (sqrt (sample_var l) * sqrt 252).
Proof. intros Hn. unfold annualised_std. now rewrite (std_fin _ Hn). Qed.

(** The annualised deviation of two or more finite entries is zero
    exactly when they are all equal. *)
Lemma deviation_zero_iff (l : list R) :
  (2 <= length l)%nat ->
  sqrt (sample_var l) * sqrt 252 = 0 <-> all_equal l.
Proof.
  intros Hn. split.
  - intros H. apply (sample_var_zero Hn).
    pose proof sqrt_252_pos as H252.
    apply Rmult_integral in H. destruct H as [H|H]; [|lra].
    apply sqrt_eq_0; [now apply sample_var_nonneg|exact H].
  - intros (c & Hc). rewrite (sample_var_const Hc), sqrt_0. lra.
Qed.

Section ValidSeries.

Variable yf_download : string -> DataFrame.
Variable to_datetime : string -> option Z.
Variable ticker : string.
Variables start_date end_date : option string.
Variable d0 : Z.
Variable p0 : R.
Variable r1 : Z * R.
Variable rest : list (Z * R).

Hypothesis Hpos : positive ((d0, p0) :: r1 :: rest).
Hypothesis Hinc : increasing ((d0, p0) :: r1 :: rest).
Hypothesis Hne : rest <> [].
Hypothesis Hload :
  load_prices yf_download to_datetime ticker start_date end_date
  = Ok (price_frame ((d0, p0) :: r1 :: rest)).

(** The summary of a PriceSeries of three or more observations. *)
Lemma fetch_price_series :
  fst (last rest r1) <> fst r1 /\
  0 < snd r1 /\ 0 < snd (last rest r1) /\ 0 < p0 /\
  (2 <= length (returns_from p0 (map snd (r1 :: rest))))%nat /\
  exists rows,
    fetch_price_and_metrics yf_download to_datetime ticker
      start_date end_date
    = Ok (rows,
          summary_of (fst r1) (fst (last rest r1)) (Fin (snd r1))
            (Fin (snd (last rest r1))) (Fin (snd (last rest r1) / p0 - 1))
            (map Fin (returns_from p0 (map snd (r1 :: rest))))).
Proof.
  destruct (@compute_metrics_price_series d0 p0 r1 rest Hpos Hinc Hne)
    as [Hd E].
  unfold positive in Hpos. rewrite Forall_forall in Hpos.
  split; [exact Hd|]. split; [apply (Hpos r1); right; now left|].
  split; [apply (Hpos (last rest r1)); right; right; now apply last_in|].
  split; [apply (Hpos (d0, p0)); now left|].
  split.
  { rewrite returns_from_length. cbn [map length].
    destruct rest; [contradiction|]. cbn. lia. }
  eexists. unfold fetch_price_and_metrics. rewrite Hload. cbn [bind].
  exact E.
Qed.

Lemma ln_pos_iff (x : R) : 0 < x -> (0 < ln x <-> 1 < x).
Proof.
  intros Hx. rewrite <- ln_1. split.
  - intros H. apply ln_lt_inv in H; lra.
  - intros H. apply ln_increasing; lra.
Qed.

Lemma ln_neg_iff (x : R) : 0 < x -> (ln x < 0 <-> x < 1).
Proof.
  intros Hx. rewrite <- ln_1. split.
  - intros H. apply ln_lt_inv in H; lra.
  - intros H. apply ln_increasing; lra.
Qed.

Lemma Rpower_gt_1 (x y : R) : 0 < x -> 0 < y -> (1 < Rpower x y <-> 1 < x).
Proof.
  intros Hx Hy. rewrite <- (ln_pos_iff Hx). unfold Rpower. split.
  - intros H. assert (H' : exp 0 < exp (y * ln x)) by (rewrite exp_0; exact H).
    apply exp_lt_inv in H'. nra.
  - intros H. pose proof (exp_increasing 0 (y * ln x)) as Hi.
    rewrite exp_0 in Hi. apply Hi. nra.
Qed.

Lemma Rpower_lt_1 (x y : R) : 0 < x -> 0 < y -> (Rpower x y < 1 <-> x < 1).
Proof.
  intros Hx Hy. rewrite <- (ln_neg_iff Hx). unfold Rpower. split.
  - intros H. assert (H' : exp (y * ln x) < exp 0) by (rewrite exp_0; exact H).
    apply exp_lt_inv in H'. nra.
  - intros H. pose proof (exp_increasing (y * ln x) 0) as Hi.
    rewrite exp_0 in Hi. apply Hi. nra.
Qed.

(** The annualised return follows the price change since the second
    observation, the first row of the returned frame, not since the first:
    it is not negative when the last adjusted close is not below that of
    the second observation, and not positive when it is not above. *)
Theorem annualised_return_sign :
  exists rows m,
    fetch_price_and_metrics yf_download to_datetime ticker
      start_date end_date = Ok (rows, m) /\
    iloc_first (map AdjClose rows) = Ok (Fin (snd r1)) /\
    iloc_last (map AdjClose rows) = Ok (Fin (snd (last rest r1))) /\
    (snd r1 <= snd (last rest r1) -> not_negative (m_ann m)) /\
    (snd (last rest r1) <= snd r1 -> not_positive (m_ann m)).
Proof.
  destruct (@compute_metrics_price_series d0 p0 r1 rest Hpos Hinc Hne)
    as [Hd E].
  destruct fetch_price_series as (_ & Hp1 & Hpn & Hp0 & _ & _).
  eexists. eexists. split.
  { unfold fetch_price_and_metrics. rewrite Hload. cbn [bind]. exact E. }
  assert (L1 : length (kept_rows p0 (r1 :: rest))
               = length (map (fun x : Z * R => Fin (snd x / p0 - 1))
                             (r1 :: rest)))
    by now rewrite kept_rows_length, length_map.
  assert (L2 : length (map (fun x : Z * R => Fin (snd x / p0 - 1))
                           (r1 :: rest))
               = length (map clip_upper0
                           (map Fin (returns_from p0 (map snd (r1 :: rest))))))
    by now rewrite !length_map, returns_from_length, length_map.
  rewrite (build_rows_prices _ _ _ L1 L2), kept_rows_prices.
  split; [reflexivity|].
  split; [apply (iloc_last_map_cons (fun x : Z * R => Fin (snd x)))|].
  cbn [summary_of m_ann]. rewrite (cagr_of_positive Hp1 Hpn Hd).
  assert (Hlt : (fst r1 < fst (last rest r1))%Z).
  { unfold increasing in Hinc. cbn [map fst] in Hinc.
    apply StronglySorted_inv in Hinc. destruct Hinc as [Hs _].
    apply StronglySorted_inv in Hs. destruct Hs as [_ Hall].
    rewrite Forall_forall in Hall. apply Hall.
    apply in_map. now apply last_in. }
  assert (Hy : 0 < 1 / (IZR (fst (last rest r1) - fst r1) / 365.25)).
  { apply Rdiv_lt_0_compat; [lra|].
    apply Rdiv_lt_0_compat; [|lra]. apply IZR_lt. lia. }
  assert (Hq : 0 < snd (last rest r1) / snd r1)
    by now apply Rdiv_lt_0_compat.
  pose proof (Rpower_gt_1 Hq Hy) as Hgt.
  pose proof (Rpower_lt_1 Hq Hy) as Hl1.
  assert (Q1 : 1 < snd (last rest r1) / snd r1 <-> snd r1 < snd (last rest r1)).
  { split; intros H.
    - apply (Rmult_lt_compat_r (snd r1)) in H; [|exact Hp1].
      unfold Rdiv in H. rewrite Rmult_assoc, Rinv_l in H; lra.
    - apply (Rmult_lt_reg_r (snd r1)); [exact Hp1|].
      unfold Rdiv. rewrite Rmult_assoc, Rinv_l; lra. }
  assert (Q2 : snd (last rest r1) / snd r1 < 1 <-> snd (last rest r1) < snd r1).
  { split; intros H.
    - apply (Rmult_lt_compat_r (snd r1)) in H; [|exact Hp1].
      unfold Rdiv in H. rewrite Rmult_assoc, Rinv_l in H; lra.
    - apply (Rmult_lt_reg_r (snd r1)); [exact Hp1|].
      unfold Rdiv. rewrite Rmult_assoc, Rinv_l; lra. }
  cbn [fmul not_negative not_positive]. split; intros H.
  - destruct (Rlt_le_dec
                (Rpower (snd (last rest r1) / snd r1)
                   (1 / (IZR (fst (last rest r1) - fst r1) / 365.25))) 1)
      as [Hc|Hc]; [|lra].
    apply Hl1, Q2 in Hc. lra.
  - destruct (Rlt_le_dec 1
                (Rpower (snd (last rest r1) / snd r1)
                   (1 / (IZR (fst (last rest r1) - fst r1) / 365.25))))
      as [Hc|Hc]; [|lra].
    apply Hgt, Q1 in Hc. lra.
Qed.

End ValidSeries.

Lemma peak_is_positive : positive peak.
Proof. unfold positive, peak. repeat constructor; cbn; lra. Defined.

Lemma peak_is_increasing : increasing peak.
Proof. unfold increasing, peak. cbn. repeat constructor; reflexivity. Defined.

Lemma peak_loaded :
  load_prices (fun _ => table_of peak) (fun _ => None) "PEAK" None None
  = Ok (price_frame peak).
Proof. apply load_prices_table_of. discriminate. Defined.

Lemma peak_returns_differ :
  ~ all_equal (returns_from 100
                 (map snd [(19725%Z, 110); (19726%Z, 121); (19727%Z, 110)])).
Proof.
  intros (c & H). cbn in H.
  inversion H as [|x1 l1 E1 H1]; subst.
  inversion H1 as [|x2 l2 E2 H2]; subst.
  inversion H2 as [|x3 l3 E3 H3]; subst. lra.
Defined.

Lemma peak_downside_differs :
  ~ all_equal (map (fun r => Rmin r 0)
                 (returns_from 100
                    (map snd [(19725%Z, 110); (19726%Z, 121); (19727%Z, 110)]))).
Proof.
  intros (c & H). cbn in H.
  inversion H as [|x1 l1 E1 H1]; subst.
  inversion H1 as [|x2 l2 E2 H2]; subst.
  inversion H2 as [|x3 l3 E3 H3]; subst.
  unfold Rmin in E3.
  destruct (Rle_dec (110 / 100 - 1) 0) as [L|_]; [lra|].
  destruct (Rle_dec (110 / 121 - 1) 0) as [_|L]; lra.
Defined.

Lemma annualised_return_sign_witness :
  exists rows m,
    fetch_price_and_metrics (fun _ => table_of peak) (fun _ => None)
      "PEAK" None None = Ok (rows, m) /\
    iloc_first (map AdjClose rows) = Ok (Fin 110) /\
    iloc_last (map AdjClose rows) = Ok (Fin 110) /\
    not_negative (m_ann m) /\ not_positive (m_ann m).
Proof.
  destruct (@annualised_return_sign
              (fun _ => table_of peak) (fun _ => None) "PEAK" None None
              19724%Z 100 (19725%Z, 110) [(19726%Z, 121); (19727%Z, 110)]
              peak_is_positive peak_is_increasing ltac:(discriminate)
              peak_loaded)
    as (rows & m & Hf & H1 & H2 & Hpos & Hneg).
  exists rows, m. cbn [last snd] in H1, H2, Hpos, Hneg.
  split; [exact Hf|]. split; [exact H1|]. split; [exact H2|].
  split; [apply Hpos; lra|apply Hneg; lra].
Defined.

Lemma sharpe_is_return_over_volatility_witness :
  exists rows m a s,
    fetch_price_and_metrics (fun _ => table_of peak) (fun _ => None)
      "PEAK" None None = Ok (rows, m) /\
    m_ann m = Fin a /\ m_std m = Fin s /\ s <> 0 /\
    m_sharpe m = Fin (a / s).
Proof.
  destruct (@fetch_price_series
              (fun _ => table_of peak) (fun _ => None) "PEAK" None None
              19724%Z 100 (19725%Z, 110) [(19726%Z, 121); (19727%Z, 110)]
              peak_is_positive peak_is_increasing ltac:(discriminate)
              peak_loaded) as (Hd & Hp1 & Hpn & _ & Hlen & rows & E).
  match type of E with
  | _ = Ok (_, ?mm) =>
      assert (Ha : exists a, m_ann mm = Fin a)
        by (eexists; cbn [summary_of m_ann];
            rewrite (cagr_of_positive Hp1 Hpn Hd); reflexivity);
      assert (Hs : exists s, m_std mm = Fin s /\ s <> 0)
  end.
  { eexists. cbn [summary_of m_std]. rewrite (@annualised_std_value _ Hlen).
    split; [reflexivity|].
    intros H0. apply peak_returns_differ.
    apply (@deviation_zero_iff _ Hlen). lra. }
  destruct Ha as (a & Ha). destruct Hs as (s & Hs & Hn).
  eexists. eexists. exists a, s.
  split; [exact E|]. split; [exact Ha|]. split; [exact Hs|].
  split; [exact Hn|].
  exact (@sharpe_is_return_over_volatility
           (fun _ => table_of peak) (fun _ => None) "PEAK" None None
           _ _ _ _ E Ha Hs Hn).
Defined.

End FetchMore.

(** ** Of the per-year table *)

Module TableMore.

Import Float Py Pandas Metrics Retirement Statements Examples.
Import MoreStatements MoreExamples.
Import SeriesProps LoadProps MetricsProps RetirementProps.
Local Open Scope R_scope.

(** The table has exactly one row for each calendar year in which the
    frame has a row, in ascending order of the year, and never more rows
    than the frame. *)
Theorem one_row_per_year (df : list row) :
  StronglySorted Z.lt (map yr_year (summary df)) /\
  (forall y, In y (map yr_year (summary df)) <->
             exists r, In r df /\ year r = y) /\
  (length (summary df) <= length df)%nat.
Proof.
  split; [apply summary_years_ascending|].
  split; [apply summary_years_present|].
  unfold summary. rewrite length_map.
  rewrite <- (length_map year df).
  induction (map year df) as [|y l IH]; [apply Nat.le_refl|].
  cbn [group_keys fold_right length].
  fold (group_keys l).
  assert (H : forall k ks, (length (insert_key k ks) <= S (length ks))%nat).
  { clear. intros k ks. induction ks as [|x ks IH]; cbn; [lia|].
    destruct (k <? x)%Z; [cbn; lia|].
    destruct (k =? x)%Z; cbn; lia. }
  specialize (H y (group_keys l)). lia.
Qed.

(** *** The fields of a row *)

Lemma fold_max_ge (l : list Z) (d : Z) :
  (d <= fold_left Z.max l d)%Z /\
  Forall (fun x => (x <= fold_left Z.max l d)%Z) l /\
  In (fold_left Z.max l d) (d :: l).
Proof.
  revert d. induction l as [|x l IH]; intros d; cbn [fold_left].
  - split; [lia|]. split; [constructor|now left].
  - destruct (IH (Z.max d x)) as (H1 & H2 & H3).
    split; [lia|]. split.
    + constructor; [lia|exact H2].
    + destruct H3 as [H3|H3].
      * rewrite <- H3.
        destruct (Z.max_spec d x) as [[_ E]|[_ E]]; rewrite E.
        -- right. left. reflexivity.
        -- left. reflexivity.
      * right. right. exact H3.
Qed.

Lemma fold_min_le (l : list Z) (d : Z) :
  (fold_left Z.min l d <= d)%Z /\
  Forall (fun x => (fold_left Z.min l d <= x)%Z) l /\
  In (fold_left Z.min l d) (d :: l).
Proof.
  revert d. induction l as [|x l IH]; intros d; cbn [fold_left].
  - split; [lia|]. split; [constructor|now left].
  - destruct (IH (Z.min d x)) as (H1 & H2 & H3).
    split; [lia|]. split.
    + constructor; [lia|exact H2].
    + destruct H3 as [H3|H3].
      * rewrite <- H3.
        destruct (Z.min_spec d x) as [[_ E]|[_ E]]; rewrite E.
        -- left. reflexivity.
        -- right. left. reflexivity.
      * right. right. exact H3.
Qed.

Lemma date_max_spec (g : list row) :
  g <> [] ->
  In (date_max g) (map Date g) /\
  forall r, In r g -> (Date r <= date_max g)%Z.
Proof.
  intros Hne. unfold date_max. destruct g as [|r0 g]; [contradiction|].
  cbn [map]. destruct (fold_max_ge (map Date g) (Date r0)) as (H1 & H2 & H3).
  split; [exact H3|]. intros r [<-|Hr]; [exact H1|].
  rewrite Forall_forall in H2. apply H2. now apply in_map.
Qed.

Lemma date_min_spec (g : list row) :
  g <> [] ->
  In (date_min g) (map Date g) /\
  forall r, In r g -> (date_min g <= Date r)%Z.
Proof.
  intros Hne. unfold date_min. destruct g as [|r0 g]; [contradiction|].
  cbn [map]. destruct (fold_min_le (map Date g) (Date r0)) as (H1 & H2 & H3).
  split; [exact H3|]. intros r [<-|Hr]; [exact H1|].
  rewrite Forall_forall in H2. apply H2. now apply in_map.
Qed.

Lemma adj_close_on_spec (d : Z) (g : list row) :
  In d (map Date g) ->
  exists r, In r g /\ Date r = d /\ adj_close_on d g = AdjClose r.
Proof.
  intros Hin. unfold adj_close_on.
  destruct (find (fun r => (Date r =? d)%Z) g) as [r|] eqn:E.
  - apply find_some in E. destruct E as [Hr Hd].
    exists r. split; [exact Hr|]. split; [now apply Z.eqb_eq|reflexivity].
  - exfalso. apply in_map_iff in Hin. destruct Hin as (r & Hd & Hr).
    pose proof (find_none _ _ E r Hr) as Hn. cbn in Hn.
    rewrite Hd, Z.eqb_refl in Hn. discriminate.
Qed.

Lemma group_in (y : Z) (df : list row) (r : row) :
  In r (group y df) <-> In r df /\ year r = y.
Proof.
  unfold group. rewrite filter_In. now rewrite Z.eqb_eq.
Qed.

(** Each row of the table describes its year: there are a row of the
    frame on the year's latest date and one on its earliest date; the end
    date and end price are the date and adjusted close of the former, and
    the annual return is the former's adjusted close over the latter's,
    minus one, in percent. *)
Theorem year_row_fields (df : list row) (yr : year_row) :
  In yr (summary df) ->
  exists r_first r_last,
    In r_first df /\ year r_first = yr_year yr /\
    In r_last df /\ year r_last = yr_year yr /\
    (forall r, In r df -> year r = yr_year yr ->
               (Date r_first <= Date r <= Date r_last)%Z) /\
    yr_end_date yr = Date r_last /\
    yr_end_price yr = AdjClose r_last /\
    yr_annual_return yr
    = fmul (fsub (fdiv (AdjClose r_last) (AdjClose r_first)) (Fin 1))
           (Fin 100).
Proof.
  intros Hin. unfold summary in Hin. apply in_map_iff in Hin.
  destruct Hin as (y & <- & Hy).
  apply (proj1 (group_keys_in _ _)) in Hy.
  apply in_map_iff in Hy. destruct Hy as (r0 & Hr0y & Hr0).
  assert (Hne : group y df <> []).
  { intros E. assert (H : In r0 (group y df)) by now apply group_in.
    rewrite E in H. destruct H. }
  destruct (date_max_spec Hne) as [Hmax_in Hmax].
  destruct (date_min_spec Hne) as [Hmin_in Hmin].
  destruct (adj_close_on_spec _ _ Hmax_in) as (rl & Hrl & Hdl & Hpl).
  destruct (adj_close_on_spec _ _ Hmin_in) as (rf & Hrf & Hdf & Hpf).
  apply group_in in Hrl. apply group_in in Hrf.
  exists rf, rl. cbn [summarise_year yr_year yr_end_date yr_end_price
                      yr_annual_return].
  rewrite Hpl, Hpf, Hdl, Hdf.
  repeat split; try tauto.
  - apply Hmin. now apply group_in.
  - apply Hmax. now apply group_in.
Qed.

Lemma two_year_summary :
  summary two_year_frame
  = [summarise_year 2023 (group 2023 two_year_frame);
     summarise_year 2024 (group 2024 two_year_frame)].
Proof. reflexivity. Qed.

Lemma year_row_fields_witness :
  exists yr r_first r_last,
    In yr (summary two_year_frame) /\
    yr_year yr = 2023%Z /\
    In r_first two_year_frame /\ In r_last two_year_frame /\
    yr_end_date yr = Date r_last /\
    yr_end_price yr = AdjClose r_last /\
    yr_annual_return yr
    = fmul (fsub (fdiv (AdjClose r_last) (AdjClose r_first)) (Fin 1))
           (Fin 100).
Proof.
  assert (Hin : In (summarise_year 2023 (group 2023 two_year_frame))
                   (summary two_year_frame))
    by (rewrite two_year_summary; now left).
  destruct (year_row_fields _ _ Hin)
    as (rf & rl & H1 & _ & H3 & _ & _ & H6 & H7 & H8).
  exists (summarise_year 2023 (group 2023 two_year_frame)), rf, rl.
  repeat split; assumption.
Defined.

(** *** The cumulative-return field *)

Lemma smax_finite (g : list row) :
  g <> [] ->
  (forall r, In r g -> exists c, CumReturn r = Fin c) ->
  exists M,
    smax (map CumReturn g) = Fin M /\
    (exists r, In r g /\ CumReturn r = Fin M) /\
    (forall r c, In r g -> CumReturn r = Fin c -> c <= M).
Proof.
  induction g as [|r0 g IH]; intros Hne Hfin; [contradiction|].
  destruct (Hfin r0 (or_introl eq_refl)) as (c0 & Hc0).
  destruct g as [|r1 g].
  - exists c0. cbn. rewrite Hc0. split; [reflexivity|]. split.
    + exists r0. split; [now left|exact Hc0].
    + intros r c [<-|[]] Hc. rewrite Hc0 in Hc. injection Hc as <-. lra.
  - destruct IH as (M & HM & (rM & HrM & HcM) & Hub); [discriminate| |].
    { intros r Hr. apply Hfin. now right. }
    exists (Rmax c0 M).
    change (smax (map CumReturn (r0 :: r1 :: g)))
      with (fmax2 (CumReturn r0) (smax (map CumReturn (r1 :: g)))).
    rewrite HM, Hc0. split; [reflexivity|]. split.
    + unfold Rmax. destruct (Rle_dec c0 M).
      * exists rM. split; [now right|exact HcM].
      * exists r0. split; [now left|exact Hc0].
    + intros r c [<-|Hr] Hc.
      * rewrite Hc0 in Hc. injection Hc as <-. apply Rmax_l.
      * apply Rle_trans with M; [now apply (Hub r)|apply Rmax_r].
Qed.

(** When the cumulative returns of a year's rows are finite, the
    cumulative-return field of that year's row is 100 times the largest of
    them; it is the cumulative return of a given row of the year, the one
    on the last date for instance, exactly when no row of the year has a
    larger one. *)
Theorem year_cum_return_is_peak (df : list row) (yr : year_row) :
  In yr (summary df) ->
  (forall r, In r df -> year r = yr_year yr -> exists c, CumReturn r = Fin c) ->
  exists M,
    yr_cum_return yr = Fin (M * 100) /\
    (exists r, In r df /\ year r = yr_year yr /\ CumReturn r = Fin M) /\
    (forall r c, In r df -> year r = yr_year yr -> CumReturn r = Fin c ->
                 c <= M) /\
    (forall r c, In r df -> year r = yr_year yr -> CumReturn r = Fin c ->
                 (yr_cum_return yr = Fin (c * 100) <-> c = M)).
Proof.
  intros Hin Hfin. unfold summary in Hin. apply in_map_iff in Hin.
  destruct Hin as (y & <- & Hy).
  apply (proj1 (group_keys_in _ _)) in Hy.
  apply in_map_iff in Hy. destruct Hy as (r0 & Hr0y & Hr0).
  cbn [summarise_year yr_year yr_cum_return] in *.
  assert (Hne : group y df <> []).
  { intros E. assert (H : In r0 (group y df)) by now apply group_in.
    rewrite E in H. destruct H. }
  destruct (@smax_finite (group y df) Hne) as (M & HM & (rM & HrM & HcM) & Hub).
  { intros r Hr. apply group_in in Hr. now apply Hfin. }
  exists M. rewrite HM. split; [reflexivity|]. split; [|split].
  - exists rM. apply group_in in HrM. tauto.
  - intros r c Hr Hy Hc. apply (Hub r); [now apply group_in|exact Hc].
  - intros r c Hr Hy Hc. cbn [fmul]. split.
    + intros H. injection H as H. lra.
    + intros ->. reflexivity.
Qed.

Lemma year_cum_return_is_peak_witness :
  exists yr,
    In yr (summary two_year_frame) /\
    yr_year yr = 2023%Z /\
    yr_cum_return yr = Fin (1 / 10 * 100) /\
    yr_cum_return yr <> Fin (-1 / 100 * 100).
Proof.
  assert (Hin : In (summarise_year 2023 (group 2023 two_year_frame))
                   (summary two_year_frame))
    by (rewrite two_year_summary; now left).
  exists (summarise_year 2023 (group 2023 two_year_frame)).
  split; [exact Hin|]. split; [reflexivity|].
  destruct (@year_cum_return_is_peak two_year_frame _ Hin)
    as (M & HM & _ & Hub & Hiff).
  - intros r Hr _. unfold two_year_frame in Hr.
    repeat (destruct Hr as [<-|Hr]; [eexists; reflexivity|]). destruct Hr.
  - assert (H1 : 1 / 10 <= M).
    { apply (Hub (mkRow 19721%Z (Fin 110) (Fin (1 / 10)) (Fin (1 / 10)) (Fin 0)));
        [now left|reflexivity|reflexivity]. }
    assert (E : M = 1 / 10).
    { assert (HM' : yr_cum_return
                      (summarise_year 2023 (group 2023 two_year_frame))
                    = Fin (Rmax (1 / 10) (-1 / 100) * 100)) by reflexivity.
      rewrite HM in HM'. injection HM' as HM'.
      unfold Rmax in HM'. destruct (Rle_dec (1 / 10) (-1 / 100)); lra. }
    rewrite HM, E. split; [reflexivity|].
    intros H. injection H as H. lra.
Defined.

End TableMore.

(** ** Of the retirement estimate and the stock query *)

Module FormsMore.

Import Float Py Pandas Metrics Retirement Statements Examples.
Import MoreStatements MoreExamples.
Import SeriesProps LoadProps MetricsProps FetchProps RetirementProps.
Local Open Scope R_scope.

Section Forms.

Variable yf_download : string -> DataFrame.
Variable to_datetime : string -> option Z.
Variable py_float : string -> option flt.

(** After the three input checks and a successful fetch,
    [calculate_retirement] is [estimate]. *)
Lemma calculate_retirement_fetched (e : entries) (expense infl_pct : flt)
    (df : list row) (m : metrics) :
  py_float (entry_expense e) = Some expense ->
  py_float (entry_infl e) = Some infl_pct ->
  PyStr.truthy (PyStr.strip (entry_tic_ret e)) = true ->
  fetch_price_and_metrics yf_download to_datetime
    (Ticker.format_ticker (PyStr.strip (entry_tic_ret e)) (combo_market_ret e))
    (or_none (PyStr.strip (entry_ret_start e)))
    (or_none (PyStr.strip (entry_ret_end e))) = Ok (df, m) ->
  calculate_retirement yf_download to_datetime py_float e
  = estimate expense (fdiv infl_pct (Fin 100)) df m.
Proof.
  intros Hx Hi Ht Hf. unfold calculate_retirement.
  rewrite Hx, Hi, Ht, Hf. reflexivity.
Qed.

(** A result panel of [calculate_retirement] with a finite rate for a
    finite expense: the rate is positive, it is the fetched annualised
    return over 100 minus the inflation entry over 100, the required
    capital is the expense over the rate, and the table is the per-year
    table of the fetched frame. *)
Theorem shown_capital_covers_expense (e : entries) (x r : R)
    (need : flt) (table : list year_row) (m : metrics) :
  py_float (entry_expense e) = Some (Fin x) ->
  calculate_retirement yf_download to_datetime py_float e
  = Shown (Fin r) need table m ->
  0 < r /\
  need = Fin (x / r) /\
  exists df infl_pct,
    py_float (entry_infl e) = Some infl_pct /\
    fetch_price_and_metrics yf_download to_datetime
      (Ticker.format_ticker (PyStr.strip (entry_tic_ret e))
         (combo_market_ret e))
      (or_none (PyStr.strip (entry_ret_start e)))
      (or_none (PyStr.strip (entry_ret_end e))) = Ok (df, m) /\
    table = summary df /\
    Fin r = fsub (fdiv (m_ann m) (Fin 100)) (fdiv infl_pct (Fin 100)).
Proof.
  intros Hx H. unfold calculate_retirement in H. rewrite Hx in H.
  destruct (py_float (entry_infl e)) as [infl_pct|]; [|discriminate].
  destruct (negb (PyStr.truthy (PyStr.strip (entry_tic_ret e))));
    [discriminate|].
  destruct (fetch_price_and_metrics yf_download to_datetime
              (Ticker.format_ticker (PyStr.strip (entry_tic_ret e))
                 (combo_market_ret e))
              (or_none (PyStr.strip (entry_ret_start e)))
              (or_none (PyStr.strip (entry_ret_end e))))
    as [[df m']|]; [|discriminate].
  unfold estimate in H.
  destruct (fsub (fdiv (m_ann m') (Fin 100)) (fdiv infl_pct (Fin 100)))
    as [rw| | |] eqn:Erw; cbn [fle0] in H; try discriminate.
  destruct (Rle_dec rw 0) as [|Hpos]; [discriminate|].
  injection H as -> <- <- <-.
  assert (Hr : 0 < r) by lra.
  split; [exact Hr|]. split; [apply fdiv_fin; lra|].
  exists df, infl_pct. repeat split. now rewrite Erw.
Qed.

(** The guard [real_withdraw <= 0] does not catch NaN: when the inflation
    entry reads as NaN and the metrics are fetched, the result panel is
    shown with a NaN rate and a NaN capital. *)
Theorem nan_inflation_passes_guard (e : entries) (expense : flt)
    (df : list row) (m : metrics) :
  py_float (entry_expense e) = Some expense ->
  py_float (entry_infl e) = Some NaN ->
  PyStr.truthy (PyStr.strip (entry_tic_ret e)) = true ->
  fetch_price_and_metrics yf_download to_datetime
    (Ticker.format_ticker (PyStr.strip (entry_tic_ret e)) (combo_market_ret e))
    (or_none (PyStr.strip (entry_ret_start e)))
    (or_none (PyStr.strip (entry_ret_end e))) = Ok (df, m) ->
  calculate_retirement yf_download to_datetime py_float e
  = Shown NaN NaN (summary df) m.
Proof.
  intros Hx Hi Ht Hf. unfold calculate_retirement, estimate.
  rewrite Hx, Hi, Ht, Hf. cbn [negb fdiv].
  replace (fsub (fdiv (m_ann m) (Fin 100)) NaN) with NaN
    by (destruct (fdiv (m_ann m) (Fin 100)); reflexivity).
  cbn [fle0]. destruct expense; reflexivity.
Qed.

(** Raising the assumed inflation, while it stays below the annualised
    return, never lowers the required capital of a non-negative expense. *)
Theorem capital_grows_with_inflation (x ann i1 i2 : R)
    (df : list row) (m : metrics) :
  m_ann m = Fin ann ->
  0 <= x -> i1 <= i2 -> i2 < ann / 100 ->
  exists r1 r2 c1 c2,
    estimate (Fin x) (Fin i1) df m = Shown (Fin r1) (Fin c1) (summary df) m /\
    estimate (Fin x) (Fin i2) df m = Shown (Fin r2) (Fin c2) (summary df) m /\
    r2 <= r1 /\ c1 <= c2.
Proof.
  intros Hm Hx Hi Hlt.
  destruct (@estimate_finite x ann i1 df m Hm) as [_ H1].
  destruct (@estimate_finite x ann i2 df m Hm) as [_ H2].
  exists (ann / 100 - i1), (ann / 100 - i2),
         (x / (ann / 100 - i1)), (x / (ann / 100 - i2)).
  split; [apply H1; lra|]. split; [apply H2; lra|]. split; [lra|].
  unfold Rdiv at 1 3. apply Rmult_le_compat_l; [exact Hx|].
  apply Rinv_le_contravar; lra.
Qed.

(** [show_stock] draws what it prints: when it shows a chart, the chart
    has one point per row of the fetched frame, it begins on the start
    date and ends on the end date of the summary, and its last value is
    the cumulative return of the summary. *)
Theorem chart_matches_summary (e : StockQuery.stock_entries)
    (ticker : string) (xs : list Z) (ys : list flt) (m : metrics) :
  StockQuery.show_stock yf_download to_datetime e
  = StockQuery.StockShown ticker xs ys m ->
  ticker = Ticker.format_ticker (PyStr.strip (StockQuery.entry_stock e))
             (StockQuery.combo_market_stock e) /\
  length xs = length ys /\
  (2 <= length xs)%nat /\
  iloc_first xs = Ok (m_start m) /\
  iloc_last xs = Ok (m_end m) /\
  iloc_last ys = Ok (m_cum m).
Proof.
  unfold StockQuery.show_stock.
  destruct (negb (PyStr.truthy (PyStr.strip (StockQuery.entry_stock e))));
    [discriminate|].
  destruct (fetch_price_and_metrics yf_download to_datetime _ _ _)
    as [[df m']|] eqn:Hf; [|discriminate].
  intros H. injection H as <- <- <- <-.
  unfold fetch_price_and_metrics in Hf.
  destruct (load_prices yf_download to_datetime _ _ _) as [frame|];
    [|discriminate].
  cbn [bind] in Hf.
  destruct (compute_metrics_inv _ Hf) as (Hlen & Hcum & Hdates & _ & cl & Hcl & Hm).
  destruct (FetchMore.compute_metrics_ok_inv _ Hf)
    as (k1 & k2 & ks & cl' & Ek & _ & _ & _ & Em).
  split; [reflexivity|]. split; [now rewrite !length_map|].
  split; [rewrite length_map, Hlen, Ek; cbn; lia|].
  rewrite Hdates, Ek. split; [|split].
  - rewrite Em. reflexivity.
  - rewrite Em. cbn [summary_of m_end].
    apply (iloc_last_map_cons (fun x : Z * flt * flt => fst (fst x))).
  - rewrite <- (map_map CumReturn (fun c => fmul c (Fin 100))), Hcum.
    rewrite iloc_last_map, Hcl, Hm. reflexivity.
Qed.

(** The retirement form and the stock query fetch alike: for the same
    ticker, market and dates, whenever the retirement form shows a result
    the stock query shows a chart with the same summary. *)
Theorem forms_agree (e : entries) (rw need : flt) (table : list year_row)
    (m : metrics) :
  calculate_retirement yf_download to_datetime py_float e
  = Shown rw need table m ->
  exists xs ys,
    StockQuery.show_stock yf_download to_datetime
      (StockQuery.mkStockEntries (entry_tic_ret e) (combo_market_ret e)
         (entry_ret_start e) (entry_ret_end e))
    = StockQuery.StockShown
        (Ticker.format_ticker (PyStr.strip (entry_tic_ret e))
           (combo_market_ret e)) xs ys m.
Proof.
  unfold calculate_retirement, StockQuery.show_stock.
  cbn [StockQuery.entry_stock StockQuery.combo_market_stock
       StockQuery.entry_start StockQuery.entry_end].
  destruct (py_float (entry_expense e)); [|discriminate].
  destruct (py_float (entry_infl e)); [|discriminate].
  destruct (negb (PyStr.truthy (PyStr.strip (entry_tic_ret e))));
    [discriminate|].
  destruct (fetch_price_and_metrics yf_download to_datetime _ _ _)
    as [[df m']|]; [|discriminate].
  unfold estimate.
  destruct (fle0 _); [discriminate|].
  intros H. injection H as _ _ _ <-. eauto.
Qed.

(** The two variants of [calculate_retirement] agree: the first variant
    shows what the second shows, without the table and with one message
    for both number-format errors. *)
Theorem variants_agree (e : entries) :
  Group16Final.calculate_retirement yf_download to_datetime py_float e
  = without_table (calculate_retirement yf_download to_datetime py_float e).
Proof.
  unfold Group16Final.calculate_retirement, calculate_retirement.
  destruct (py_float (entry_expense e)) as [expense|];
    destruct (py_float (entry_infl e)) as [infl|]; try reflexivity.
  destruct (negb (PyStr.truthy (PyStr.strip (entry_tic_ret e))));
    [reflexivity|].
  destruct (fetch_price_and_metrics yf_download to_datetime _ _ _)
    as [[df m]|]; [|reflexivity].
  unfold estimate. destruct (fle0 _); reflexivity.
Qed.

End Forms.

(** *** The forms on the doubling series *)

Lemma fetch_doubling (t : string) :
  exists rows m,
    fetch_price_and_metrics (fun _ => table_of doubling) (fun _ => None)
      t None None = Ok (rows, m) /\
    m_ann m = Fin doubling_ann.
Proof.
  destruct (@compute_metrics_price_series 19724%Z 1 (19725%Z, 2)
              [(19726%Z, 4); (19727%Z, 8)]
              doubling_positive doubling_increasing ltac:(discriminate))
    as [_ E].
  cbn [last fst snd] in E.
  eexists. eexists. split.
  - unfold fetch_price_and_metrics.
    rewrite (@load_prices_table_of (fun _ => None) t doubling) by discriminate.
    cbn [bind]. exact E.
  - cbn [summary_of m_ann].
    rewrite cagr_of_positive by (lra || lia). reflexivity.
Qed.

Lemma demo_shown :
  exists rows m,
    calculate_retirement (fun _ => table_of doubling) (fun _ => None)
      demo_float demo_entries
    = Shown (Fin (doubling_ann / 100 - 2 / 100))
            (Fin (40000 / (doubling_ann / 100 - 2 / 100))) (summary rows) m.
Proof.
  destruct (fetch_doubling
              (Ticker.format_ticker (PyStr.strip (entry_tic_ret demo_entries))
                 (combo_market_ret demo_entries)))
    as (rows & m & Hf & Hm).
  exists rows, m.
  rewrite (@calculate_retirement_fetched (fun _ => table_of doubling)
             (fun _ => None) demo_float demo_entries (Fin 40000) (Fin 2)
             rows m eq_refl eq_refl eq_refl Hf).
  rewrite fdiv_fin by lra.
  apply (proj2 (@estimate_finite 40000 doubling_ann (2 / 100) rows m Hm)).
  pose proof doubling_ann_large. lra.
Qed.

Lemma shown_capital_covers_expense_witness :
  exists rows m,
    calculate_retirement (fun _ => table_of doubling) (fun _ => None)
      demo_float demo_entries
    = Shown (Fin (doubling_ann / 100 - 2 / 100))
            (Fin (40000 / (doubling_ann / 100 - 2 / 100))) (summary rows) m /\
    0 < doubling_ann / 100 - 2 / 100 /\
    exists infl_pct,
      demo_float (entry_infl demo_entries) = Some infl_pct /\
      Fin (doubling_ann / 100 - 2 / 100)
      = fsub (fdiv (m_ann m) (Fin 100)) (fdiv infl_pct (Fin 100)).
Proof.
  destruct demo_shown as (rows & m & H).
  destruct (@shown_capital_covers_expense (fun _ => table_of doubling)
              (fun _ => None) demo_float demo_entries 40000 _ _ _ _
              eq_refl H) as (H1 & _ & df & infl_pct & H3 & _ & _ & H6).
  exists rows, m. split; [exact H|]. split; [exact H1|].
  exists infl_pct. split; [exact H3|exact H6].
Defined.

Lemma nan_inflation_passes_guard_witness :
  exists rows m,
    calculate_retirement (fun _ => table_of doubling) (fun _ => None)
      nan_float nan_entries
    = Shown NaN NaN (summary rows) m.
Proof.
  destruct (fetch_doubling
              (Ticker.format_ticker (PyStr.strip (entry_tic_ret nan_entries))
                 (combo_market_ret nan_entries)))
    as (rows & m & Hf & _).
  exists rows, m.
  exact (@nan_inflation_passes_guard (fun _ => table_of doubling)
           (fun _ => None) nan_float nan_entries (Fin 40000) rows m
           eq_refl eq_refl eq_refl Hf).
Defined.

Lemma capital_grows_with_inflation_witness :
  exists r1 r2 c1 c2,
    estimate (Fin 40000) (Fin (2 / 100)) []
      (mkMetrics 0 365 1 (Fin 7) (Fin 7) (Fin 10) (Fin (7 / 10)) NaN)
    = Shown (Fin r1) (Fin c1) (summary [])
        (mkMetrics 0 365 1 (Fin 7) (Fin 7) (Fin 10) (Fin (7 / 10)) NaN) /\
    estimate (Fin 40000) (Fin (3 / 100)) []
      (mkMetrics 0 365 1 (Fin 7) (Fin 7) (Fin 10) (Fin (7 / 10)) NaN)
    = Shown (Fin r2) (Fin c2) (summary [])
        (mkMetrics 0 365 1 (Fin 7) (Fin 7) (Fin 10) (Fin (7 / 10)) NaN) /\
    r2 <= r1 /\ c1 <= c2.
Proof.
  apply (@capital_grows_with_inflation 40000 7 (2 / 100) (3 / 100) []
           (mkMetrics 0 365 1 (Fin 7) (Fin 7) (Fin 10) (Fin (7 / 10)) NaN)
           eq_refl); lra.
Defined.

Lemma stock_demo_shown :
  exists rows m,
    StockQuery.show_stock (fun _ => table_of doubling) (fun _ => None)
      stock_demo
    = StockQuery.StockShown "DBL" (map Date rows)
        (map (fun r => fmul (CumReturn r) (Fin 100)) rows) m.
Proof.
  destruct (fetch_doubling "DBL") as (rows & m & Hf & _).
  exists rows, m. unfold StockQuery.show_stock.
  change (PyStr.strip (StockQuery.entry_stock stock_demo)) with "dbl"%string.
  change (Ticker.format_ticker "dbl" (StockQuery.combo_market_stock stock_demo))
    with "DBL"%string.
  change (or_none (PyStr.strip (StockQuery.entry_start stock_demo)))
    with (@None string).
  change (or_none (PyStr.strip (StockQuery.entry_end stock_demo)))
    with (@None string).
  cbn [PyStr.truthy negb]. rewrite Hf. reflexivity.
Qed.

Lemma chart_matches_summary_witness :
  exists xs ys m,
    StockQuery.show_stock (fun _ => table_of doubling) (fun _ => None)
      stock_demo
    = StockQuery.StockShown "DBL" xs ys m /\
    length xs = length ys /\
    iloc_first xs = Ok (m_start m) /\
    iloc_last xs = Ok (m_end m) /\
    iloc_last ys = Ok (m_cum m).
Proof.
  destruct stock_demo_shown as (rows & m & H).
  destruct (@chart_matches_summary (fun _ => table_of doubling)
              (fun _ => None) stock_demo _ _ _ _ H)
    as (_ & H2 & _ & H4 & H5 & H6).
  eexists. eexists. exists m. split; [exact H|].
  repeat split; assumption.
Defined.

Lemma forms_agree_witness :
  exists xs ys m,
    StockQuery.show_stock (fun _ => table_of doubling) (fun _ => None)
      (StockQuery.mkStockEntries (entry_tic_ret demo_entries)
         (combo_market_ret demo_entries) (entry_ret_start demo_entries)
         (entry_ret_end demo_entries))
    = StockQuery.StockShown
        (Ticker.format_ticker (PyStr.strip (entry_tic_ret demo_entries))
           (combo_market_ret demo_entries)) xs ys m.
Proof.
  destruct demo_shown as (rows & m & H).
  destruct (@forms_agree (fun _ => table_of doubling) (fun _ => None)
              demo_float demo_entries _ _ _ _ H) as (xs & ys & H').
  exists xs, ys, m. exact H'.
Defined.

End FormsMore.

(** ** Of the failures of a fetch *)

Module ErrorsMore.

Import Float Py Pandas Metrics Statements Examples.
Import MoreStatements MoreExamples.
Import SeriesProps LoadProps MetricsProps.
Local Open Scope R_scope.

(** The second half of [fetch_price_and_metrics] raises no [ValueError]. *)
Lemma compute_metrics_raises (df : list (Z * flt)) (e : exn) :
  compute_metrics df = Raise e -> e = IndexError \/ e = ZeroDivisionError.
Proof.
  unfold compute_metrics.
  destruct (with_returns df) as [|k1 ks].
  - cbn. intros H. injection H as <-. now left.
  - rewrite (iloc_last_map_cons (fun x : Z * flt * flt => fst (fst x))).
    rewrite (iloc_last_map_cons (fun x : Z * flt * flt => snd (fst x))).
    cbn [map iloc_first bind]. unfold py_div.
    destruct (Req_dec_T _ 0).
    + cbn [bind]. intros H. injection H as <-. now right.
    + cbn [bind].
      destruct (iloc_last _) as [cl|e'] eqn:Ec; [discriminate|].
      exfalso. unfold cum_returns, cumprod in Ec.
      cbn [map cumprod_from] in Ec.
      destruct (is_nan _) in Ec; rewrite iloc_last_map_cons in Ec;
        discriminate.
Qed.

Lemma out_of_bounds (lo hi : option Z) (b : Z * flt) :
  not_before lo b && not_after hi b = false <-> ~ within lo hi (fst b).
Proof.
  unfold within, not_before, not_after.
  destruct lo as [sd|], hi as [ed|]; cbn [andb].
  - destruct (Z.leb_spec sd (fst b)), (Z.leb_spec (fst b) ed); cbn [andb];
      split; intros Hw; try reflexivity; try discriminate; try lia; try tauto.
  - rewrite andb_true_r.
    destruct (Z.leb_spec sd (fst b));
      split; intros Hw; try reflexivity; try discriminate; try lia; try tauto.
  - destruct (Z.leb_spec (fst b) ed);
      split; intros Hw; try reflexivity; try discriminate; try lia; try tauto.
  - split; [discriminate|tauto].
Qed.

(** The "no trading data in the period" error means what it says:
    whenever [fetch_price_and_metrics] raises it, the provider table was
    usable, the date arguments that were given parsed, and no row of the
    table lies between the bounds. *)
Theorem empty_range_means_no_row_in_bounds
    (yf_download : string -> DataFrame) (to_datetime : string -> option Z)
    (ticker : string) (start_date end_date : option string) :
  fetch_price_and_metrics yf_download to_datetime ticker start_date end_date
  = Raise EmptyRange ->
  df_empty (yf_download ticker) = false /\
  has_column "Adj Close" (yf_download ticker) = true /\
  exists lo hi,
    bound to_datetime start_date = Some lo /\
    bound to_datetime end_date = Some hi /\
    forall b, In b (reset_index (yf_download ticker)) ->
              ~ within lo hi (fst b).
Proof.
  intros H.
  destruct (df_empty (yf_download ticker)) eqn:He.
  { exfalso. unfold fetch_price_and_metrics, load_prices in H.
    rewrite flatten_empty, He in H. discriminate. }
  destruct (has_column "Adj Close" (yf_download ticker)) eqn:Hc.
  2:{ exfalso. unfold fetch_price_and_metrics, load_prices in H.
      rewrite flatten_empty, flatten_has_column, He, Hc in H. discriminate. }
  split; [reflexivity|]. split; [reflexivity|].
  destruct (bound to_datetime start_date) as [lo|] eqn:Hlo.
  2:{ exfalso. unfold fetch_price_and_metrics, load_prices in H.
      rewrite flatten_empty, flatten_has_column, He, Hc in H.
      cbn [orb negb] in H. unfold bound in Hlo.
      destruct (given start_date) as [s|]; [|discriminate].
      destruct (to_datetime s); discriminate. }
  destruct (bound to_datetime end_date) as [hi|] eqn:Hhi.
  2:{ exfalso. unfold fetch_price_and_metrics, load_prices in H.
      rewrite flatten_empty, flatten_has_column, He, Hc in H.
      cbn [orb negb] in H. unfold bound in Hhi.
      destruct (given end_date) as [s|]; [|discriminate].
      destruct (to_datetime s); [discriminate|].
      destruct (given start_date) as [s0|]; [|discriminate].
      destruct (to_datetime s0); discriminate. }
  exists lo, hi. split; [reflexivity|]. split; [reflexivity|].
  intros b Hb. apply out_of_bounds.
  unfold fetch_price_and_metrics in H.
  rewrite (load_prices_filtered _ _ _ _ _ He Hc Hlo Hhi) in H.
  cbv zeta in H.
  destruct (filter (not_after hi)
              (filter (not_before lo) (reset_index (yf_download ticker))))
    as [|b0 l] eqn:E.
  - destruct (not_before lo b && not_after hi b) eqn:Eb; [|reflexivity].
    apply andb_true_iff in Eb. destruct Eb as [E1 E2].
    assert (Hin : In b (filter (not_after hi)
                          (filter (not_before lo)
                             (reset_index (yf_download ticker))))).
    { apply filter_In. split; [|exact E2].
      apply filter_In. split; [exact Hb|exact E1]. }
    rewrite E in Hin. destruct Hin.
  - cbn [is_nil bind] in H.
    apply compute_metrics_raises in H. destruct H; discriminate.
Qed.

Lemma three_days_empty_range :
  fetch_price_and_metrics (fun _ => table_of three_days) parse_oct4
    "AAPL" (Some "2024-10-04"%string) None = Raise EmptyRange.
Proof.
  apply (@load_prices_no_rows (fun _ => table_of three_days) parse_oct4
           "AAPL" (Some "2024-10-04"%string) None (Some 20000%Z) None
           eq_refl eq_refl eq_refl eq_refl).
  intros b Hb.
  change (reset_index (table_of three_days))
    with [(19724%Z, Fin 100); (19725%Z, Fin 101); (19726%Z, Fin 102)] in Hb.
  destruct Hb as [<-|[<-|[<-|[]]]]; reflexivity.
Qed.

Lemma empty_range_means_no_row_in_bounds_witness :
  fetch_price_and_metrics (fun _ => table_of three_days) parse_oct4
    "AAPL" (Some "2024-10-04"%string) None = Raise EmptyRange /\
  forall b, In b (reset_index (table_of three_days)) ->
            ~ within (Some 20000%Z) None (fst b).
Proof.
  split; [exact three_days_empty_range|].
  destruct (@empty_range_means_no_row_in_bounds
              (fun _ => table_of three_days) parse_oct4 "AAPL"
              (Some "2024-10-04"%string) None three_days_empty_range)
    as (_ & _ & lo & hi & Hlo & Hhi & Hnone).
  change (bound parse_oct4 (Some "2024-10-04"%string))
    with (Some (Some 20000%Z)) in Hlo.
  change (bound parse_oct4 None) with (Some (@None Z)) in Hhi.
  injection Hlo as <-. injection Hhi as <-. exact Hnone.
Defined.

End ErrorsMore.

(** ** More of the ticker normalisation *)

Module TickerMore.

Import PyStr Ticker MoreStatements.
Local Open Scope string_scope.

Lemma is_space_upper_char (c : ascii) : is_space (upper_char c) = is_space c.
Proof. destruct c as [[] [] [] [] [] [] [] []]; reflexivity. Qed.

Lemma upper_char_idem (c : ascii) : upper_char (upper_char c) = upper_char c.
Proof. destruct c as [[] [] [] [] [] [] [] []]; reflexivity. Qed.

Lemma upper_idem (s : string) : upper (upper s) = upper s.
Proof.
  induction s as [|c s IH]; [reflexivity|].
  cbn [upper]. now rewrite upper_char_idem, IH.
Qed.

Lemma upper_app (a b : string) : upper (a ++ b) = upper a ++ upper b.
Proof.
  induction a as [|c a IH]; [reflexivity|].
  cbn [upper append]. now rewrite IH.
Qed.

Lemma upper_lstrip (s : string) : upper (lstrip s) = lstrip (upper s).
Proof.
  induction s as [|c s IH]; [reflexivity|].
  cbn [lstrip upper]. rewrite is_space_upper_char.
  destruct (is_space c); [exact IH|reflexivity].
Qed.

Lemma upper_rev_onto (s acc : string) :
  upper (rev_onto s acc) = rev_onto (upper s) (upper acc).
Proof.
  revert acc. induction s as [|c s IH]; intros acc; [reflexivity|].
  cbn [rev_onto upper]. now rewrite IH.
Qed.

Lemma upper_strip (s : string) : upper (strip s) = strip (upper s).
Proof.
  unfold strip, rstrip, rev.
  now rewrite upper_rev_onto, upper_lstrip, upper_rev_onto, upper_lstrip.
Qed.

Lemma append_assoc (a b c : string) : (a ++ b) ++ c = a ++ (b ++ c).
Proof.
  induction a as [|x a IH]; [reflexivity|].
  cbn [append]. now rewrite IH.
Qed.

Lemma append_nil_r (s : string) : s ++ EmptyString = s.
Proof.
  induction s as [|c s IH]; [reflexivity|]. cbn [append]. now rewrite IH.
Qed.

Lemma rev_onto_app (s acc : string) : rev_onto s acc = rev s ++ acc.
Proof.
  unfold rev. revert acc. induction s as [|c s IH]; intros acc; [reflexivity|].
  cbn [rev_onto]. rewrite (IH (String c acc)), (IH (String c EmptyString)).
  now rewrite append_assoc.
Qed.

Lemma rev_onto_twice (s a b : string) :
  rev_onto (rev_onto s a) b = rev_onto a (s ++ b).
Proof.
  revert a b. induction s as [|c s IH]; intros a b; [reflexivity|].
  cbn [rev_onto append]. now rewrite IH.
Qed.

Lemma rev_rev (s : string) : rev (rev s) = s.
Proof.
  unfold rev. rewrite rev_onto_twice. cbn [rev_onto]. apply append_nil_r.
Qed.

Lemma rev_append (a b : string) : rev (a ++ b) = rev b ++ rev a.
Proof.
  assert (H : forall acc, rev_onto (a ++ b) acc = rev_onto b (rev_onto a acc)).
  { induction a as [|c a IH]; intros acc; [reflexivity|].
    cbn [append rev_onto]. apply IH. }
  unfold rev at 1. rewrite H. apply rev_onto_app.
Qed.

Lemma all_space_app (a b : string) :
  all_space (a ++ b) = all_space a && all_space b.
Proof.
  induction a as [|c a IH]; [reflexivity|].
  cbn [append all_space]. now rewrite IH, andb_assoc.
Qed.

Lemma all_space_rev (s : string) : all_space (rev s) = all_space s.
Proof.
  induction s as [|c s IH]; [reflexivity|].
  unfold rev. cbn [rev_onto]. rewrite rev_onto_app, all_space_app, IH.
  cbn [all_space]. rewrite andb_true_r. apply andb_comm.
Qed.

Lemma lstrip_all_space (s : string) :
  all_space s = true -> lstrip s = EmptyString.
Proof.
  induction s as [|c s IH]; [reflexivity|]. cbn [all_space lstrip].
  destruct (is_space c); [exact IH|discriminate].
Qed.

Lemma lstrip_empty (s : string) :
  lstrip s = EmptyString -> all_space s = true.
Proof.
  induction s as [|c s IH]; [reflexivity|]. cbn [all_space lstrip].
  destruct (is_space c); [exact IH|discriminate].
Qed.

Lemma all_space_lstrip (s : string) :
  all_space (lstrip s) = all_space s.
Proof.
  induction s as [|c s IH]; [reflexivity|]. cbn [lstrip all_space].
  destruct (is_space c) eqn:E; [exact IH|].
  cbn [all_space]. now rewrite E.
Qed.

Lemma lstrip_app (a b : string) :
  lstrip (a ++ b) = if all_space a then lstrip b else lstrip a ++ b.
Proof.
  induction a as [|c a IH]; [reflexivity|].
  cbn [append lstrip all_space].
  destruct (is_space c); [exact IH|reflexivity].
Qed.

Lemma lstrip_idem (s : string) : lstrip (lstrip s) = lstrip s.
Proof.
  induction s as [|c s IH]; [reflexivity|]. cbn [lstrip].
  destruct (is_space c) eqn:E; [exact IH|]. cbn [lstrip]. now rewrite E.
Qed.

Lemma rstrip_app (a b : string) :
  rstrip (a ++ b) = if all_space b then rstrip a else a ++ rstrip b.
Proof.
  unfold rstrip. rewrite rev_append, lstrip_app, all_space_rev.
  destruct (all_space b); [reflexivity|].
  now rewrite rev_append, rev_rev.
Qed.

Lemma rstrip_idem (s : string) : rstrip (rstrip s) = rstrip s.
Proof.
  unfold rstrip. now rewrite rev_rev, lstrip_idem.
Qed.

(** A string that [lstrip] leaves alone is still left alone after
    [rstrip]. *)
Lemma lstrip_rstrip (s : string) : lstrip s = s -> lstrip (rstrip s) = rstrip s.
Proof.
  intros H. destruct s as [|c t]; [reflexivity|].
  destruct (is_space c) eqn:E.
  - exfalso. cbn [lstrip] in H. rewrite E in H.
    assert (L : forall u, String.length (lstrip u) <= String.length u).
    { clear. induction u as [|x u IH]; [apply Nat.le_refl|].
      cbn [lstrip]. destruct (is_space x); cbn [String.length]; lia. }
    specialize (L t). rewrite H in L. cbn [String.length] in L. lia.
  - change (String c t) with (String c EmptyString ++ t).
    rewrite rstrip_app. destruct (all_space t).
    + unfold rstrip, rev. cbn [rev_onto lstrip]. rewrite E.
      cbn [rev_onto lstrip]. now rewrite E.
    + cbn [append lstrip]. now rewrite E.
Qed.

Lemma strip_idem (s : string) : strip (strip s) = strip s.
Proof.
  unfold strip.
  rewrite (lstrip_rstrip (lstrip_idem s)). apply rstrip_idem.
Qed.

Lemma strip_app_l (pad s : string) :
  all_space pad = true -> strip (pad ++ s) = strip s.
Proof.
  intros H. unfold strip. now rewrite lstrip_app, H.
Qed.

Lemma strip_app_r (s pad : string) :
  all_space pad = true -> strip (s ++ pad) = strip s.
Proof.
  intros H. unfold strip. rewrite lstrip_app.
  destruct (all_space s) eqn:E.
  - rewrite (lstrip_all_space _ H), (lstrip_all_space _ E). reflexivity.
  - now rewrite rstrip_app, H.
Qed.


(** [strip] leaves nothing exactly of a blank string. *)
Lemma strip_blank_iff (s : string) :
  strip s = EmptyString <-> all_space s = true.
Proof.
  split.
  - intros H. unfold strip, rstrip in H.
    apply (f_equal rev) in H. rewrite rev_rev in H.
    change (rev EmptyString) with EmptyString in H.
    apply lstrip_empty in H.
    now rewrite all_space_rev, all_space_lstrip in H.
  - intros H. unfold strip. now rewrite (lstrip_all_space _ H).
Qed.

Lemma strip_upper_strip (raw : string) :
  strip (upper (strip raw)) = upper (strip raw).
Proof. now rewrite <- upper_strip, strip_idem. Qed.

(** A stripped string followed by a suffix that has no whitespace at
    either end is stripped. *)
Lemma strip_app_suffix (u suf : string) :
  strip u = u -> all_space suf = false -> strip suf = suf ->
  strip (u ++ suf) = u ++ suf.
Proof.
  intros Hu Hb Hs.
  assert (Hl : lstrip u = u).
  { rewrite <- Hu. unfold strip. apply lstrip_rstrip, lstrip_idem. }
  assert (Hr : rstrip suf = suf).
  { rewrite <- Hs. unfold strip. apply rstrip_idem. }
  unfold strip. rewrite lstrip_app. destruct (all_space u) eqn:E.
  - assert (Eu : u = EmptyString).
    { rewrite <- Hu. unfold strip. now rewrite (lstrip_all_space _ E). }
    rewrite Eu. exact Hs.
  - now rewrite Hl, rstrip_app, Hb, Hr.
Qed.

Lemma suffix_cases (market : string) :
  dict_get suffix_table market EmptyString = EmptyString \/
  dict_get suffix_table market EmptyString = ".TW" \/
  dict_get suffix_table market EmptyString = ".T" \/
  dict_get suffix_table market EmptyString = ".L".
Proof.
  unfold suffix_table, dict_get.
  destruct (String.eqb Taiwan market); [auto|].
  destruct (String.eqb Japan market); [auto|].
  destruct (String.eqb UK market); auto.
Qed.

Lemma formatted_fixed (raw market : string) :
  strip (format_ticker raw market) = format_ticker raw market /\
  upper (format_ticker raw market) = format_ticker raw market.
Proof.
  unfold format_ticker. destruct (String.eqb market US).
  - split; [apply strip_upper_strip|apply upper_idem].
  - destruct (suffix_cases market) as [E|[E|[E|E]]]; rewrite E.
    + rewrite append_nil_r.
      split; [apply strip_upper_strip|apply upper_idem].
    + split.
      * apply strip_app_suffix; [apply strip_upper_strip| |]; reflexivity.
      * now rewrite upper_app, upper_idem.
    + split.
      * apply strip_app_suffix; [apply strip_upper_strip| |]; reflexivity.
      * now rewrite upper_app, upper_idem.
    + split.
      * apply strip_app_suffix; [apply strip_upper_strip| |]; reflexivity.
      * now rewrite upper_app, upper_idem.
Qed.

(** [format_ticker] reads the raw symbol without regard to the whitespace
    around it and to the case of its letters; the [strip] that the
    callers apply beforehand changes nothing. *)
Theorem format_ticker_ignores_padding_and_case
    (pad_l raw pad_r market : string) :
  all_space pad_l = true -> all_space pad_r = true ->
  format_ticker (pad_l ++ raw ++ pad_r) market = format_ticker raw market /\
  format_ticker (upper raw) market = format_ticker raw market /\
  format_ticker (strip raw) market = format_ticker raw market.
Proof.
  intros Hl Hr. unfold format_ticker.
  rewrite (@strip_app_l pad_l (raw ++ pad_r) Hl), (@strip_app_r raw pad_r Hr).
  rewrite <- upper_strip, upper_idem, strip_idem. repeat split.
Qed.

Lemma format_ticker_ignores_padding_and_case_witness :
  format_ticker "  bhp " UK = format_ticker "bhp" UK /\
  format_ticker "BHP" UK = format_ticker "bhp" UK.
Proof.
  destruct (@format_ticker_ignores_padding_and_case "  " "bhp" " " UK
              eq_refl eq_refl) as (H1 & H2 & _).
  split; [exact H1|exact H2].
Defined.

(** A formatted ticker is in normal form, and formatting does not look
    for a suffix that is already there: stripping or uppercasing a
    formatted ticker changes nothing, formatting it again for the domestic
    market gives it back, and formatting it again for Taiwan, Japan or the
    UK appends that market's suffix once more. *)
Theorem format_ticker_twice (raw market : string) :
  strip (format_ticker raw market) = format_ticker raw market /\
  upper (format_ticker raw market) = format_ticker raw market /\
  format_ticker (format_ticker raw market) US = format_ticker raw market /\
  format_ticker (format_ticker raw market) Taiwan
  = format_ticker raw market ++ ".TW" /\
  format_ticker (format_ticker raw market) Japan
  = format_ticker raw market ++ ".T" /\
  format_ticker (format_ticker raw market) UK
  = format_ticker raw market ++ ".L".
Proof.
  destruct (formatted_fixed raw market) as [Hs Hu].
  split; [exact Hs|]. split; [exact Hu|].
  assert (H : forall m, format_ticker (format_ticker raw market) m
                        = if String.eqb m US then format_ticker raw market
                          else format_ticker raw market
                               ++ dict_get suffix_table m EmptyString).
  { intros m. unfold format_ticker at 1. now rewrite Hs, Hu. }
  rewrite !H. repeat split.
Qed.

End TickerMore.

(** ** Of blank entries *)

Module EntriesMore.

Import Float Py Pandas Metrics Retirement Statements Examples.
Import MoreStatements TickerMore.
Local Open Scope string_scope.

Section Entries.

Variable yf_download : string -> DataFrame.
Variable to_datetime : string -> option Z.

(** [show_stock] asks for a ticker exactly when the ticker entry is empty
    or whitespace only, and then nothing is fetched; a date entry that is
    empty or whitespace only stands for no bound, and no date is parsed
    for it. *)
Theorem blank_entries_of_stock_query (e : StockQuery.stock_entries) :
  (StockQuery.show_stock yf_download to_datetime e
   = StockQuery.StockError "錯誤" "請輸入股票代號" <->
   all_space (StockQuery.entry_stock e) = true) /\
  (all_space (StockQuery.entry_start e) = true ->
   all_space (StockQuery.entry_end e) = true ->
   forall to_datetime' : string -> option Z,
     StockQuery.show_stock yf_download to_datetime e
     = StockQuery.show_stock yf_download to_datetime'
         (StockQuery.mkStockEntries (StockQuery.entry_stock e)
            (StockQuery.combo_market_stock e) EmptyString EmptyString)).
Proof.
  split.
  - unfold StockQuery.show_stock. split.
    + intros H.
      destruct (PyStr.strip (StockQuery.entry_stock e)) as [|c t] eqn:E.
      * now apply strip_blank_iff.
      * cbn [PyStr.truthy negb] in H.
        destruct (fetch_price_and_metrics _ _ _ _ _) as [[df m]|];
          discriminate.
    + intros H. apply strip_blank_iff in H. rewrite H. reflexivity.
  - intros Hs He to_datetime'. unfold StockQuery.show_stock.
    cbn [StockQuery.entry_stock StockQuery.combo_market_stock
         StockQuery.entry_start StockQuery.entry_end].
    rewrite (proj2 (strip_blank_iff _) Hs), (proj2 (strip_blank_iff _) He).
    reflexivity.
Qed.

End Entries.

Lemma blank_entries_of_stock_query_witness :
  StockQuery.show_stock (fun _ => table_of doubling) (fun _ => None)
    (StockQuery.mkStockEntries "   " Ticker.Taiwan "2024-01-03" EmptyString)
  = StockQuery.StockError "錯誤" "請輸入股票代號" /\
  StockQuery.show_stock (fun _ => table_of doubling) (fun _ => None)
    (StockQuery.mkStockEntries "dbl" Ticker.US "  " " ")
  = StockQuery.show_stock (fun _ => table_of doubling) parse_jan3
      (StockQuery.mkStockEntries "dbl" Ticker.US EmptyString EmptyString).
Proof.
  split.
  - apply (proj2 (proj1 (@blank_entries_of_stock_query
                           (fun _ => table_of doubling) (fun _ => None)
                           (StockQuery.mkStockEntries "   " Ticker.Taiwan
                              "2024-01-03" EmptyString)))).
    reflexivity.
  - exact (proj2 (@blank_entries_of_stock_query
                    (fun _ => table_of doubling) (fun _ => None)
                    (StockQuery.mkStockEntries "dbl" Ticker.US "  " " "))
                 eq_refl eq_refl parse_jan3).
Defined.

End EntriesMore.

(** ** Of the window: screens and music *)

Module ShellMore.

Import MoreStatements.

(** Whatever was on the screen and whichever buttons were pressed before,
    after a button is pressed exactly its screen is packed: the home
    canvas, the stock query or the retirement form. *)
Theorem last_button_decides (s : Navigation.screens)
    (bs : list Navigation.button) (b : Navigation.button) :
  Navigation.press_all (bs ++ [b]) s = shows (screen_of b).
Proof.
  unfold Navigation.press_all. rewrite fold_left_app. cbn [fold_left].
  destruct b; reflexivity.
Qed.

Lemma toggle_keeps_mixer (f : option Music.failure) (s : Music.state) :
  Music.mixer_busy s = Music.is_music_playing s ->
  (Music.is_music_playing s = true ->
   Music.mixer_loaded s = Some "Moon.mp3"%string /\
   Music.mixer_volume s = Some 0.5%R) ->
  let s' := fst (Music.toggle_music f s) in
  Music.mixer_busy s' = Music.is_music_playing s' /\
  (Music.is_music_playing s' = true ->
   Music.mixer_loaded s' = Some "Moon.mp3"%string /\
   Music.mixer_volume s' = Some 0.5%R).
Proof.
  intros Hb Hl. unfold Music.toggle_music.
  destruct (Music.is_music_playing s) eqn:E.
  - destruct f as [[| | | | |]|]; cbn; rewrite ?E; repeat split;
      try assumption; try discriminate; try reflexivity;
      try (now apply Hl).
  - destruct f as [[| | | | |]|]; cbn; rewrite ?E; repeat split;
      try assumption; try discriminate; try reflexivity.
Qed.

Lemma toggle_keeps_icon (f : option Music.failure) (s : Music.state) :
  icon_drawn f ->
  (Music.speaker_icon s
   = if Music.is_music_playing s then Music.SpeakerOn else Music.SpeakerOff) ->
  let s' := fst (Music.toggle_music f s) in
  Music.speaker_icon s'
  = if Music.is_music_playing s' then Music.SpeakerOn else Music.SpeakerOff.
Proof.
  intros [H1 H2] Hi. unfold Music.toggle_music.
  destruct (Music.is_music_playing s) eqn:E.
  - destruct f as [[| | | | |]|]; cbn; rewrite ?E; try reflexivity;
      try assumption; congruence.
  - destruct f as [[| | | | |]|]; cbn; rewrite ?E; try reflexivity;
      try assumption; congruence.
Qed.

(** However often the speaker is clicked from start-up and whichever
    calls of the handler fail, the flag [is_music_playing] is set exactly
    when the mixer is playing, and what plays is Moon.mp3 at half volume;
    the icon shows the speaker on exactly when the flag is set as long as
    no [itemconfig] call has failed. *)
Theorem flag_follows_mixer (fails : list (option Music.failure)) :
  let s := Music.toggle_all fails Music.initial in
  Music.mixer_busy s = Music.is_music_playing s /\
  (Music.is_music_playing s = true ->
   Music.mixer_loaded s = Some "Moon.mp3"%string /\
   Music.mixer_volume s = Some 0.5%R) /\
  (Forall icon_drawn fails ->
   Music.speaker_icon s
   = if Music.is_music_playing s then Music.SpeakerOn else Music.SpeakerOff).
Proof.
  unfold Music.toggle_all.
  assert (H : forall s,
             Music.mixer_busy s = Music.is_music_playing s ->
             (Music.is_music_playing s = true ->
              Music.mixer_loaded s = Some "Moon.mp3"%string /\
              Music.mixer_volume s = Some 0.5%R) ->
             let s' := fold_left (fun s f => fst (Music.toggle_music f s))
                                 fails s in
             Music.mixer_busy s' = Music.is_music_playing s' /\
             (Music.is_music_playing s' = true ->
              Music.mixer_loaded s' = Some "Moon.mp3"%string /\
              Music.mixer_volume s' = Some 0.5%R) /\
             (Forall icon_drawn fails ->
              (Music.speaker_icon s
               = if Music.is_music_playing s then Music.SpeakerOn
                 else Music.SpeakerOff) ->
              Music.speaker_icon s'
              = if Music.is_music_playing s' then Music.SpeakerOn
                else Music.SpeakerOff)).
  { induction fails as [|f fails IH]; intros s Hb Hl.
    - cbn [fold_left]. auto.
    - cbn [fold_left].
      destruct (toggle_keeps_mixer f s Hb Hl) as (H1 & H2).
      destruct (IH _ H1 H2) as (G1 & G2 & G3).
      split; [exact G1|]. split; [exact G2|].
      intros Hd Hi. apply Forall_cons_iff in Hd. destruct Hd as [Hf Hd].
      apply (G3 Hd). now apply toggle_keeps_icon. }
  destruct (H Music.initial eq_refl ltac:(discriminate)) as (G1 & G2 & G3).
  split; [exact G1|]. split; [exact G2|].
  intros Hd. now apply G3.
Qed.

Lemma flag_follows_mixer_witness :
  Music.speaker_icon
    (Music.toggle_all [Some Music.PlayFails; None; Some Music.StopFails; None]
       Music.initial)
  = Music.SpeakerOff /\
  Music.is_music_playing
    (Music.toggle_all [Some Music.PlayFails; None; Some Music.StopFails; None]
       Music.initial)
  = false.
Proof.
  destruct (flag_follows_mixer
              [Some Music.PlayFails; None; Some Music.StopFails; None])
    as (_ & _ & H).
  split; [|reflexivity].
  rewrite H; [reflexivity|].
  repeat constructor; discriminate.
Defined.

End ShellMore.

(** ** Of the two risk ratios *)

Module RiskMore.

Import Float Py Pandas Metrics Statements Examples.
Import MoreStatements MoreExamples.
Import SeriesProps LoadProps MetricsProps FetchProps FetchMore.
Local Open Scope R_scope.

Lemma Rsum_squares_about (c : R) (l : list R) :
  Rsum (map (fun x => (x - c) * (x - c)) l)
  = Rsum (map (fun x => x * x) l) - 2 * c * Rsum l + INR (length l) * (c * c).
Proof.
  unfold Rsum. induction l as [|x l IH].
  - cbn. lra.
  - cbn [map fold_right length]. rewrite IH, S_INR. lra.
Qed.

(** The squared deviations from the mean are the smallest. *)
Lemma Rsum_squares_mean_least (c : R) (l : list R) :
  l <> [] ->
  Rsum (map (fun x => (x - mean l) * (x - mean l)) l)
  <= Rsum (map (fun x => (x - c) * (x - c)) l).
Proof.
  intros Hne. rewrite !Rsum_squares_about.
  assert (Hn : 0 < INR (length l)).
  { destruct l; [contradiction|]. apply lt_0_INR. cbn. lia. }
  assert (Es : Rsum l = INR (length l) * mean l).
  { unfold mean. field. lra. }
  rewrite Es. generalize (mean l) (INR (length l)) Hn. intros m n Hn'.
  assert (H : 0 <= n * ((c - m) * (c - m))).
  { apply Rmult_le_pos; [lra|]. apply Rle_0_sqr. }
  lra.
Qed.

Lemma Rsum_le (f g : R -> R) (l : list R) :
  (forall x, f x <= g x) -> Rsum (map f l) <= Rsum (map g l).
Proof.
  intros H. unfold Rsum. induction l as [|x l IH]; cbn [map fold_right]; [lra|].
  specialize (H x). lra.
Qed.

Lemma Rmin0_contracts (x c : R) :
  (Rmin x 0 - Rmin c 0) * (Rmin x 0 - Rmin c 0) <= (x - c) * (x - c).
Proof.
  unfold Rmin. destruct (Rle_dec x 0) as [Hx|Hx], (Rle_dec c 0) as [Hc|Hc].
  - lra.
  - assert (H : 0 <= - x * c) by (apply Rmult_le_pos; lra). nra.
  - assert (H : 0 <= x * - c) by (apply Rmult_le_pos; lra). nra.
  - pose proof (Rle_0_sqr (x - c)) as H. unfold Rsqr in H. lra.
Qed.

(** Clipping at zero does not raise the sample variance. *)
Lemma sample_var_clipped (l : list R) :
  (2 <= length l)%nat ->
  sample_var (map (fun r => Rmin r 0) l) <= sample_var l.
Proof.
  intros Hn. unfold sample_var. rewrite length_map.
  assert (Hd : 0 < INR (length l) - 1).
  { apply le_INR in Hn. cbn in Hn. lra. }
  apply Rmult_le_compat_r; [apply Rlt_le, Rinv_0_lt_compat, Hd|].
  apply Rle_trans
    with (Rsum (map (fun y => (y - Rmin (mean l) 0) * (y - Rmin (mean l) 0))
                    (map (fun r => Rmin r 0) l))).
  - apply Rsum_squares_mean_least. destruct l; [cbn in Hn; lia|discriminate].
  - rewrite map_map. apply Rsum_le. intros x. apply Rmin0_contracts.
Qed.

(** For a valid price series of three or more observations, whenever the
    Sortino ratio is a number the Sharpe ratio is one too, of the same
    sign and no larger in magnitude: the downside deviation never exceeds
    the volatility. *)
Theorem sharpe_within_sortino
    (yf_download : string -> DataFrame) (to_datetime : string -> option Z)
    (ticker : string) (start_date end_date : option string)
    (d0 : Z) (p0 : R) (r1 : Z * R) (rest : list (Z * R)) :
  positive ((d0, p0) :: r1 :: rest) ->
  increasing ((d0, p0) :: r1 :: rest) ->
  rest <> [] ->
  load_prices yf_download to_datetime ticker start_date end_date
  = Ok (price_frame ((d0, p0) :: r1 :: rest)) ->
  exists rows m,
    fetch_price_and_metrics yf_download to_datetime ticker
      start_date end_date = Ok (rows, m) /\
    forall q, m_sortino m = Fin q ->
              exists s, m_sharpe m = Fin s /\
                        Rabs s <= Rabs q /\ 0 <= s * q.
Proof.
  intros Hpos Hinc Hne Hload.
  destruct (@fetch_price_series yf_download to_datetime ticker start_date
              end_date d0 p0 r1 rest Hpos Hinc Hne Hload)
    as (Hd & Hp1 & Hpn & _ & Hlen & rows & E).
  exists rows. eexists. split; [exact E|].
  cbn [summary_of m_sortino m_sharpe].
  assert (Hlen' : (2 <= length (map (fun r => Rmin r 0)
                                    (returns_from p0 (map snd (r1 :: rest)))))%nat)
    by now rewrite length_map.
  rewrite clip_fin, (@annualised_std_value _ Hlen'),
    (@annualised_std_value _ Hlen), (cagr_of_positive Hp1 Hpn Hd).
  pose proof (@sample_var_clipped _ Hlen) as Hv.
  pose proof (@sample_var_nonneg _ Hlen') as Hv0.
  pose proof sqrt_252_pos as H252.
  apply sqrt_le_1_alt in Hv.
  pose proof (sqrt_pos (sample_var (map (fun r => Rmin r 0)
                                        (returns_from p0 (map snd (r1 :: rest))))))
    as Hs0.
  set (sd := sqrt (sample_var (map (fun r => Rmin r 0)
                                   (returns_from p0 (map snd (r1 :: rest)))))) in *.
  set (sv := sqrt (sample_var (returns_from p0 (map snd (r1 :: rest))))) in *.
  assert (Hle : sd * sqrt 252 <= sv * sqrt 252)
    by (apply Rmult_le_compat_r; lra).
  assert (Hd0 : 0 <= sd * sqrt 252) by (apply Rmult_le_pos; lra).
  set (sigma_d := sd * sqrt 252) in *. set (sigma := sv * sqrt 252) in *.
  unfold truthy, fdiv, risk_free_rate. cbn [fsub fadd fneg].
  destruct (Req_dec_T sigma_d 0) as [E0|N0]; [discriminate|].
  destruct (Req_dec_T sigma 0) as [E1|N1]; [lra|].
  intros q Hq. injection Hq as <-. eexists. split; [reflexivity|].
  assert (Hsd : 0 < sigma_d) by lra.
  assert (Hsv : 0 < sigma) by lra.
  clearbody sigma_d sigma.
  match goal with |- Rabs (?a / _) <= _ /\ _ => generalize a end.
  intros a. split.
  - unfold Rdiv. rewrite !Rabs_mult.
    rewrite (Rabs_pos_eq (/ sigma)), (Rabs_pos_eq (/ sigma_d))
      by (apply Rlt_le, Rinv_0_lt_compat; assumption).
    apply Rmult_le_compat_l; [apply Rabs_pos|].
    apply Rinv_le_contravar; assumption.
  - replace (a / sigma * (a / sigma_d)) with (a * a * (/ sigma * / sigma_d))
      by (field; lra).
    apply Rmult_le_pos; [apply Rle_0_sqr|].
    apply Rlt_le, Rmult_lt_0_compat; apply Rinv_0_lt_compat; assumption.
Qed.

Lemma sortino_finite_on_peak :
  exists rows m q,
    fetch_price_and_metrics (fun _ => table_of peak) (fun _ => None)
      "PEAK" None None = Ok (rows, m) /\
    m_sortino m = Fin q.
Proof.
  destruct (@fetch_price_series
              (fun _ => table_of peak) (fun _ => None) "PEAK" None None
              19724%Z 100 (19725%Z, 110) [(19726%Z, 121); (19727%Z, 110)]
              peak_is_positive peak_is_increasing ltac:(discriminate)
              peak_loaded) as (Hd & Hp1 & Hpn & _ & Hlen & rows & E).
  exists rows. eexists. eexists. split; [exact E|].
  cbn [summary_of m_sortino].
  match type of Hlen with
  | (2 <= length ?l)%nat =>
      assert (Hlen' : (2 <= length (map (fun r => Rmin r 0) l))%nat)
        by now rewrite length_map
  end.
  rewrite clip_fin, (@annualised_std_value _ Hlen'),
    (cagr_of_positive Hp1 Hpn Hd).
  pose proof (@deviation_zero_iff _ Hlen') as Hz.
  unfold truthy, fdiv, risk_free_rate. cbn [fsub fadd fneg].
  destruct (Req_dec_T _ 0) as [E0|N0].
  - exfalso. apply peak_downside_differs. now apply Hz.
  - reflexivity.
Qed.

Lemma sharpe_within_sortino_witness :
  exists rows m q s,
    fetch_price_and_metrics (fun _ => table_of peak) (fun _ => None)
      "PEAK" None None = Ok (rows, m) /\
    m_sortino m = Fin q /\ m_sharpe m = Fin s /\ Rabs s <= Rabs q.
Proof.
  destruct (@sharpe_within_sortino
              (fun _ => table_of peak) (fun _ => None) "PEAK" None None
              19724%Z 100 (19725%Z, 110) [(19726%Z, 121); (19727%Z, 110)]
              peak_is_positive peak_is_increasing ltac:(discriminate)
              peak_loaded) as (rows & m & Hf & Hq).
  destruct sortino_finite_on_peak as (rows' & m' & q & Hf' & Eq).
  assert (Em : m' = m) by congruence.
  rewrite Em in Eq.
  destruct (Hq q Eq) as (s & Es & Hle & _).
  exists rows, m, q, s. repeat split; assumption.
Defined.

End RiskMore.
